(** * E-Comerce-PG: sessions, users and product normalisation

    A shallow embedding of the session-backed authentication layer
    ([app/db/mongo.py], [app/api/v1/endpoints/auth.py],
    [app/api/v1/endpoints/users.py]) and of the product normalisation
    ([app/api/v1/endpoints/products.py]), with the properties the
    specification states about them.

    Conventions.
    - A Python [dict] is an association list in insertion order, read by
      first match.  MongoDB documents are dicts; embedded documents are
      compared field by field in order, as the server does.
    - A Python [str] is a [string]; its characters stand for code points
      below 256.
    - A [datetime] is a number of microseconds since the epoch.  Where
      the program computes one ([now + timedelta(...)]) the bounds of
      [timedelta] and of [datetime] (years 1 to 9999) are checked, as the
      interpreter checks them.  Floating-point numbers do not occur among
      the values.
    - A collection is the list of its documents in natural order.  A
      document is kept as BSON keeps it: a [datetime] to the millisecond.
      The driver may refuse a document it is given to write; which ones it
      refuses is not the repository's to say and is an interface of the
      development.  The store itself does not fail otherwise: an
      operation on it raises only what the data makes it raise.  Filters
      are matched on the values as the program gives them.
    - [str(x)], the name of a type in an error message and the text of an
      [OverflowError] are the interpreter's: an interface as well.
    - What the program obtains from outside (the clock, [uuid4], the
      identity provider's answers, the process environment) is an explicit
      argument of the function that asks for it. *)

From Stdlib Require Import ZArith Lia Bool Ascii String List.
From stdpp Require Import base option list strings gmap.

Set Warnings "-register-all,-clear-no-such-hyp".
Local Open Scope string_scope.
Local Open Scope Z_scope.

(** ** Python values *)

Inductive value : Type :=
| VNone
| VBool (b : bool)
| VInt (n : Z)
| VStr (s : string)
| VTime (t : Z)
| VOid (h : string)
| VList (l : list value)
| VDict (d : list (string * value)).

Abbreviation dict := (list (string * value)).

(** Truth value of an object ([if x:], [x or y], [bool(x)]).  A [datetime]
    and an [ObjectId] are always true. *)
Definition truthy (v : value) : bool :=
  match v with
  | VNone => false
  | VBool b => b
  | VInt n => negb (n =? 0)
  | VStr s => negb (String.eqb s "")
  | VTime _ => true
  | VOid _ => true
  | VList l => match l with [] => false | _ => true end
  | VDict d => match d with [] => false | _ => true end
  end.

(** [x or y] *)
Definition py_or (x y : value) : value := if truthy x then x else y.

(** Equality of stored values, as the store's equality match sees it. *)
Fixpoint value_eqb (a b : value) {struct a} : bool :=
  match a, b with
  | VNone, VNone => true
  | VBool x, VBool y => Bool.eqb x y
  | VInt x, VInt y => x =? y
  | VStr x, VStr y => String.eqb x y
  | VTime x, VTime y => x =? y
  | VOid x, VOid y => String.eqb x y
  | VList l1, VList l2 =>
      (fix go (l1 l2 : list value) : bool :=
         match l1, l2 with
         | [], [] => true
         | x :: l1', y :: l2' => value_eqb x y && go l1' l2'
         | _, _ => false
         end) l1 l2
  | VDict d1, VDict d2 =>
      (fix go (d1 d2 : list (string * value)) : bool :=
         match d1, d2 with
         | [], [] => true
         | (k1, x) :: d1', (k2, y) :: d2' =>
             String.eqb k1 k2 && value_eqb x y && go d1' d2'
         | _, _ => false
         end) d1 d2
  | _, _ => false
  end.

(** ** Dictionaries *)

(** [d.get(k)] as an option; [dict_get_or_none] is the Python value. *)
Fixpoint dict_get (k : string) (d : dict) : option value :=
  match d with
  | [] => None
  | (k', v) :: d' => if String.eqb k k' then Some v else dict_get k d'
  end.

Definition dict_get_or_none (k : string) (d : dict) : value :=
  match dict_get k d with
  | Some v => v
  | None => VNone
  end.

(** [d[k] = v]: replaces the binding of [k], or adds one at the end. *)
Fixpoint dict_set (k : string) (v : value) (d : dict) : dict :=
  match d with
  | [] => [(k, v)]
  | (k', v') :: d' =>
      if String.eqb k k' then (k', v) :: d' else (k', v') :: dict_set k v d'
  end.

(** [d.pop(k, None)]: the dictionary without [k]. *)
Fixpoint dict_del (k : string) (d : dict) : dict :=
  match d with
  | [] => []
  | (k', v') :: d' =>
      if String.eqb k k' then dict_del k d' else (k', v') :: dict_del k d'
  end.

(** [d.update(u)], also the effect of [{'$set': u}] on a document. *)
Definition dict_update (d u : dict) : dict :=
  fold_left (fun acc kv => dict_set (fst kv) (snd kv) acc) u d.

(** [{k: v for k, v in d.items() if v is not None}] *)
Definition is_none (v : value) : bool :=
  match v with VNone => true | _ => false end.

Definition drop_none (d : dict) : dict :=
  List.filter (fun kv => negb (is_none (snd kv))) d.

Definition dict_keys (d : dict) : list string := List.map fst d.

(** ** Exceptions and results *)

Inductive exn : Type :=
| ValueError (msg : string)
| KeyError (key : string)
| TypeError (msg : string)
| AttributeError (msg : string)
| RuntimeError (msg : string)
| InvalidId (msg : string)
| DuplicateKeyError (msg : string)
| JSONDecodeError (msg : string)
| TransportError (msg : string)
| OverflowError (msg : string)
| HTTPException (status_code : Z) (detail : string).

(** [str(e)] as the f-strings of the handlers print it. *)
Definition exn_str (e : exn) : string :=
  match e with
  | ValueError m | TypeError m | AttributeError m | RuntimeError m
  | InvalidId m | DuplicateKeyError m | JSONDecodeError m
  | TransportError m | OverflowError m => m
  | KeyError k => "'" ++ k ++ "'"
  | HTTPException _ d => d
  end.

Inductive result (A : Type) : Type :=
| Ok (a : A)
| Raise (e : exn).
Arguments Ok {A} a.
Arguments Raise {A} e.

(** What the program takes from the interpreter and from the database
    driver, whose code is not the repository's:
    - [str(x)], which the program applies to identifiers it got from
      outside;
    - the name of the type of [x], as the interpreter prints it in the
      message of a [TypeError];
    - the text of the [OverflowError] that [t + timedelta(seconds=n)]
      raises when it leaves the range of [timedelta] or of [datetime];
    - the driver's verdict on a document it is to insert, and on the
      document of a [$set]: the exception it raises, or [None] when it
      takes the document. *)
Class Runtime : Type := {
  py_str : value -> string;
  type_name : value -> string;
  overflow_text : Z -> Z -> string;
  insert_refusal : dict -> option exn;
  update_refusal : dict -> option exn
}.

(** ** Dates *)

(** [timedelta(seconds=n)] in microseconds. *)
Definition timedelta_seconds (n : Z) : Z := n * 1000000.

(** [timedelta] holds at most 999999999 days either way; a [datetime]
    lies between 0001-01-01T00:00:00 and 9999-12-31T23:59:59.999999. *)
Definition MAX_DELTA_DAYS : Z := 999999999.
Definition datetime_min : Z := -62135596800000000.
Definition datetime_max : Z := 253402300799999999.

Definition timedelta_in_range (n : Z) : bool :=
  (- MAX_DELTA_DAYS <=? n / 86400) && (n / 86400 <=? MAX_DELTA_DAYS).

Definition datetime_in_range (t : Z) : bool :=
  (datetime_min <=? t) && (t <=? datetime_max).

(** BSON keeps a [datetime] as a whole number of milliseconds since the
    epoch, the microseconds below it being dropped. *)
Definition bson_time (t : Z) : Z := t / 1000 * 1000.

(** A value as it comes back from the store. *)
Fixpoint stored (v : value) : value :=
  match v with
  | VTime t => VTime (bson_time t)
  | VList l =>
      VList ((fix elems (l : list value) :=
                match l with
                | [] => []
                | x :: l' => stored x :: elems l'
                end) l)
  | VDict d =>
      VDict ((fix items (d : list (string * value)) :=
                match d with
                | [] => []
                | (k, x) :: d' => (k, stored x) :: items d'
                end) d)
  | _ => v
  end.

Definition stored_doc (d : dict) : dict :=
  List.map (fun kv => (fst kv, stored (snd kv))) d.

(** ** The document store *)

Abbreviation collection := (list dict).

(** The equality match [{field: q}]: the field equals [q], or is an array
    holding [q]; a missing field matches [None]. *)
Definition mongo_match (q : value) (fv : option value) : bool :=
  match fv with
  | None => is_none q
  | Some v =>
      value_eqb q v
      || match v with VList l => existsb (value_eqb q) l | _ => false end
  end.

Definition matches (field : string) (q : value) (d : dict) : bool :=
  mongo_match q (dict_get field d).

Definition find_one (field : string) (q : value) (c : collection)
  : option dict :=
  List.find (matches field q) c.

(** The effect of [update_one({field: q}, {'$set': u})] on a collection:
    the first match gets the fields of [u]. *)
Fixpoint set_first (field : string) (q : value) (u : dict) (c : collection)
  : collection :=
  match c with
  | [] => []
  | d :: c' =>
      if matches field q d then dict_update d u :: c'
      else d :: set_first field q u c'
  end.

(** [delete_one({field: q})]: the first match is removed; the count of
    deleted documents comes with the new collection. *)
Fixpoint delete_one (field : string) (q : value) (c : collection)
  : Z * collection :=
  match c with
  | [] => (0, [])
  | d :: c' =>
      if matches field q d then (1, c')
      else let '(n, r) := delete_one field q c' in (n, d :: r)
  end.

(** [insert_one(doc)].  The driver first gives a document without [_id]
    a fresh ObjectId, [oid]; it may refuse the document; the server
    refuses an [_id] that is already in the collection.  What is kept is
    the document as BSON holds it.  The inserted id comes with the new
    collection. *)
Definition with_object_id (oid : string) (doc : dict) : dict :=
  match dict_get "_id" doc with
  | Some _ => doc
  | None => dict_set "_id" (VOid oid) doc
  end.

Definition holds_id (id : value) (c : collection) : bool :=
  existsb (matches "_id" id) c.

Section Driver.
Context {RT : Runtime}.

Definition insert_one (doc : dict) (c : collection)
  : result (value * collection) :=
  match insert_refusal doc with
  | Some e => Raise e
  | None =>
      let id := dict_get_or_none "_id" doc in
      if holds_id id c
      then Raise (DuplicateKeyError "E11000 duplicate key error")
      else Ok (id, (c ++ [stored_doc doc])%list)
  end.

(** [update_one({field: q}, {'$set': u})]: the driver may refuse [u];
    the first match gets its fields, as BSON holds them. *)
Definition update_one (field : string) (q : value) (u : dict) (c : collection)
  : result collection :=
  match update_refusal u with
  | Some e => Raise e
  | None => Ok (set_first field q (stored_doc u) c)
  end.

(** [t + timedelta(seconds=n)] *)
Definition plus_seconds (t n : Z) : result Z :=
  if timedelta_in_range n && datetime_in_range (t + timedelta_seconds n)
  then Ok (t + timedelta_seconds n)
  else Raise (OverflowError (overflow_text t n)).

End Driver.

Record store : Type := Store {
  usuarios : collection;
  sessions : collection
}.

Definition set_usuarios (c : collection) (db : store) : store :=
  {| usuarios := c; sessions := sessions db |}.

Definition set_sessions (c : collection) (db : store) : store :=
  {| usuarios := usuarios db; sessions := c |}.

(** [bson.ObjectId(x)]: [x] is an ObjectId, or a string of 24
    hexadecimal digits, whose text is then in lower case; [ObjectId(None)]
    generates a fresh ObjectId instead; anything else is refused. *)
Definition is_hex (c : ascii) : bool :=
  let n := N_of_ascii c in
  ((48 <=? n) && (n <=? 57) || (97 <=? n) && (n <=? 102)
   || (65 <=? n) && (n <=? 70))%N.

Definition lower_hex (c : ascii) : ascii :=
  let n := N_of_ascii c in
  if ((65 <=? n) && (n <=? 70))%N then ascii_of_N (n + 32) else c.

Inductive object_id : Type :=
| Parsed (h : string)
| Generated.

Definition ObjectId (x : value) : result object_id :=
  match x with
  | VNone => Ok Generated
  | VOid h => Ok (Parsed h)
  | VStr s =>
      if (String.length s =? 24)%nat
         && forallb is_hex (list_ascii_of_string s)
      then Ok (Parsed (string_of_list_ascii
                         (List.map lower_hex (list_ascii_of_string s))))
      else Raise (InvalidId "not a valid ObjectId")
  | _ => Raise (TypeError "id must be an instance of (bytes, str, ObjectId)")
  end.

(** What a login takes from outside: the clock, the ObjectId the driver
    would generate, and whether the server accepts the write.  The unique
    indexes that [ensure_users_indexes] asks for are not kept in the
    store; all they can do is refuse a write that the driver passed on,
    which leaves the collection as it was, and [login_accepted] stands
    for that verdict. *)
Record login_env : Type := LoginEnv {
  login_now : Z;
  login_oid : string;
  login_accepted : bool
}.

Section Mongo.
Context {RT : Runtime}.

(** ** app/db/mongo.py *)

Definition _doc_to_dict (doc : option dict) : option dict :=
  match doc with
  | Some ((_ :: _) as d) =>
      let oid := dict_get_or_none "_id" d in
      let out := dict_del "_id" d in
      Some (dict_set "id"
              (if is_none oid then VNone else VStr (py_str oid)) out)
  | _ => None
  end.

(** The identity fields a login takes from the provider; [role] is not
    among them. *)
Definition identity_data (google_id : value) (user_info : dict) : dict :=
  drop_none
    [ ("google_id", VStr (py_str google_id));
      ("email", dict_get_or_none "email" user_info);
      ("email_verified",
        VBool (truthy (dict_get_or_none "email_verified" user_info)));
      ("name", dict_get_or_none "name" user_info);
      ("given_name", dict_get_or_none "given_name" user_info);
      ("family_name", dict_get_or_none "family_name" user_info);
      ("picture", dict_get_or_none "picture" user_info);
      ("locale", dict_get_or_none "locale" user_info) ].

(** [user_info.get('sub') or user_info.get('id')] *)
Definition google_id_of (user_info : dict) : value :=
  py_or (dict_get_or_none "sub" user_info) (dict_get_or_none "id" user_info).

Definition get_or_create_user_from_info
    (e : login_env) (user_info : value) (db : store)
  : result (option dict) * store :=
  match user_info with
  | VDict ui =>
      let google_id := google_id_of ui in
      if negb (truthy google_id) then
        (Raise (ValueError
                  "google_id (sub) is required from Identity Provider"), db)
      else
        let now := VTime (login_now e) in
        let idata := identity_data google_id ui in
        let refused :=
          (Raise (DuplicateKeyError "E11000 duplicate key error"), db) in
        match find_one "google_id" (VStr (py_str google_id)) (usuarios db)
        with
        | Some ((_ :: _) as existing_user) =>
            (* update: identity fields and login timestamps only *)
            let idata :=
              dict_set "last_login_at" now
                (dict_set "updated_at" now idata) in
            match dict_get "_id" existing_user with
            | None => (Raise (KeyError "_id"), db)
            | Some id =>
                match update_one "_id" id idata (usuarios db) with
                | Ok c =>
                    if login_accepted e then
                      (Ok (_doc_to_dict
                             (Some (dict_update existing_user idata))),
                       set_usuarios c db)
                    else refused
                | Raise x => (Raise x, db)
                end
            end
        | _ =>
            (* create: the default role is assigned here *)
            let new_user_doc :=
              dict_set "last_login_at" now
                (dict_set "updated_at" now
                   (dict_set "created_at" now
                      (dict_set "role"
                         (py_or (dict_get_or_none "role" ui) (VStr "user"))
                         idata))) in
            match insert_one (with_object_id (login_oid e) new_user_doc)
                    (usuarios db) with
            | Ok (id, c) =>
                if login_accepted e then
                  (Ok (_doc_to_dict (Some (dict_set "_id" id new_user_doc))),
                   set_usuarios c db)
                else refused
            | Raise x => (Raise x, db)
            end
        end
  | _ => (Raise (AttributeError "object has no attribute 'get'"), db)
  end.

(** The filter [update_user_by_dbid] ends up using: [_id] when the id
    makes an ObjectId, the stored [id] field when [ObjectId] refuses it.
    A freshly generated ObjectId is the [_id] of no document: there is
    then nothing to filter.  An update the driver refuses is refused
    again in the [except] branch, whose [$set] is the same. *)
Definition user_filter (user_id : value) : option (string * value) :=
  match ObjectId user_id with
  | Ok (Parsed h) => Some ("_id", VOid h)
  | Ok Generated => None
  | Raise _ => Some ("id", user_id)
  end.

Definition update_user_by_dbid (user_id : value) (updates : dict) (db : store)
  : result (option dict) * store :=
  match user_filter user_id with
  | Some (field, q) =>
      match update_one field q updates (usuarios db) with
      | Ok c => (Ok (_doc_to_dict (find_one field q c)), set_usuarios c db)
      | Raise x => (Raise x, db)
      end
  | None =>
      match update_refusal updates with
      | Some x => (Raise x, db)
      | None => (Ok None, db)
      end
  end.

Definition DEFAULT_TTL_SECONDS : Z := 3600 * 2.

(** [sid] is the text of the [uuid4()] drawn, [now] the clock. *)
Definition create_session_with_meta
    (sid : string) (now : Z)
    (user_id : value) (meta : value) (ttl_seconds : Z) (db : store)
  : result string * store :=
  match plus_seconds now ttl_seconds with
  | Ok expires_at =>
      let session :=
        [ ("_id", VStr sid);
          ("user_id", VStr (py_str user_id));
          ("created_at", VTime now);
          ("expires_at", VTime expires_at);
          ("meta", py_or meta (VDict [])) ] in
      match insert_one session (sessions db) with
      | Ok (_, c) => (Ok sid, set_sessions c db)
      | Raise x => (Raise x, db)
      end
  | Raise x => (Raise x, db)
  end.

Definition get_session (now : Z) (session_id : string) (db : store)
  : result (option dict) * store :=
  match find_one "_id" (VStr session_id) (sessions db) with
  | Some ((_ :: _) as doc) =>
      let expires_at := dict_get_or_none "expires_at" doc in
      if truthy expires_at then
        match expires_at with
        | VTime t =>
            if t <? now then
              (* expired: delete and return None *)
              (Ok None,
               set_sessions
                 (snd (delete_one "_id" (VStr session_id) (sessions db))) db)
            else (Ok (_doc_to_dict (Some doc)), db)
        | _ =>
            (Raise (TypeError
                      ("'<' not supported between instances of '"
                       ++ type_name expires_at
                       ++ "' and 'datetime.datetime'")), db)
        end
      else (Ok (_doc_to_dict (Some doc)), db)
  | _ => (Ok None, db)
  end.

Definition delete_session (session_id : string) (db : store) : Z * store :=
  let '(n, c) := delete_one "_id" (VStr session_id) (sessions db) in
  (n, set_sessions c db).

End Mongo.

(** ** Search filter ([_build_search_query]) *)

(** [re.escape]: a backslash goes before each of the characters
    [()[]{}?*+-|^$\.&~#], the space, and tab, line feed, carriage return,
    vertical tab and form feed; every other character stays. *)
Definition re_special (c : ascii) : bool :=
  existsb (Ascii.eqb c)
    (list_ascii_of_string "()[]{}?*+-|^$\.&~# "
     ++ ["009"; "010"; "013"; "011"; "012"]%char)%list.

Definition backslash : ascii := "092".

Fixpoint re_escape (s : string) : string :=
  match s with
  | EmptyString => EmptyString
  | String c s' =>
      if re_special c then String backslash (String c (re_escape s'))
      else String c (re_escape s')
  end.


(** ** app/api/v1/endpoints/products.py *)

(** [str.isspace] of one character, for code points below 256. *)
Definition py_isspace (c : ascii) : bool :=
  let n := N_of_ascii c in
  ((9 <=? n) && (n <=? 13) || (28 <=? n) && (n <=? 32)
   || (n =? 133) || (n =? 160))%N.

Fixpoint lstrip (s : string) : string :=
  match s with
  | EmptyString => EmptyString
  | String c s' => if py_isspace c then lstrip s' else s
  end.

Fixpoint rstrip (s : string) : string :=
  match s with
  | EmptyString => EmptyString
  | String c s' =>
      match rstrip s' with
      | EmptyString => if py_isspace c then EmptyString else String c EmptyString
      | r => String c r
      end
  end.

Definition strip (s : string) : string := rstrip (lstrip s).

(** [s.split(',')] *)
Fixpoint split_comma (s : string) : list string :=
  match s with
  | EmptyString => [EmptyString]
  | String c s' =>
      if Ascii.eqb c "," then EmptyString :: split_comma s'
      else match split_comma s' with
           | x :: r => String c x :: r
           | [] => [String c EmptyString]
           end
  end.

(** [list(set(xs))]: the elements of the set, each once, in the order the
    set yields them. *)
Definition list_of_set (xs : list string) : list string :=
  elements (list_to_set xs : gset string).

Definition _parse_tags (tags_str : string) : list string :=
  if negb (truthy (VStr tags_str)) then []
  else
    list_of_set
      (List.map strip
         (List.filter (fun t => truthy (VStr (strip t)))
            (split_comma tags_str))).

Definition is_dict (v : value) : bool :=
  match v with VDict _ => true | _ => false end.

Definition is_list (v : value) : bool :=
  match v with VList _ => true | _ => false end.

Definition is_str (v : value) : bool :=
  match v with VStr _ => true | _ => false end.

(** [v.get(k)] for a [v] already known to be a dict. *)
Definition value_get (k : string) (v : value) : value :=
  match v with VDict d => dict_get_or_none k d | _ => VNone end.

Section Products.
Context {RT : Runtime}.

Definition _normalize_product (doc : dict) : dict :=
  if negb (truthy (VDict doc)) then doc
  else
    let get k := dict_get_or_none k doc in
    let name :=
      py_or (get "name")
        (py_or (get "titulo") (py_or (get "nombre") (VStr "Sin Nombre"))) in
    let description :=
      py_or (get "description") (py_or (get "descripcion") (VStr "")) in
    let price := py_or (get "price") (py_or (get "precio") (VInt 0)) in
    let image := get "image" in
    let images := py_or (get "images") (VList []) in
    let legacy := negb (truthy image) && is_dict (get "imagenes") in
    let image' :=
      if legacy then value_get "portada" (get "imagenes") else image in
    let images' :=
      if legacy
      then py_or (value_get "lista_completa" (get "imagenes")) images
      else images in
    let images'' :=
      if negb (truthy images') && is_list (get "imagenes")
      then get "imagenes" else images' in
    let tags := py_or (get "tags") (VList []) in
    let tags' :=
      match tags with
      | VStr s => VList (List.map VStr (_parse_tags s))
      | _ => tags
      end in
    [ ("id", py_or (get "id") (VStr (py_str (py_or (get "_id") (VStr "")))));
      ("name", name);
      ("description", description);
      ("price", price);
      ("image", image');
      ("images", py_or images'' (VList []));
      ("tags", tags');
      ("category", get "category") ].

End Products.

(** ** Requests, responses and the outside world *)

Record request : Type := Request {
  query_code : option string;          (* query_params.get("code") *)
  cookies : gmap string string;
  scheme : string;                     (* request.url.scheme *)
  state_user : option dict;            (* request.state.user *)
  json_body : option value             (* None: the body is not JSON *)
}.

Record cookie : Type := Cookie {
  key : string;
  cookie_value : string;
  httponly : bool;
  samesite : string;
  secure : bool;
  max_age : Z
}.

Inductive cookie_op : Type :=
| SetCookie (c : cookie)
| DeleteCookie (k : string).

(** A [RedirectResponse] and what was done to its cookies, in order. *)
Record response : Type := Response {
  location : string;
  cookie_ops : list cookie_op
}.

Definition RedirectResponse (url : string) : response :=
  {| location := url; cookie_ops := [] |}.

Definition set_cookie (c : cookie) (r : response) : response :=
  {| location := location r; cookie_ops := (cookie_ops r ++ [SetCookie c])%list |}.

Definition delete_cookie (k : string) (r : response) : response :=
  {| location := location r;
     cookie_ops := (cookie_ops r ++ [DeleteCookie k])%list |}.

(** Requests sent to the identity provider, and what comes back: a
    response with its status and its body as JSON ([None] when the body
    is not JSON), or a failure of the transport. *)
Inductive http_call : Type :=
| PostToken (form : dict)
| GetUserinfo (authorization : string)
| PostRevoke (token : value).

Inductive http_outcome : Type :=
| Answer (status_code : Z) (json : option value)
| Failure (msg : string).

(** Calls of the handlers into [app/db/mongo.py]. *)
Inductive db_call : Type :=
| GetOrCreateUser (user_info : value)
| CreateSession (user_id : value) (meta : value)
| GetSession (session_id : string)
| DeleteSession (session_id : string)
| UpdateUser (user_id : value) (updates : dict).

Inductive event : Type :=
| Http (c : http_call)
| Db (c : db_call).

(** The state a handler runs in: the store, and what the handler has
    called so far (latest last). *)
Record world : Type := World {
  db : store;
  trace : list event
}.

Definition start (d : store) : world := {| db := d; trace := [] |}.

Definition M (A : Type) : Type := world -> result A * world.

#[global] Instance M_ret : MRet M := fun A a w => (Ok a, w).

#[global] Instance M_bind : MBind M := fun A B f m w =>
  match m w with
  | (Ok a, w') => f a w'
  | (Raise e, w') => (Raise e, w')
  end.

Definition raise {A : Type} (e : exn) : M A := fun w => (Raise e, w).

(** [try: m  except <those h accepts>: ...] *)
Definition catch {A : Type} (m : M A) (h : exn -> option (M A)) : M A :=
  fun w =>
    match m w with
    | (Ok a, w') => (Ok a, w')
    | (Raise e, w') =>
        match h e with
        | Some k => k w'
        | None => (Raise e, w')
        end
    end.

(** [try: m  except Exception: pass] *)
Definition attempt (m : M unit) : M unit :=
  catch m (fun _ => Some (mret tt)).

(** A call into the store layer: it is recorded, then run on the store. *)
Definition call_db {A : Type} (c : db_call) (f : store -> result A * store)
  : M A :=
  fun w =>
    let '(r, d) := f (db w) in
    (r, {| db := d; trace := (trace w ++ [Db c])%list |}).

Definition total {A : Type} (f : store -> A * store)
  : store -> result A * store :=
  fun d => let '(a, d') := f d in (Ok a, d').

(** One request to the provider: it is recorded, and the provider's
    outcome for it is returned. *)
Definition send (provider : http_call -> http_outcome) (c : http_call)
  : M http_outcome :=
  fun w =>
    (Ok (provider c), {| db := db w; trace := (trace w ++ [Http c])%list |}).

(** [os.environ.get(name) in ('1', 'true', 'True')] *)
Definition env_flag (environ : gmap string string) (name : string) : bool :=
  match environ !! name with
  | Some v => bool_decide (v ∈ ["1"; "true"; "True"])
  | None => false
  end.

(** [resp.json()] *)
Definition json_of (body : option value) : M value :=
  match body with
  | Some v => mret v
  | None => raise (JSONDecodeError "Expecting value")
  end.

(** [x.get(k)]: only a dict has [get]. *)
Definition py_get (k : string) (x : value) : M value :=
  match x with
  | VDict d => mret (dict_get_or_none k d)
  | _ => raise (AttributeError "object has no attribute 'get'")
  end.

(** What the OAuth callback takes from outside. *)
Record callback_env : Type := CallbackEnv {
  environ : gmap string string;
  provider : http_call -> http_outcome;
  login : login_env;
  session_uuid : string;
  session_now : Z
}.

Section Endpoints.
Context {RT : Runtime}.

(** ** app/api/v1/endpoints/auth.py *)

Definition _get_env (env : gmap string string) (name : string) : M string :=
  match env !! name with
  | Some val =>
      if truthy (VStr val) then mret val
      else raise (RuntimeError
                    ("Environment variable " ++ name ++ " is required."))
  | None =>
      raise (RuntimeError
               ("Environment variable " ++ name ++ " is required."))
  end.

(** The body of the [try] of [google_callback]: the code is exchanged for
    tokens, then the profile is fetched. *)
Definition exchange_code
    (prov : http_call -> http_outcome)
    (code client_id client_secret redirect_uri : string)
  : M (value * value) :=
  let data :=
    [ ("code", VStr code);
      ("client_id", VStr client_id);
      ("client_secret", VStr client_secret);
      ("redirect_uri", VStr redirect_uri);
      ("grant_type", VStr "authorization_code") ] in
  token_resp ← send prov (PostToken data);
  match token_resp with
  | Failure msg => raise (TransportError msg)
  | Answer status body =>
      if negb (status =? 200) then
        raise (HTTPException 500 "Failed to fetch token from Google")
      else
        tokens ← json_of body;
        access_token ← py_get "access_token" tokens;
        if negb (truthy access_token) then
          raise (HTTPException 500 "No access token returned")
        else
          user_resp ←
            send prov (GetUserinfo ("Bearer " ++ py_str access_token));
          match user_resp with
          | Failure msg => raise (TransportError msg)
          | Answer status' body' =>
              if negb (status' =? 200) then
                raise (HTTPException 500 "Failed to fetch user info")
              else
                user_info ← json_of body';
                mret (tokens, user_info)
          end
  end.

(** The rest of [google_callback], once tokens and profile are there:
    the user is persisted or retrieved, a session is created for her, and
    the redirect carries the session cookie. *)
Definition open_session
    (g : callback_env) (req : request) (tokens user_info : value)
  : M response :=
  (* Persist or retrieve user in MongoDB *)
  user ←
    catch
      (call_db (GetOrCreateUser user_info)
         (get_or_create_user_from_info (login g) user_info))
      (fun exc =>
         Some (raise (HTTPException 500
           ("User persistence error: " ++ exn_str exc))));
  (* Create a server-side session for the user *)
  sid ←
    catch
      (user_id ←
         match user with
         | Some u => mret (dict_get_or_none "id" u)
         | None => raise (AttributeError "object has no attribute 'get'")
         end;
       access_token ← py_get "access_token" tokens;
       refresh_token ← py_get "refresh_token" tokens;
       let meta := VDict [ ("access_token", access_token);
                           ("refresh_token", refresh_token) ] in
       call_db (CreateSession user_id meta)
         (create_session_with_meta (session_uuid g) (session_now g)
            user_id meta DEFAULT_TTL_SECONDS))
      (fun e =>
         Some (raise (HTTPException 500
           ("Failed creating session: " ++ exn_str e))));
  let cookie_secure :=
    env_flag (environ g) "COOKIE_SECURE"
    || String.eqb (scheme req) "https" in
  mret (set_cookie
          {| key := "session_id";
             cookie_value := sid;
             httponly := true;
             samesite := "lax";
             secure := cookie_secure;
             max_age := 3600 * 2 |}
          (RedirectResponse "/login/success")).

(** [except httpx.HTTPError as e: raise HTTPException(502, ...)] *)
Definition bad_gateway (e : exn) : option (M (value * value)) :=
  match e with
  | TransportError msg =>
      Some (raise (HTTPException 502
              ("HTTP error while contacting Google APIs: " ++ msg ++ ".")))
  | _ => None
  end.

Definition google_callback (g : callback_env) (req : request) : M response :=
  match query_code req with
  | Some code =>
      if negb (truthy (VStr code)) then
        raise (HTTPException 400 "Missing code in callback")
      else
        client_id ← _get_env (environ g) "GOOGLE_CLIENT_ID";
        client_secret ← _get_env (environ g) "GOOGLE_CLIENT_SECRET";
        redirect_uri ← _get_env (environ g) "GOOGLE_REDIRECT_URI";
        '(tokens, user_info) ←
          catch
            (exchange_code (provider g) code client_id client_secret
               redirect_uri)
            bad_gateway;
        open_session g req tokens user_info
  | None => raise (HTTPException 400 "Missing code in callback")
  end.

(** The revocation attempt of [google_logout], the body of its outer
    [try]. *)
Definition revoke_tokens
    (prov : http_call -> http_outcome) (now : Z) (sid : string) : M unit :=
  sess ← call_db (GetSession sid) (get_session now sid);
  match sess with
  | Some ((_ :: _) as s) =>
      meta ← py_get "meta" (VDict s);
      let meta := py_or meta (VDict []) in
      refresh_token ← py_get "refresh_token" meta;
      access_token ← py_get "access_token" meta;
      let token_to_revoke := py_or refresh_token access_token in
      if truthy token_to_revoke then
        attempt
          (resp ← send prov (PostRevoke token_to_revoke);
           match resp with
           | Failure msg => raise (TransportError msg)
           | Answer _ _ => mret tt
           end)
      else mret tt
  | _ => mret tt
  end.

Definition google_logout
    (prov : http_call -> http_outcome) (now : Z) (req : request)
  : M response :=
  let response := RedirectResponse "/login" in
  _ ←
    match cookies req !! "session_id" with
    | Some sid =>
        if truthy (VStr sid) then
          _ ← attempt (revoke_tokens prov now sid);
          attempt
            (_ ← call_db (DeleteSession sid) (total (delete_session sid));
             mret tt)
        else mret tt
    | None => mret tt
    end;
  mret (delete_cookie "session_id" response).

(** ** app/api/v1/endpoints/users.py *)

Definition allowed : list string := ["name"; "picture"].

(** [{k: v for k, v in payload.items() if k in allowed and v is not None}] *)
Definition editable (payload : dict) : dict :=
  List.filter
    (fun kv => bool_decide (fst kv ∈ allowed) && negb (is_none (snd kv)))
    payload.

Definition update_me (now : Z) (req : request) : M dict :=
  match state_user req with
  | Some ((_ :: _) as current) =>
      match json_body req with
      | None => raise (HTTPException 400 "Invalid JSON payload")
      | Some (VDict payload) =>
          let updates := editable payload in
          if negb (truthy (VDict updates)) then
            raise (HTTPException 400 "No updatable fields provided")
          else
            let updates := dict_set "updated_at" (VTime now) updates in
            let user_id :=
              py_or (dict_get_or_none "id" current)
                    (dict_get_or_none "_id" current) in
            if negb (truthy user_id) then
              raise (HTTPException 500 "User id not available")
            else
              updated ←
                call_db (UpdateUser user_id updates)
                  (update_user_by_dbid user_id updates);
              match updated with
              | Some ((_ :: _) as u) =>
                  mret [("ok", VBool true); ("user", VDict u)]
              | _ => raise (HTTPException 500 "Failed to update user")
              end
      | Some _ => raise (AttributeError "object has no attribute 'items'")
      end
  | _ => raise (HTTPException 401 "Not authenticated")
  end.

End Endpoints.

(** ** The rest of the store layer and of the handlers *)

(** [datetime.isoformat()] is the library's. *)
Class IsoFormat := isoformat : Z -> string.

(** [x != s] for a string [s]: only an equal string is equal. *)
Definition is_string (s : string) (x : value) : bool :=
  match x with
  | VStr s' => String.eqb s' s
  | _ => false
  end.

Definition with_state_user (u : option dict) (req : request) : request :=
  {| query_code := query_code req; cookies := cookies req;
     scheme := scheme req; state_user := u; json_body := json_body req |}.

Section MongoMore.
Context {RT : Runtime}.


Definition get_user_by_dbid (user_id : value) (db : store) : option dict :=
  match user_filter user_id with
  | Some (field, q) => _doc_to_dict (find_one field q (usuarios db))
  | None => None
  end.

Definition get_user_by_googleid (google_id : value) (db : store)
  : option dict :=
  _doc_to_dict
    (find_one "google_id" (VStr (py_str google_id)) (usuarios db)).

(** The product functions work on the product collection, which
    [get_collection] hands them. *)
Definition get_product_from_db (product_id : value) (coll : collection)
  : option dict :=
  match user_filter product_id with
  | Some (field, q) => _doc_to_dict (find_one field q coll)
  | None => None
  end.

Definition create_product_in_db (oid : string) (payload : dict)
    (coll : collection) : result string * collection :=
  match insert_one (with_object_id oid payload) coll with
  | Ok (id, c) => (Ok (py_str id), c)
  | Raise x => (Raise x, coll)
  end.

Definition delete_product_in_db (product_id : value) (coll : collection)
  : Z * collection :=
  match user_filter product_id with
  | Some (field, q) => delete_one field q coll
  | None => (0, coll)
  end.

End MongoMore.

Section HandlersMore.
Context {RT : Runtime}.

(** [auth_me] of app/api/v1/endpoints/auth.py, on the store. *)
Definition auth_me (now : Z) (req : request) (d : store)
  : result dict * store :=
  match state_user req with
  | Some ((_ :: _) as user) => (Ok [("user", VDict user)], d)
  | _ =>
      match cookies req !! "session_id" with
      | Some session_id =>
          if negb (truthy (VStr session_id)) then
            (Raise (HTTPException 401 "Not authenticated"), d)
          else
            match get_session now session_id d with
            | (Raise e, d') => (Raise e, d')
            | (Ok (Some ((_ :: _) as sess)), d') =>
                match get_user_by_dbid (dict_get_or_none "user_id" sess) d'
                with
                | Some ((_ :: _) as user) => (Ok [("user", VDict user)], d')
                | _ => (Raise (HTTPException 401 "User not found"), d')
                end
            | (Ok _, d') =>
                (Raise (HTTPException 401 "Session invalid or expired"), d')
            end
      | None => (Raise (HTTPException 401 "Not authenticated"), d)
      end
  end.

(** ** app/main.py *)

(** [_resolve_user] of [session_middleware]: whatever is raised gives
    [None]. *)
Definition _resolve_user (now : Z) (session_id : string) (d : store)
  : option dict * store :=
  match get_session now session_id d with
  | (Raise _, d') => (None, d')
  | (Ok (Some ((_ :: _) as sess)), d') =>
      (get_user_by_dbid (dict_get_or_none "user_id" sess) d', d')
  | (Ok _, d') => (None, d')
  end.

(** [session_middleware] up to [call_next]: the request as the route
    handler gets it. *)
Definition session_middleware (now : Z) (req : request) (d : store)
  : request * store :=
  let req := with_state_user None req in
  match cookies req !! "session_id" with
  | Some session_id =>
      if truthy (VStr session_id) then
        let '(user, d') := _resolve_user now session_id d in
        (with_state_user user req, d')
      else (req, d)
  | None => (req, d)
  end.

(** [logout] of app/main.py (the redirect's status code is not kept). *)
Definition logout (req : request) (d : store) : response * store :=
  let response := RedirectResponse "/" in
  match cookies req !! "session_id" with
  | Some sid =>
      if truthy (VStr sid) then
        (delete_cookie "session_id" response, (delete_session sid d).2)
      else (response, d)
  | None => (response, d)
  end.

Definition _ensure_admin (req : request) : result dict :=
  match state_user req with
  | Some ((_ :: _) as user) =>
      if negb (is_string "admin" (dict_get_or_none "role" user)) then
        Raise (HTTPException 403 "Access denied: Admins only")
      else Ok user
  | _ => Raise (HTTPException 403 "Access denied: Admins only")
  end.

Context {ISO : IsoFormat}.

Fixpoint _serialize_mongo_doc (v : value) : value :=
  match v with
  | VOid _ => VStr (py_str v)
  | VTime t => VStr (isoformat t)
  | VDict d =>
      VDict ((fix items (d : list (string * value)) :=
                match d with
                | [] => []
                | (k, x) :: d' => (k, _serialize_mongo_doc x) :: items d'
                end) d)
  | VList l =>
      VList ((fix elems (l : list value) :=
                match l with
                | [] => []
                | x :: l' => _serialize_mongo_doc x :: elems l'
                end) l)
  | _ => v
  end.

End HandlersMore.

Section ProductHandlers.
Context {RT : Runtime}.

(** [get_product] of app/api/v1/endpoints/products.py, on the product
    collection. *)
Definition get_product (product_id : value) (coll : collection)
  : result dict :=
  match get_product_from_db product_id coll with
  | Some ((_ :: _) as prod) => Ok (_normalize_product prod)
  | _ => Raise (HTTPException 404 "Product not found")
  end.

(** [delete_product_action] of app/main.py (the redirect's status code
    is not kept). *)
Definition delete_product_action
    (req : request) (product_id : value) (coll : collection)
  : result response * collection :=
  match _ensure_admin req with
  | Raise e => (Raise e, coll)
  | Ok _ =>
      (Ok (RedirectResponse "/manage/catalog"),
       (delete_product_in_db product_id coll).2)
  end.

End ProductHandlers.

(** ** Vocabulary of the statements *)

(** The value of field [k] in the [i]-th document of a collection. *)
Definition field_at (c : collection) (i : nat) (k : string) : option value :=
  c !! i ≫= dict_get k.

(** The fields a login of a known user may write: the identity fields
    and the two login timestamps. *)
Definition login_fields : list string :=
  [ "google_id"; "email"; "email_verified"; "name"; "given_name";
    "family_name"; "picture"; "locale"; "updated_at"; "last_login_at" ].

(** The requests to the provider and the calls into the store layer
    that a trace records. *)
Definition http_calls (t : list event) : list http_call :=
  omap (fun e => match e with Http c => Some c | Db _ => None end) t.

Definition db_calls (t : list event) : list db_call :=
  omap (fun e => match e with Db c => Some c | Http _ => None end) t.

Definition is_post_token (c : http_call) : bool :=
  match c with PostToken _ => true | _ => false end.

Definition is_get_userinfo (c : http_call) : bool :=
  match c with GetUserinfo _ => true | _ => false end.

(** How often a kind of request occurs in a trace. *)
Definition times (kind : http_call -> bool) (t : list event) : nat :=
  length (List.filter kind (http_calls t)).

(** The gateway statuses of HTTP: 502 Bad Gateway, 504 Gateway Timeout. *)
Definition gateway_error {A : Type} (r : result A) : Prop :=
  ∃ detail, r = Raise (HTTPException 502 detail)
            ∨ r = Raise (HTTPException 504 detail).

(** A handler [m] respects a relation [R] between worlds when the world
    it leaves is always related to the one it found. *)
Definition respects (R : world -> world -> Prop) {A : Type} (m : M A) : Prop :=
  ∀ w, R w (m w).2.

(** No request went to the provider. *)
Definition same_http (w w' : world) : Prop :=
  http_calls (trace w') = http_calls (trace w).

(** The store was neither changed nor called. *)
Definition same_db (w w' : world) : Prop :=
  db w' = db w ∧ db_calls (trace w') = db_calls (trace w).

(** How many documents of a collection have the id [id]. *)
Definition holding (id : value) (c : collection) : nat :=
  length (List.filter (matches "_id" id) c).

(** Users are as they were, and no session with the id [sid] was added. *)
Definition sessions_shrink (sid : string) (w w' : world) : Prop :=
  usuarios (db w') = usuarios (db w)
  ∧ (holding (VStr sid) (sessions (db w'))
     ≤ holding (VStr sid) (sessions (db w)))%nat.

(** The fields [update_me] may write. *)
Definition profile_fields : list string := ["name"; "picture"; "updated_at"].

Definition with_json_body (body : option value) (req : request) : request :=
  {| query_code := query_code req; cookies := cookies req;
     scheme := scheme req; state_user := state_user req;
     json_body := body |}.

(** A runtime to run the program on examples.  [str] is given on the
    scalars the examples use, other values get a placeholder; a type is
    named as the interpreter names the built-in ones; the driver refuses
    a document that holds an integer of more than eight bytes, and takes
    any other. *)
Fixpoint fits_bson (v : value) : bool :=
  match v with
  | VInt n => (- 2 ^ 63 <=? n) && (n <? 2 ^ 63)
  | VList l =>
      (fix all (l : list value) : bool :=
         match l with
         | [] => true
         | x :: l' => fits_bson x && all l'
         end) l
  | VDict d =>
      (fix all (d : list (string * value)) : bool :=
         match d with
         | [] => true
         | (_, x) :: d' => fits_bson x && all d'
         end) d
  | _ => true
  end.

Definition sample_refusal (d : dict) : option exn :=
  if fits_bson (VDict d) then None
  else Some (OverflowError "MongoDB can only handle up to 8-byte ints").

Definition sample_runtime : Runtime :=
  {| py_str v :=
       match v with
       | VStr s => s
       | VOid h => h
       | VNone => "None"
       | VBool true => "True"
       | VBool false => "False"
       | _ => "<object>"
       end;
     type_name v :=
       match v with
       | VNone => "NoneType"
       | VBool _ => "bool"
       | VInt _ => "int"
       | VStr _ => "str"
       | VTime _ => "datetime.datetime"
       | VOid _ => "ObjectId"
       | VList _ => "list"
       | VDict _ => "dict"
       end;
     overflow_text _ _ := "date value out of range";
     insert_refusal := sample_refusal;
     update_refusal := sample_refusal |}.

(** A store with one administrator and one live session of hers. *)
Definition admin_doc : dict :=
  [ ("_id", VOid "65a000000000000000000001");
    ("google_id", VStr "1001");
    ("email", VStr "ana@example.com");
    ("name", VStr "Ana");
    ("role", VStr "admin") ].

Definition session_doc : dict :=
  [ ("_id", VStr "s-1");
    ("user_id", VStr "65a000000000000000000001");
    ("created_at", VTime 1000);
    ("expires_at", VTime 5000);
    ("meta", VDict [ ("access_token", VStr "at-1");
                     ("refresh_token", VNone) ]) ].

Definition sample_db : store :=
  {| usuarios := [admin_doc]; sessions := [session_doc] |}.

(** What the provider says about her, this time with a role of its own. *)
Definition sample_user_info : dict :=
  [ ("id", VStr "1001");
    ("email", VStr "ana@example.com");
    ("name", VStr "Ana B.");
    ("role", VStr "user") ].

Definition sample_login : login_env :=
  {| login_now := 2000; login_oid := "65a000000000000000000002";
     login_accepted := true |}.

(** A configured gateway and a provider that answers. *)
Definition sample_environ : gmap string string :=
  {[ "GOOGLE_CLIENT_ID" := "cid"; "GOOGLE_CLIENT_SECRET" := "secret";
     "GOOGLE_REDIRECT_URI" := "http://localhost:8000/api/v1/auth/google/callback" ]}.

Definition good_provider (c : http_call) : http_outcome :=
  match c with
  | PostToken _ =>
      Answer 200 (Some (VDict [ ("access_token", VStr "at-2");
                                ("refresh_token", VStr "rt-2") ]))
  | GetUserinfo _ => Answer 200 (Some (VDict sample_user_info))
  | PostRevoke _ => Answer 200 (Some (VDict []))
  end.

(** A provider whose token endpoint refuses the code. *)
Definition refusing_provider (c : http_call) : http_outcome :=
  match c with
  | PostToken _ => Answer 400 (Some (VDict [("error", VStr "invalid_grant")]))
  | _ => good_provider c
  end.

(** A provider that cannot be reached. *)
Definition dead_provider (c : http_call) : http_outcome :=
  Failure "connection refused".

Definition sample_callback (prov : http_call -> http_outcome) : callback_env :=
  {| environ := sample_environ; provider := prov; login := sample_login;
     session_uuid := "s-2"; session_now := 2000 |}.

Definition callback_request : request :=
  {| query_code := Some "4/code"; cookies := ∅; scheme := "https";
     state_user := None; json_body := None |}.

Definition logout_request (sid : string) : request :=
  {| query_code := None; cookies := {[ "session_id" := sid ]};
     scheme := "https"; state_user := None; json_body := None |}.

(** The document [create_session_with_meta] hands to the driver, and
    the one a first login hands to it. *)
Definition session_document `{Runtime}
    (sid : string) (now : Z) (user_id meta : value) (ttl_seconds : Z) : dict :=
  [ ("_id", VStr sid);
    ("user_id", VStr (py_str user_id));
    ("created_at", VTime now);
    ("expires_at", VTime (now + ttl_seconds * 1000000));
    ("meta", py_or meta (VDict [])) ].

Definition new_user_document `{Runtime} (e : login_env) (ui : dict) : dict :=
  let now := VTime (login_now e) in
  dict_set "_id" (VOid (login_oid e))
    (dict_set "last_login_at" now
       (dict_set "updated_at" now
          (dict_set "created_at" now
             (dict_set "role"
                (py_or (dict_get_or_none "role" ui) (VStr "user"))
                (identity_data (google_id_of ui) ui))))).

(** The time to live [ttl_seconds] can be added to the clock [now]. *)
Definition expiry_in_range (now ttl_seconds : Z) : bool :=
  timedelta_in_range ttl_seconds
  && datetime_in_range (now + ttl_seconds * 1000000).



(** The NUL character; the server refuses a [$regex] whose pattern holds
    it. *)
Definition NUL : ascii := "000".

Definition holds_nul (p : string) : bool :=
  existsb (Ascii.eqb NUL) (list_ascii_of_string p).

(** A value holds neither an ObjectId nor a datetime, at any depth. *)
Fixpoint json_safe (v : value) : bool :=
  match v with
  | VOid _ | VTime _ => false
  | VList l =>
      (fix all (l : list value) : bool :=
         match l with
         | [] => true
         | x :: l' => json_safe x && all l'
         end) l
  | VDict d =>
      (fix all (d : list (string * value)) : bool :=
         match d with
         | [] => true
         | (_, x) :: d' => json_safe x && all d'
         end) d
  | _ => true
  end.

(** The characters of a string. *)
Definition chars (s : string) : list ascii := list_ascii_of_string s.

(** A string does not begin with white space. *)
Definition starts_clean (s : string) : Prop :=
  match s with
  | EmptyString => True
  | String c _ => py_isspace c = false
  end.

(** A session stored without expiry, one with an expiry that is not a
    datetime, and the administrator's request to change her profile. *)
Definition eternal_db : store :=
  {| usuarios := [];
     sessions := [ [("_id", VStr "s-9"); ("user_id", VStr "u-9")] ] |}.

Definition odd_db : store :=
  {| usuarios := [];
     sessions := [ [("_id", VStr "s-8"); ("expires_at", VStr "tomorrow")] ] |}.

Definition admin_user : dict :=
  [ ("google_id", VStr "1001");
    ("email", VStr "ana@example.com");
    ("name", VStr "Ana");
    ("role", VStr "admin");
    ("id", VStr "65a000000000000000000001") ].


(** * Properties *)

(** ** Dictionaries and collections *)

Lemma dict_get_set_eq k v d : dict_get k (dict_set k v d) = Some v.
Proof.
  induction d as [|[k' v'] d IH]; simpl.
  - by rewrite String.eqb_refl.
  - destruct (String.eqb k k') eqn:E; simpl; rewrite E; [done | apply IH].
Qed.

Lemma dict_get_set_ne k k' v d :
  k ≠ k' → dict_get k (dict_set k' v d) = dict_get k d.
Proof.
  intros Hne. induction d as [|[k0 v0] d IH]; simpl.
  - by apply String.eqb_neq in Hne as ->.
  - destruct (String.eqb k' k0) eqn:E; simpl.
    + apply String.eqb_eq in E as <-.
      by apply String.eqb_neq in Hne as ->.
    + by rewrite IH.
Qed.

Lemma dict_get_del_ne k k' d :
  k ≠ k' → dict_get k (dict_del k' d) = dict_get k d.
Proof.
  intros Hne. induction d as [|[k0 v0] d IH]; simpl; [done|].
  destruct (String.eqb k' k0) eqn:E; simpl.
  - apply String.eqb_eq in E as <-.
    by apply String.eqb_neq in Hne as ->.
  - by rewrite IH.
Qed.

Lemma dict_get_or_none_some k d v :
  dict_get k d = Some v → dict_get_or_none k d = v.
Proof. unfold dict_get_or_none. by intros ->. Qed.

Lemma dict_get_or_none_none k d :
  dict_get k d = None → dict_get_or_none k d = VNone.
Proof. unfold dict_get_or_none. by intros ->. Qed.

Lemma dict_get_update_other k d u :
  k ∉ dict_keys u → dict_get k (dict_update d u) = dict_get k d.
Proof.
  unfold dict_update. revert d.
  induction u as [|[k' v'] u IH]; intros d Hk; simpl; [done|].
  rewrite IH.
  - apply dict_get_set_ne. intros ->. apply Hk. simpl. left.
  - intros Hin. apply Hk. simpl. by right.
Qed.

Lemma dict_keys_set k v d : dict_keys (dict_set k v d) ⊆ k :: dict_keys d.
Proof.
  induction d as [|[k' v'] d IH]; simpl; [done|].
  destruct (String.eqb k k') eqn:E; simpl.
  - set_solver.
  - set_solver.
Qed.

Lemma dict_keys_drop_none d : dict_keys (drop_none d) ⊆ dict_keys d.
Proof.
  induction d as [|[k v] d IH]; simpl; [done|].
  destruct (negb (is_none v)); simpl; set_solver.
Qed.

Lemma find_one_matches f q c u : find_one f q c = Some u → matches f q u = true.
Proof. intros H. by apply List.find_some in H as [_ ?]. Qed.

Lemma set_first_length f q u c : length (set_first f q u c) = length c.
Proof.
  induction c as [|d c IH]; simpl; [done|].
  destruct (matches f q d); simpl; by rewrite ?IH.
Qed.

(** [$set] leaves every field it does not name as it was, in every
    document of the collection. *)
Lemma set_first_frame f q u c i k :
  k ∉ dict_keys u → field_at (set_first f q u c) i k = field_at c i k.
Proof.
  intros Hk. unfold field_at. revert i.
  induction c as [|d c IH]; intros i; simpl; [done|].
  destruct (matches f q d).
  - destruct i; simpl; [|done]. by apply dict_get_update_other.
  - destruct i; simpl; [done|]. apply IH.
Qed.

(** ** Values as the store keeps them *)

Lemma stored_dict d : stored (VDict d) = VDict (stored_doc d).
Proof.
  cbn [stored]. f_equal. unfold stored_doc.
  induction d as [|[k x] d IH]; [done|]. cbn [List.map fst snd]. by rewrite IH.
Qed.

Lemma dict_get_stored k d : dict_get k (stored_doc d) = stored <$> dict_get k d.
Proof.
  unfold stored_doc. induction d as [|[k' v] d IH]; [done|].
  cbn [List.map dict_get fst snd]. by destruct (String.eqb k k').
Qed.

Lemma dict_get_or_none_stored k d :
  dict_get_or_none k (stored_doc d) = stored (dict_get_or_none k d).
Proof.
  unfold dict_get_or_none. rewrite dict_get_stored.
  by destruct (dict_get k d).
Qed.

Lemma dict_keys_stored d : dict_keys (stored_doc d) = dict_keys d.
Proof.
  unfold dict_keys, stored_doc. rewrite List.map_map. by apply List.map_ext.
Qed.

Lemma truthy_stored v : truthy (stored v) = truthy v.
Proof. destruct v as [| | | | | |[|x l]|[|[k x] d]]; reflexivity. Qed.

Lemma py_or_stored x y : py_or (stored x) (stored y) = stored (py_or x y).
Proof. unfold py_or. rewrite truthy_stored. by destruct (truthy x). Qed.

Lemma stored_doc_nonempty d : d ≠ [] → stored_doc d ≠ [].
Proof. by destruct d. Qed.

(** A value that holds no datetime is kept as it is. *)
Lemma stored_json_safe v : json_safe v = true → stored v = v.
Proof.
  revert v. fix IH 1. intros [| | | | | |l|d]; try done.
  - cbn [stored json_safe]. intros Hl. f_equal.
    induction l as [|x l IHl]; [done|].
    apply andb_true_iff in Hl as [Hx Hl]. by rewrite (IH x Hx), (IHl Hl).
  - cbn [stored json_safe]. intros Hd. f_equal.
    induction d as [|[k x] d IHd]; [done|].
    apply andb_true_iff in Hd as [Hx Hd]. by rewrite (IH x Hx), (IHd Hd).
Qed.

Lemma stored_doc_set k v d :
  stored_doc (dict_set k v d) = dict_set k (stored v) (stored_doc d).
Proof.
  unfold stored_doc. induction d as [|[k' v'] d IH]; [done|].
  cbn [dict_set List.map fst snd].
  destruct (String.eqb k k'); cbn [List.map fst snd]; by rewrite ?IH.
Qed.

Lemma stored_doc_del k d :
  stored_doc (dict_del k d) = dict_del k (stored_doc d).
Proof.
  unfold stored_doc. induction d as [|[k' v'] d IH]; [done|].
  cbn [dict_del List.map fst snd].
  destruct (String.eqb k k'); cbn [List.map fst snd]; by rewrite ?IH.
Qed.

Lemma bson_time_le t : bson_time t ≤ t.
Proof.
  unfold bson_time. pose proof (Z.mul_div_le t 1000). lia.
Qed.

Lemma bson_time_above t : t < bson_time t + 1000.
Proof.
  unfold bson_time. pose proof (Z.mod_pos_bound t 1000).
  pose proof (Z.div_mod t 1000). lia.
Qed.

(** Whole seconds go through the rounding. *)
Lemma bson_time_plus_seconds t n :
  bson_time (t + n * 1000000) = bson_time t + n * 1000000.
Proof.
  unfold bson_time.
  replace (t + n * 1000000) with (t + (n * 1000) * 1000) by lia.
  rewrite Z.div_add by lia. lia.
Qed.

Lemma bson_time_idem t : bson_time (bson_time t) = bson_time t.
Proof. unfold bson_time. by rewrite Z.div_mul. Qed.

(** ** Logins ([get_or_create_user_from_info]) *)

Section MongoProperties.
Context {RT : Runtime}.

Lemma identity_data_keys google_id ui k :
  k ∈ dict_keys (identity_data google_id ui) → k ∈ login_fields.
Proof.
  intros Hk. apply dict_keys_drop_none in Hk. simpl in Hk.
  unfold login_fields. set_solver.
Qed.

Lemma login_update_keys google_id ui now k :
  k ∈ dict_keys
        (dict_set "last_login_at" now
           (dict_set "updated_at" now (identity_data google_id ui))) →
  k ∈ login_fields.
Proof.
  intros Hk. apply dict_keys_set in Hk.
  apply elem_of_cons in Hk as [->|Hk]; [unfold login_fields; set_solver|].
  apply dict_keys_set in Hk.
  apply elem_of_cons in Hk as [->|Hk]; [unfold login_fields; set_solver|].
  by apply identity_data_keys in Hk.
Qed.

Lemma role_not_login_field : "role" ∉ login_fields.
Proof. unfold login_fields. set_solver. Qed.

(** [_doc_to_dict] touches [_id] and [id] only. *)
Lemma doc_to_dict_field k d out :
  _doc_to_dict (Some d) = Some out → k ≠ "id" → k ≠ "_id" →
  dict_get k out = dict_get k d.
Proof.
  destruct d as [|kv d]; [done|]. unfold _doc_to_dict.
  intros H%(inj Some) Hid H_id. rewrite <- H.
  rewrite dict_get_set_ne by done. by rewrite dict_get_del_ne.
Qed.

(** A document found by a string query is not empty. *)
Lemma find_one_str_nonempty f s c u :
  find_one f (VStr s) c = Some u → u ≠ [].
Proof. intros H ->. apply find_one_matches in H. done. Qed.

(** C1.  When a user document with the login's google id exists, the
    login leaves the [role] of every stored user as it was, whatever the
    provider's user_info holds (a [role] key included) and whether or not
    the store accepts the write: the collection keeps its documents, no
    field outside the identity fields and the login timestamps changes,
    and the document handed back carries the stored role. *)
Theorem login_preserves_role (e : login_env) (ui : dict) (db : store) (u : dict) :
  find_one "google_id" (VStr (py_str (google_id_of ui))) (usuarios db) = Some u →
  let out := get_or_create_user_from_info e (VDict ui) db in
  length (usuarios out.2) = length (usuarios db)
  ∧ (∀ i, field_at (usuarios out.2) i "role" = field_at (usuarios db) i "role")
  ∧ (∀ i k, k ∉ login_fields →
       field_at (usuarios out.2) i k = field_at (usuarios db) i k)
  ∧ (∀ d, out.1 = Ok (Some d) → dict_get "role" d = dict_get "role" u).
Proof.
  intros Hfind. cbv zeta.
  assert (Hgoal :
    let out := get_or_create_user_from_info e (VDict ui) db in
    length (usuarios out.2) = length (usuarios db)
    ∧ (∀ i k, k ∉ login_fields →
         field_at (usuarios out.2) i k = field_at (usuarios db) i k)
    ∧ (∀ d, out.1 = Ok (Some d) → dict_get "role" d = dict_get "role" u)).
  { unfold get_or_create_user_from_info. cbv zeta.
    destruct (truthy (google_id_of ui)); cbn [negb fst snd];
      [|by split_and!].
    rewrite Hfind.
    pose proof (find_one_str_nonempty _ _ _ _ Hfind) as Hne.
    destruct u as [|kv u']; [done|].
    set (idata := dict_set "last_login_at" _ _).
    destruct (dict_get "_id" (kv :: u')) as [id|] eqn:Hid;
      [|by split_and!].
    assert (Hrole : "role" ∉ dict_keys idata).
    { intros Hin. apply login_update_keys in Hin.
      by apply role_not_login_field. }
    unfold update_one. destruct (update_refusal idata); [by split_and!|].
    destruct (login_accepted e); [|by split_and!].
    cbn [fst snd set_usuarios usuarios]. split_and!.
    - apply set_first_length.
    - intros i k Hk. apply set_first_frame. rewrite dict_keys_stored.
      intros Hin. apply Hk. by apply login_update_keys in Hin.
    - intros d Hd.
      assert (Hd' : _doc_to_dict (Some (dict_update (kv :: u') idata))
                    = Some d) by congruence.
      apply doc_to_dict_field with (k := "role") in Hd'; [|done..].
      rewrite Hd'. by apply dict_get_update_other. }
  cbv zeta in Hgoal. destruct Hgoal as (Hlen & Hframe & Hret).
  split_and!; try done.
  intros i. apply Hframe, role_not_login_field.
Qed.

(** ** Sessions *)

(** The document a lookup finds is the first match, and [delete_one]
    with the same filter removes exactly it. *)
Lemma find_one_split f q c doc :
  find_one f q c = Some doc →
  ∃ before after,
    c = (before ++ doc :: after)%list
    ∧ (∀ d, d ∈ before → matches f q d = false)
    ∧ matches f q doc = true
    ∧ (delete_one f q c).2 = (before ++ after)%list.
Proof.
  unfold find_one. induction c as [|d c IH]; [done|]. cbn [find delete_one].
  destruct (matches f q d) eqn:Hm.
  - intros [= ->]. exists [], c. split_and!; try done.
    intros d Hd. by apply elem_of_nil in Hd.
  - intros Hfind. destruct (IH Hfind) as (before & after & -> & Hb & Hdoc & Hdel).
    exists (d :: before), after. split_and!; try done.
    + intros d' [->|Hd']%elem_of_cons; [done | by apply Hb].
    + destruct (delete_one f q (before ++ doc :: after)) as [n r].
      cbn [snd] in *. by rewrite Hdel.
Qed.

Lemma find_one_none f q c :
  (∀ d, d ∈ c → matches f q d = false) → find_one f q c = None.
Proof.
  intros H. unfold find_one. induction c as [|d c IH]; [done|]. cbn [find].
  rewrite H by left. apply IH. intros d' Hd'. apply H. by right.
Qed.

(** C2.  When the session document a lookup finds has an [expires_at]
    strictly earlier than the current time, [get_session] returns [None]
    and the store loses exactly that document: the documents before and
    after it stay, and, no later document having the same id, a second
    lookup finds nothing. *)
Theorem expired_session_is_dropped
    (now : Z) (sid : string) (d : store) (doc : dict) (t : Z) :
  find_one "_id" (VStr sid) (sessions d) = Some doc →
  dict_get "expires_at" doc = Some (VTime t) →
  t < now →
  let out := get_session now sid d in
  out.1 = Ok None
  ∧ usuarios out.2 = usuarios d
  ∧ ∃ before after,
      sessions d = (before ++ doc :: after)%list
      ∧ sessions out.2 = (before ++ after)%list
      ∧ (∀ x, x ∈ before → matches "_id" (VStr sid) x = false)
      ∧ ((∀ x, x ∈ after → matches "_id" (VStr sid) x = false) →
         find_one "_id" (VStr sid) (sessions out.2) = None).
Proof.
  intros Hfind Hexp Hlt. cbv zeta. unfold get_session. rewrite Hfind.
  pose proof (find_one_str_nonempty _ _ _ _ Hfind) as Hne.
  destruct doc as [|kv doc']; [done|].
  unfold dict_get_or_none. rewrite Hexp. cbn [truthy].
  apply Z.ltb_lt in Hlt as ->. cbn [fst snd set_sessions usuarios sessions].
  split_and!; try done.
  destruct (find_one_split _ _ _ _ Hfind) as (before & after & Hc & Hb & _ & Hdel).
  exists before, after. split_and!; try done.
  intros Ha. rewrite Hdel. apply find_one_none.
  intros x [Hx|Hx]%elem_of_app; [by apply Hb | by apply Ha].
Qed.

(** How a creation goes: the expiry has to be a datetime, the driver
    has to take the document, and the id has to be new. *)
Lemma create_session_with_meta_run sid now user_id meta ttl d :
  create_session_with_meta sid now user_id meta ttl d
  = if expiry_in_range now ttl then
      match insert_refusal (session_document sid now user_id meta ttl) with
      | Some e => (Raise e, d)
      | None =>
          if holds_id (VStr sid) (sessions d)
          then (Raise (DuplicateKeyError "E11000 duplicate key error"), d)
          else
            (Ok sid,
             set_sessions
               (sessions d
                ++ [stored_doc (session_document sid now user_id meta ttl)])%list
               d)
      end
    else (Raise (OverflowError (overflow_text now ttl)), d).
Proof.
  unfold create_session_with_meta, plus_seconds, expiry_in_range,
    timedelta_seconds.
  destruct (timedelta_in_range ttl && datetime_in_range (now + ttl * 1000000));
    [|done].
  unfold insert_one. fold (session_document sid now user_id meta ttl).
  destruct (insert_refusal _); [done|].
  change (dict_get_or_none "_id" (session_document sid now user_id meta ttl))
    with (VStr sid).
  by destruct (holds_id (VStr sid) (sessions d)).
Qed.

Lemma create_session_with_meta_raises sid now user_id meta ttl d e :
  (create_session_with_meta sid now user_id meta ttl d).1 = Raise e →
  (create_session_with_meta sid now user_id meta ttl d).2 = d.
Proof.
  rewrite create_session_with_meta_run.
  destruct (expiry_in_range now ttl); [|done].
  destruct (insert_refusal _); [done|].
  by destruct (holds_id (VStr sid) (sessions d)).
Qed.

(** The session document as the store keeps it. *)
Lemma stored_session_document sid now user_id meta ttl :
  stored_doc (session_document sid now user_id meta ttl)
  = [ ("_id", VStr sid);
      ("user_id", VStr (py_str user_id));
      ("created_at", VTime (bson_time now));
      ("expires_at", VTime (bson_time (now + ttl * 1000000)));
      ("meta", stored (py_or meta (VDict []))) ].
Proof. reflexivity. Qed.

(** C7, as the code has it.  When the clock plus [ttl_seconds] is a
    datetime and the driver takes the session document,
    [create_session_with_meta] stores one new session document and
    returns its id: the document has the text of the user id as
    [user_id], the metadata given (the empty dict when none is given) as
    [meta], and an [expires_at] that is its [created_at] plus
    [ttl_seconds], times and metadata being kept as the store keeps
    them, to the millisecond.  Otherwise it raises, an [OverflowError]
    when the expiry is out of range, and stores nothing.  The id drawn by
    [uuid4] is taken not to be in the collection yet.  The default time
    to live is 7200 seconds. *)
Theorem create_session_with_meta_stores
    (sid : string) (now : Z) (user_id : value) (meta : option dict)
    (ttl_seconds : Z) (d : store) :
  holds_id (VStr sid) (sessions d) = false →
  let m := from_option VDict VNone meta in
  let out := create_session_with_meta sid now user_id m ttl_seconds d in
  DEFAULT_TTL_SECONDS = 7200
  ∧ usuarios out.2 = usuarios d
  ∧ (expiry_in_range now ttl_seconds = true →
     insert_refusal (session_document sid now user_id m ttl_seconds) = None →
     out.1 = Ok sid
     ∧ ∃ doc,
         sessions out.2 = (sessions d ++ [doc])%list
         ∧ dict_get "_id" doc = Some (VStr sid)
         ∧ dict_get "user_id" doc = Some (VStr (py_str user_id))
         ∧ dict_get "meta" doc = Some (stored (VDict (default [] meta)))
         ∧ dict_get "created_at" doc = Some (VTime (bson_time now))
         ∧ dict_get "expires_at" doc
           = Some (VTime (bson_time now + ttl_seconds * 1000000)))
  ∧ (expiry_in_range now ttl_seconds = false →
     out = (Raise (OverflowError (overflow_text now ttl_seconds)), d))
  ∧ (∀ e, expiry_in_range now ttl_seconds = true →
       insert_refusal (session_document sid now user_id m ttl_seconds)
       = Some e →
       out = (Raise e, d))
  ∧ (∀ e, out.1 = Raise e → out.2 = d).
Proof.
  intros Hfresh. cbv zeta.
  split; [done|]. split_and!.
  - rewrite create_session_with_meta_run, Hfresh.
    destruct (expiry_in_range now ttl_seconds); [|done].
    by destruct (insert_refusal _).
  - intros Hrange Hacc.
    rewrite create_session_with_meta_run, Hrange, Hacc, Hfresh.
    cbn [fst snd set_sessions sessions]. split; [done|].
    eexists. split; [reflexivity|]. rewrite stored_session_document.
    rewrite bson_time_plus_seconds. split_and!; try reflexivity.
    cbn [dict_get String.eqb Ascii.eqb Bool.eqb]. do 2 f_equal.
    by destruct meta as [[|kv m]|].
  - intros Hrange. by rewrite create_session_with_meta_run, Hrange.
  - intros e Hrange Href.
    by rewrite create_session_with_meta_run, Hrange, Href.
  - intros e. apply create_session_with_meta_raises.
Qed.

End MongoProperties.

(** *** The sample store, run *)

Example doc_to_dict_sample :
  @_doc_to_dict sample_runtime (Some admin_doc)
  = Some [ ("google_id", VStr "1001");
           ("email", VStr "ana@example.com");
           ("name", VStr "Ana");
           ("role", VStr "admin");
           ("id", VStr "65a000000000000000000001") ].
Proof. reflexivity. Qed.

(** The provider says [role: user]; the administrator stays one, her
    name follows the provider. *)
Example login_sample :
  let out :=
    @get_or_create_user_from_info sample_runtime sample_login
      (VDict sample_user_info) sample_db in
  field_at (usuarios out.2) 0 "role" = Some (VStr "admin")
  ∧ field_at (usuarios out.2) 0 "name" = Some (VStr "Ana B.")
  ∧ field_at (usuarios out.2) 0 "last_login_at" = Some (VTime 2000)
  ∧ length (usuarios out.2) = 1%nat.
Proof. vm_compute. done. Qed.

(** A first login creates the user, with the provider's role or [user]. *)
Example first_login_sample :
  let out :=
    @get_or_create_user_from_info sample_runtime sample_login
      (VDict [("sub", VStr "2002"); ("email", VStr "bo@example.com")])
      sample_db in
  field_at (usuarios out.2) 1 "role" = Some (VStr "user")
  ∧ field_at (usuarios out.2) 1 "_id"
    = Some (VOid "65a000000000000000000002")
  ∧ field_at (usuarios out.2) 0 "role" = Some (VStr "admin").
Proof. vm_compute. done. Qed.

Example get_session_live :
  @get_session sample_runtime 3000 "s-1" sample_db
  = (Ok (Some [ ("user_id", VStr "65a000000000000000000001");
                ("created_at", VTime 1000);
                ("expires_at", VTime 5000);
                ("meta", VDict [ ("access_token", VStr "at-1");
                                 ("refresh_token", VNone) ]);
                ("id", VStr "s-1") ]),
     sample_db).
Proof. reflexivity. Qed.

(** At the very instant of expiry the session is still returned. *)
Example get_session_at_expiry :
  (@get_session sample_runtime 5000 "s-1" sample_db).2 = sample_db
  ∧ (@get_session sample_runtime 5000 "s-1" sample_db).1 ≠ Ok None.
Proof. split; [reflexivity | discriminate]. Qed.

Example get_session_expired :
  @get_session sample_runtime 5001 "s-1" sample_db
  = (Ok None, {| usuarios := [admin_doc]; sessions := [] |}).
Proof. reflexivity. Qed.

Lemma login_preserves_role_witness :
  field_at
    (usuarios
       (@get_or_create_user_from_info sample_runtime sample_login
          (VDict sample_user_info) sample_db).2) 0 "role"
  = field_at (usuarios sample_db) 0 "role".
Proof.
  assert (H : find_one "google_id"
                (VStr (@py_str sample_runtime (google_id_of sample_user_info)))
                (usuarios sample_db) = Some admin_doc) by reflexivity.
  exact (proj1 (proj2 (@login_preserves_role sample_runtime sample_login
                         sample_user_info sample_db admin_doc H)) 0%nat).
Defined.

Lemma expired_session_is_dropped_witness :
  (@get_session sample_runtime 6000 "s-1" sample_db).1 = Ok None.
Proof.
  assert (H1 : find_one "_id" (VStr "s-1") (sessions sample_db)
               = Some session_doc) by reflexivity.
  assert (H2 : dict_get "expires_at" session_doc = Some (VTime 5000))
    by reflexivity.
  assert (H3 : 5000 < 6000) by lia.
  exact (proj1 (@expired_session_is_dropped sample_runtime 6000 "s-1"
                  sample_db session_doc 5000 H1 H2 H3)).
Defined.

Lemma create_session_with_meta_stores_witness :
  (@create_session_with_meta sample_runtime "s-2" 2000
     (VStr "65a000000000000000000001")
     (VDict [("access_token", VStr "at-2")]) 7200 sample_db).1
  = Ok "s-2".
Proof.
  assert (H : holds_id (VStr "s-2") (sessions sample_db) = false)
    by reflexivity.
  assert (H1 : expiry_in_range 2000 7200 = true) by reflexivity.
  assert (H2 : @insert_refusal sample_runtime
                 (@session_document sample_runtime "s-2" 2000
                    (VStr "65a000000000000000000001")
                    (VDict [("access_token", VStr "at-2")]) 7200)
               = None) by reflexivity.
  exact (proj1 (proj1 (proj2 (proj2
           (@create_session_with_meta_stores sample_runtime "s-2" 2000
              (VStr "65a000000000000000000001")
              (Some [("access_token", VStr "at-2")]) 7200 sample_db H)))
           H1 H2)).
Defined.

(** A time to live of a million million seconds: the id is new and the
    metadata is a plain dict, yet the expiry would lie past the year
    9999; the creation raises [OverflowError], returns no id and stores
    nothing. *)
Lemma create_session_with_meta_out_of_range :
  let out :=
    @create_session_with_meta sample_runtime "s-2" 2000
      (VStr "65a000000000000000000001")
      (VDict [("access_token", VStr "at-2")]) 1000000000000 sample_db in
  holds_id (VStr "s-2") (sessions sample_db) = false
  ∧ (∃ msg, out.1 = Raise (OverflowError msg))
  ∧ out.1 ≠ Ok "s-2"
  ∧ out.2 = sample_db
  ∧ sessions out.2 = [session_doc].
Proof.
  assert (Hrun :
    @create_session_with_meta sample_runtime "s-2" 2000
      (VStr "65a000000000000000000001")
      (VDict [("access_token", VStr "at-2")]) 1000000000000 sample_db
    = (Raise (OverflowError "date value out of range"), sample_db))
    by (vm_compute; reflexivity).
  cbv zeta. rewrite Hrun. cbn [fst snd]. split_and!; try done.
  by eexists.
Qed.

(** Metadata the driver refuses, here an integer of more than eight
    bytes: the creation raises what the driver raises and stores
    nothing. *)
Example create_session_with_meta_refused :
  ∃ e,
    @create_session_with_meta sample_runtime "s-2" 2000
      (VStr "65a000000000000000000001")
      (VDict [("access_token", VInt (2 ^ 64))]) 7200 sample_db
    = (Raise e, sample_db).
Proof. eexists. vm_compute. reflexivity. Qed.

(** Times are kept to the millisecond: a session created at 2500
    microseconds is stored as created at 2000. *)
Example create_session_with_meta_truncates :
  field_at
    (sessions
       (@create_session_with_meta sample_runtime "s-2" 2500
          (VStr "65a000000000000000000001") VNone 7200 sample_db).2)
    1 "created_at"
  = Some (VTime 2000)
  ∧ field_at
      (sessions
         (@create_session_with_meta sample_runtime "s-2" 2500
            (VStr "65a000000000000000000001") VNone 7200 sample_db).2)
      1 "expires_at"
    = Some (VTime 7200002000).
Proof. split; vm_compute; reflexivity. Qed.

(** ** Search filter *)






Example build_search_query_sample :
  re_escape "a.b*(c) d" = "a\.b\*\(c\)\ d"
  ∧ holds_nul (re_escape "a.b*(c) d") = false.
Proof. by vm_compute. Qed.

(** ** Product normalisation *)

Section ProductProperties.
Context {RT : Runtime}.

(** The [tags] field of a normalised product. *)
Lemma normalize_product_tags (doc : dict) :
  doc ≠ [] →
  dict_get "tags" (_normalize_product doc)
  = let tags := py_or (dict_get_or_none "tags" doc) (VList []) in
    Some match tags with
         | VStr s => VList (List.map VStr (_parse_tags s))
         | _ => tags
         end.
Proof. destruct doc as [|kv doc]; [done|]. reflexivity. Qed.

Lemma list_of_set_NoDup (xs : list string) : NoDup (list_of_set xs).
Proof. unfold list_of_set. apply NoDup_elements. Qed.

Lemma list_of_set_elem (xs : list string) (x : string) :
  x ∈ list_of_set xs ↔ x ∈ xs.
Proof. unfold list_of_set. rewrite elem_of_elements. set_solver. Qed.

Lemma parse_tags_NoDup (s : string) : NoDup (_parse_tags s).
Proof.
  unfold _parse_tags. destruct (negb _); [constructor | apply list_of_set_NoDup].
Qed.

(** C4.  For a non-empty product document whose [tags] is a string, a
    list, or absent, the normalised product has a list as [tags]. *)
Theorem normalize_product_tags_is_list (doc : dict) :
  doc ≠ [] →
  dict_get "tags" doc = None
  ∨ (∃ s, dict_get "tags" doc = Some (VStr s))
  ∨ (∃ l, dict_get "tags" doc = Some (VList l)) →
  ∃ l, dict_get "tags" (_normalize_product doc) = Some (VList l).
Proof.
  intros Hne Htags. rewrite normalize_product_tags by done.
  unfold dict_get_or_none, py_or.
  destruct Htags as [->|[[s ->]|[l ->]]]; cbn [truthy].
  - by eexists.
  - destruct (negb (String.eqb s "")); by eexists.
  - destruct l; by eexists.
Qed.

(** A string of tags becomes a list of strings without repetition. *)
Lemma normalize_product_string_tags (doc : dict) (s : string) :
  doc ≠ [] →
  dict_get "tags" doc = Some (VStr s) →
  ∃ l, dict_get "tags" (_normalize_product doc) = Some (VList (List.map VStr l))
       ∧ NoDup l.
Proof.
  intros Hne Htags. rewrite normalize_product_tags by done.
  unfold dict_get_or_none, py_or. rewrite Htags. cbn [truthy].
  destruct (String.eqb s ""); cbn [negb].
  - exists []. split; [done | constructor].
  - exists (_parse_tags s). split; [done | apply parse_tags_NoDup].
Qed.

(** C5.  A stored [tags] that is a number is not coerced: the normalised
    product carries the number itself, where the docstring of
    [_normalize_product] promises a list. *)
Theorem normalize_product_scalar_tags_kept :
  dict_get "tags" (_normalize_product [("tags", VInt 5)]) = Some (VInt 5)
  ∧ is_list (VInt 5) = false.
Proof. split; reflexivity. Qed.

End ProductProperties.

Example parse_tags_sample :
  ∃ l, _parse_tags " shoes, summer ,,sale,shoes " = l
       ∧ NoDup l
       ∧ (∀ t, t ∈ l ↔ t ∈ ["shoes"; "summer"; "sale"]).
Proof.
  eexists. split; [reflexivity|]. split; [apply parse_tags_NoDup|].
  intros t. unfold _parse_tags. cbn [truthy String.eqb negb].
  rewrite list_of_set_elem. vm_compute List.map. set_solver.
Qed.

Example normalize_product_sample :
  @_normalize_product sample_runtime
    [ ("_id", VOid "65b000000000000000000009");
      ("titulo", VStr "Zapato");
      ("precio", VInt 70000);
      ("imagenes", VDict [ ("portada", VStr "a.jpg");
                          ("lista_completa",
                            VList [VStr "a.jpg"; VStr "b.jpg"]) ]);
      ("tags", VList [VStr "sale"]) ]
  = [ ("id", VStr "65b000000000000000000009");
      ("name", VStr "Zapato");
      ("description", VStr "");
      ("price", VInt 70000);
      ("image", VStr "a.jpg");
      ("images", VList [VStr "a.jpg"; VStr "b.jpg"]);
      ("tags", VList [VStr "sale"]);
      ("category", VNone) ].
Proof. reflexivity. Qed.

Lemma normalize_product_tags_is_list_witness :
  ∃ l, dict_get "tags"
         (@_normalize_product sample_runtime
            [("name", VStr "Zapato"); ("tags", VStr "sale, shoes")])
       = Some (VList l).
Proof.
  apply (@normalize_product_tags_is_list sample_runtime
           [("name", VStr "Zapato"); ("tags", VStr "sale, shoes")]).
  - discriminate.
  - right. left. exists "sale, shoes". reflexivity.
Defined.

(** ** Handlers *)

Lemma bind_unfold {A B : Type} (m : M A) (f : A → M B) (w : world) :
  (m ≫= f) w
  = match m w with
    | (Ok a, w') => f a w'
    | (Raise e, w') => (Raise e, w')
    end.
Proof. reflexivity. Qed.

Lemma bind_ok {A B : Type} (m : M A) (f : A → M B) w b w' :
  (m ≫= f) w = (Ok b, w') → ∃ a w1, m w = (Ok a, w1) ∧ f a w1 = (Ok b, w').
Proof.
  rewrite bind_unfold. destruct (m w) as [[a|e] w1]; [|done].
  intros H. by exists a, w1.
Qed.

(** A handler that only raises again never turns a failure into a
    result. *)
Lemma catch_ok {A : Type} (m : M A) (h : exn → option (M A)) w a w' :
  (∀ e k, h e = Some k → ∃ e', k = raise e') →
  catch m h w = (Ok a, w') → m w = (Ok a, w').
Proof.
  intros Hh. unfold catch. destruct (m w) as [[a0|e] w1]; [done|].
  destruct (h e) as [k|] eqn:Hk; [|done].
  destruct (Hh e k Hk) as [e' ->]. done.
Qed.

Lemma attempt_ok (m : M unit) w : attempt m w = (Ok tt, (m w).2).
Proof.
  unfold attempt, catch. by destruct (m w) as [[[]|e] w1].
Qed.

Section Respects.
Variable R : world → world → Prop.
Context `{!Reflexive R, !Transitive R}.

Lemma respects_ret {A : Type} (a : A) : respects R (mret a).
Proof. intros w. reflexivity. Qed.

Lemma respects_raise {A : Type} (e : exn) : respects R (@raise A e).
Proof. intros w. reflexivity. Qed.

Lemma respects_bind {A B : Type} (m : M A) (f : A → M B) :
  respects R m → (∀ a, respects R (f a)) → respects R (m ≫= f).
Proof.
  intros Hm Hf w. rewrite bind_unfold. specialize (Hm w).
  destruct (m w) as [[a|e] w1]; [|done].
  cbn [snd] in Hm. by etrans; [|apply Hf].
Qed.

Lemma respects_catch {A : Type} (m : M A) (h : exn → option (M A)) :
  respects R m → (∀ e k, h e = Some k → respects R k) →
  respects R (catch m h).
Proof.
  intros Hm Hh w. unfold catch. specialize (Hm w).
  destruct (m w) as [[a|e] w1]; [done|].
  destruct (h e) as [k|] eqn:Hk; [|done].
  cbn [snd] in Hm. by etrans; [|apply (Hh e k Hk)].
Qed.

Lemma respects_attempt (m : M unit) : respects R m → respects R (attempt m).
Proof.
  intros Hm. apply respects_catch; [done|].
  intros e k [= <-]. apply respects_ret.
Qed.

Lemma respects_json_of body : respects R (json_of body).
Proof. destruct body; [apply respects_ret | apply respects_raise]. Qed.

Lemma respects_py_get k x : respects R (py_get k x).
Proof. destruct x; first [apply respects_ret | apply respects_raise]. Qed.

End Respects.

#[global] Instance same_http_refl : Reflexive same_http.
Proof. by intros w. Qed.

#[global] Instance same_http_trans : Transitive same_http.
Proof. unfold same_http. intros w1 w2 w3 H1 H2. congruence. Qed.

#[global] Instance same_db_refl : Reflexive same_db.
Proof. by intros w. Qed.

#[global] Instance same_db_trans : Transitive same_db.
Proof.
  unfold same_db. intros w1 w2 w3 [H1 H1'] [H2 H2']. split; congruence.
Qed.

#[global] Instance sessions_shrink_refl sid : Reflexive (sessions_shrink sid).
Proof. by intros w. Qed.

#[global] Instance sessions_shrink_trans sid : Transitive (sessions_shrink sid).
Proof.
  unfold sessions_shrink. intros w1 w2 w3 [H1 H1'] [H2 H2'].
  split; [congruence | lia].
Qed.

Lemma http_calls_snoc_db t c : http_calls (t ++ [Db c])%list = http_calls t.
Proof. unfold http_calls. rewrite omap_app. cbn. by rewrite app_nil_r. Qed.

Lemma http_calls_snoc_http t c :
  http_calls (t ++ [Http c])%list = (http_calls t ++ [c])%list.
Proof. unfold http_calls. by rewrite omap_app. Qed.

Lemma db_calls_snoc_http t c : db_calls (t ++ [Http c])%list = db_calls t.
Proof. unfold db_calls. rewrite omap_app. cbn. by rewrite app_nil_r. Qed.

Lemma call_db_same_http {A : Type} c (f : store → result A * store) :
  respects same_http (call_db c f).
Proof.
  intros w. unfold call_db, same_http. destruct (f (db w)) as [r d].
  cbn [snd trace]. apply http_calls_snoc_db.
Qed.

Lemma send_same_db prov c : respects same_db (send prov c).
Proof.
  intros w. unfold send, same_db. cbn [snd db trace].
  split; [done | apply db_calls_snoc_http].
Qed.

(** ** The OAuth callback *)

Section CallbackProperties.
Context {RT : Runtime}.

Lemma get_env_run env name w :
  (∃ v, _get_env env name w = (Ok v, w))
  ∨ (∃ e, _get_env env name w = (Raise e, w)).
Proof.
  unfold _get_env. destruct (env !! name) as [v|]; [|by right; eexists].
  destruct (truthy (VStr v)); [left | right]; by eexists.
Qed.

Lemma open_session_same_http g req tokens user_info :
  respects same_http (open_session g req tokens user_info).
Proof.
  unfold open_session.
  apply respects_bind; [tc_solve..| |intros user].
  { apply respects_catch; [tc_solve..|apply call_db_same_http|].
    intros e k [= <-]. apply respects_raise; tc_solve. }
  apply respects_bind; [tc_solve..| |intros sid; apply respects_ret; tc_solve].
  apply respects_catch; [tc_solve..| |].
  - apply respects_bind; [tc_solve..| |intros user_id].
    { destruct user; [apply respects_ret | apply respects_raise]; tc_solve. }
    apply respects_bind; [tc_solve..|apply respects_py_get; tc_solve|].
    intros access_token.
    apply respects_bind; [tc_solve..|apply respects_py_get; tc_solve|].
    intros refresh_token. apply call_db_same_http.
  - intros e k [= <-]. apply respects_raise; tc_solve.
Qed.

(** C8.  A callback that succeeds answers with exactly one cookie,
    [session_id]: HTTP-only, [SameSite=Lax], with a max age of 7200
    seconds, and secure whenever the request came over HTTPS. *)
Theorem callback_session_cookie
    (g : callback_env) (req : request) (w w' : world) (resp : response) :
  google_callback g req w = (Ok resp, w') →
  ∃ c, cookie_ops resp = [SetCookie c]
       ∧ key c = "session_id"
       ∧ httponly c = true
       ∧ samesite c = "lax"
       ∧ max_age c = 7200
       ∧ (scheme req = "https" → secure c = true).
Proof.
  unfold google_callback. destruct (query_code req) as [code|]; [|done].
  destruct (negb (truthy (VStr code))); [done|].
  intros (client_id & w1 & _ & H)%bind_ok.
  apply bind_ok in H as (client_secret & w2 & _ & H).
  apply bind_ok in H as (redirect_uri & w3 & _ & H).
  apply bind_ok in H as ([tokens user_info] & w4 & _ & H).
  unfold open_session in H.
  apply bind_ok in H as (user & w5 & _ & H).
  apply bind_ok in H as (sid & w6 & _ & H).
  eexists. split.
  - assert (Hresp : ∀ r : response, (mret r : M response) w6 = (Ok resp, w') → resp = r)
      by (intros r Hr; unfold mret, M_ret in Hr; congruence).
    rewrite (Hresp _ H). reflexivity.
  - cbn [key httponly samesite max_age secure]. split_and!; try done.
    intros ->. by rewrite orb_true_r.
Qed.

End CallbackProperties.

(** A whole login, run: the known administrator comes back over HTTPS. *)
Example callback_sample :
  let out :=
    @google_callback sample_runtime (sample_callback good_provider)
      callback_request (start sample_db) in
  out.1
  = Ok {| location := "/login/success";
          cookie_ops :=
            [ SetCookie {| key := "session_id"; cookie_value := "s-2";
                           httponly := true; samesite := "lax";
                           secure := true; max_age := 7200 |} ] |}
  ∧ http_calls (trace out.2)
    = [ PostToken
          [ ("code", VStr "4/code"); ("client_id", VStr "cid");
            ("client_secret", VStr "secret");
            ("redirect_uri",
              VStr "http://localhost:8000/api/v1/auth/google/callback");
            ("grant_type", VStr "authorization_code") ];
        GetUserinfo "Bearer at-2" ]
  ∧ field_at (usuarios (db out.2)) 0 "role" = Some (VStr "admin")
  ∧ field_at (sessions (db out.2)) 1 "user_id"
    = Some (VStr "65a000000000000000000001")
  ∧ field_at (sessions (db out.2)) 1 "expires_at"
    = Some (VTime (2000 + 7200 * 1000000)).
Proof. vm_compute. done. Qed.

Lemma callback_session_cookie_witness :
  ∃ c, cookie_ops
         {| location := "/login/success";
            cookie_ops :=
              [ SetCookie {| key := "session_id"; cookie_value := "s-2";
                             httponly := true; samesite := "lax";
                             secure := true; max_age := 7200 |} ] |}
       = [SetCookie c]
       ∧ key c = "session_id"
       ∧ httponly c = true
       ∧ samesite c = "lax"
       ∧ max_age c = 7200
       ∧ (scheme callback_request = "https" → secure c = true).
Proof.
  apply (@callback_session_cookie sample_runtime (sample_callback good_provider)
           callback_request (start sample_db)
           (@google_callback sample_runtime (sample_callback good_provider)
              callback_request (start sample_db)).2).
  vm_compute. reflexivity.
Defined.

(** *** Failures of the provider *)

Ltac respects_step :=
  first
    [ apply respects_ret; tc_solve
    | apply respects_raise; tc_solve
    | apply respects_json_of; tc_solve
    | apply respects_py_get; tc_solve
    | apply send_same_db
    | apply call_db_same_http
    | apply respects_bind; [tc_solve.. | | intros ?]
    | match goal with
      | |- respects _ (match ?x with _ => _ end) => destruct x
      end ].

Section ExchangeProperties.
Context {RT : Runtime}.

Lemma exchange_code_same_db prov code client_id client_secret redirect_uri :
  respects same_db
    (exchange_code prov code client_id client_secret redirect_uri).
Proof. unfold exchange_code. repeat respects_step. Qed.

(** What [exchange_code] sends, and what a request that goes wrong makes
    of it: one request to the token endpoint, then at most one to the
    userinfo endpoint; a transport failure of either raises it as such,
    an answer other than 200 raises an [HTTPException] with status 500. *)
Lemma exchange_code_run prov code client_id client_secret redirect_uri w :
  let out :=
    exchange_code prov code client_id client_secret redirect_uri w in
  ∃ calls,
    http_calls (trace out.2) = (http_calls (trace w) ++ calls)%list
    ∧ (length (List.filter is_post_token calls) ≤ 1)%nat
    ∧ (length (List.filter is_get_userinfo calls) ≤ 1)%nat
    ∧ ∀ c, c ∈ calls →
        match prov c with
        | Failure msg => out.1 = Raise (TransportError msg)
        | Answer status _ =>
            status ≠ 200 →
            ∃ detail, out.1 = Raise (HTTPException 500 detail)
        end.
Proof.
  cbv zeta.
  destruct (exchange_code prov code client_id client_secret redirect_uri w)
    as [r w'] eqn:Hrun.
  cbn [fst snd]. revert Hrun.
  unfold exchange_code. set (c1 := PostToken _).
  (* the run ends after the token request *)
  assert (Hone :
    (match prov c1 with
     | Failure msg => r = Raise (TransportError msg)
     | Answer status _ =>
         status ≠ 200 → ∃ detail, r = Raise (HTTPException 500 detail)
     end) →
    trace w' = (trace w ++ [Http c1])%list →
    ∃ calls,
      http_calls (trace w') = (http_calls (trace w) ++ calls)%list
      ∧ (length (List.filter is_post_token calls) ≤ 1)%nat
      ∧ (length (List.filter is_get_userinfo calls) ≤ 1)%nat
      ∧ ∀ c, c ∈ calls →
          match prov c with
          | Failure msg => r = Raise (TransportError msg)
          | Answer status _ =>
              status ≠ 200 → ∃ detail, r = Raise (HTTPException 500 detail)
          end).
  { intros Hr ->. exists [c1]. rewrite http_calls_snoc_http.
    split_and!; [done | cbn; lia | cbn; lia |].
    by intros c ->%list_elem_of_singleton. }
  rewrite bind_unfold. unfold send at 1. cbv beta iota.
  destruct (prov c1) as [status body|msg] eqn:E1;
    [|intros [= <- <-]; by apply Hone].
  destruct (status =? 200) eqn:Hs; cbn [negb];
    [apply Z.eqb_eq in Hs as ->
    |intros [= <- <-]; apply Hone; [intros _; by eexists | done]].
  rewrite bind_unfold.
  destruct body as [tokens|]; [|intros [= <- <-]; by apply Hone].
  cbn [json_of]. unfold mret at 1, M_ret at 1. cbv beta iota.
  rewrite bind_unfold.
  destruct tokens as [| | | | | | |tokens];
    try (intros [= <- <-]; by apply Hone).
  cbn [py_get]. unfold mret at 1, M_ret at 1. cbv beta iota.
  destruct (truthy (dict_get_or_none "access_token" tokens));
    cbn [negb]; [|intros [= <- <-]; by apply Hone].
  rewrite bind_unfold. unfold send at 1. cbv beta iota.
  set (c2 := GetUserinfo _). clear Hone.
  (* the run ends after the userinfo request *)
  assert (Htwo :
    (match prov c2 with
     | Failure msg => r = Raise (TransportError msg)
     | Answer status _ =>
         status ≠ 200 → ∃ detail, r = Raise (HTTPException 500 detail)
     end) →
    trace w' = ((trace w ++ [Http c1]) ++ [Http c2])%list →
    ∃ calls,
      http_calls (trace w') = (http_calls (trace w) ++ calls)%list
      ∧ (length (List.filter is_post_token calls) ≤ 1)%nat
      ∧ (length (List.filter is_get_userinfo calls) ≤ 1)%nat
      ∧ ∀ c, c ∈ calls →
          match prov c with
          | Failure msg => r = Raise (TransportError msg)
          | Answer status _ =>
              status ≠ 200 → ∃ detail, r = Raise (HTTPException 500 detail)
          end).
  { intros Hr ->. exists [c1; c2].
    rewrite !http_calls_snoc_http, <- app_assoc.
    split_and!; [done | cbn; lia | cbn; lia |].
    intros c [->|[->|[]%elem_of_nil]%elem_of_cons]%elem_of_cons; [|done].
    by rewrite E1. }
  cbn [db trace].
  destruct (prov c2) as [status' body'|msg'] eqn:E2;
    [|intros [= <- <-]; by apply Htwo].
  destruct (status' =? 200) eqn:Hs'; cbn [negb];
    [apply Z.eqb_eq in Hs' as ->
    |intros [= <- <-]; apply Htwo; [intros _; by eexists | done]].
  rewrite bind_unfold.
  destruct body' as [user_info|]; intros [= <- <-]; by apply Htwo.
Qed.

End ExchangeProperties.

Section CallbackFailure.
Context {RT : Runtime}.

(** C6, as the code has it.  In one callback the token endpoint and the
    userinfo endpoint are each asked at most once.  When a request to
    either fails in transport the callback raises an [HTTPException] with
    status 502; when either answers with a status other than 200 it
    raises one with status 500.  Either way the store is neither changed
    nor called: no user and no session is created. *)
Theorem callback_provider_failure
    (g : callback_env) (req : request) (d : store) :
  let out := google_callback g req (start d) in
  (times is_post_token (trace out.2) ≤ 1)%nat
  ∧ (times is_get_userinfo (trace out.2) ≤ 1)%nat
  ∧ ∀ c, c ∈ http_calls (trace out.2) →
      match provider g c with
      | Failure _ =>
          (∃ detail, out.1 = Raise (HTTPException 502 detail))
          ∧ db out.2 = d ∧ db_calls (trace out.2) = []
      | Answer status _ =>
          status ≠ 200 →
          (∃ detail, out.1 = Raise (HTTPException 500 detail))
          ∧ db out.2 = d ∧ db_calls (trace out.2) = []
      end.
Proof.
  cbv zeta. unfold google_callback.
  assert (Hquiet : ∀ e : exn,
    let out : result response * world := (Raise e, start d) in
    (times is_post_token (trace out.2) ≤ 1)%nat
    ∧ (times is_get_userinfo (trace out.2) ≤ 1)%nat
    ∧ ∀ c, c ∈ http_calls (trace out.2) →
        match provider g c with
        | Failure _ =>
            (∃ detail, out.1 = Raise (HTTPException 502 detail))
            ∧ db out.2 = d ∧ db_calls (trace out.2) = []
        | Answer status _ =>
            status ≠ 200 →
            (∃ detail, out.1 = Raise (HTTPException 500 detail))
            ∧ db out.2 = d ∧ db_calls (trace out.2) = []
        end).
  { intros e. cbn. split_and!; [lia | lia |]. by intros c []%elem_of_nil. }
  destruct (query_code req) as [code|]; [|apply Hquiet].
  destruct (negb (truthy (VStr code))); [apply Hquiet|].
  rewrite bind_unfold.
  destruct (get_env_run (environ g) "GOOGLE_CLIENT_ID" (start d))
    as [[client_id ->]|[e ->]]; [|apply Hquiet].
  rewrite bind_unfold.
  destruct (get_env_run (environ g) "GOOGLE_CLIENT_SECRET" (start d))
    as [[client_secret ->]|[e ->]]; [|apply Hquiet].
  rewrite bind_unfold.
  destruct (get_env_run (environ g) "GOOGLE_REDIRECT_URI" (start d))
    as [[redirect_uri ->]|[e ->]]; [|apply Hquiet].
  clear Hquiet. rewrite bind_unfold. unfold catch.
  pose proof (exchange_code_run (provider g) code client_id client_secret
                redirect_uri (start d)) as Hrun.
  pose proof (exchange_code_same_db (provider g) code client_id client_secret
                redirect_uri (start d)) as [Hdb Hdbc].
  cbv zeta in Hrun.
  destruct (exchange_code (provider g) code client_id client_secret
              redirect_uri (start d)) as [r w1].
  cbn [fst snd start db trace] in Hrun, Hdb, Hdbc.
  destruct Hrun as (calls & Hcalls & Hp & Hu & Hc).
  change (http_calls [] ++ calls)%list with calls in Hcalls.
  change (db_calls []) with (@nil db_call) in Hdbc.
  destruct r as [[tokens user_info]|e].
  - (* both requests were answered with 200 *)
    pose proof (open_session_same_http g req tokens user_info w1) as Hq.
    unfold same_http in Hq. unfold times. rewrite Hq, Hcalls.
    split_and!; [done | done |].
    intros c Hin. specialize (Hc c Hin).
    destruct (provider g c) as [status body|msg]; [|done].
    intros Hne. by destruct (Hc Hne).
  - (* the exchange raised *)
    assert (Hout : ∃ e',
      match bad_gateway e with
      | Some k => k w1
      | None => (Raise e, w1)
      end = (Raise e', w1)
      ∧ (∀ msg, e = TransportError msg →
           ∃ detail, e' = HTTPException 502 detail)
      ∧ (∀ detail, e = HTTPException 500 detail → e' = e)).
    { destruct e; cbn [bad_gateway]; eexists; split_and!;
        try done; intros; by eexists. }
    destruct Hout as (e' & -> & Ht & Hh). cbn [fst snd]. unfold times.
    rewrite Hcalls. split_and!; [done | done |].
    intros c Hin. specialize (Hc c Hin).
    destruct (provider g c) as [status body|msg].
    + intros Hne. destruct (Hc Hne) as [detail [= ->]].
      rewrite (Hh _ eq_refl). split_and!; [by eexists | done | done].
    + injection Hc as ->. destruct (Ht _ eq_refl) as [detail ->].
      split_and!; [by eexists | done | done].
Qed.

End CallbackFailure.

(** A token endpoint that answers 400 makes the callback raise status
    500, which is not a gateway status. *)
Lemma callback_bad_status_is_500 :
  let out :=
    @google_callback sample_runtime (sample_callback refusing_provider)
      callback_request (start sample_db) in
  (∃ c status body,
     c ∈ http_calls (trace out.2)
     ∧ provider (sample_callback refusing_provider) c = Answer status body
     ∧ ¬ (200 ≤ status < 300))
  ∧ out.1 = Raise (HTTPException 500 "Failed to fetch token from Google")
  ∧ ¬ gateway_error out.1.
Proof.
  assert (Hrun :
    @google_callback sample_runtime (sample_callback refusing_provider)
      callback_request (start sample_db)
    = (Raise (HTTPException 500 "Failed to fetch token from Google"),
       {| db := sample_db;
          trace :=
            [ Http (PostToken
                [ ("code", VStr "4/code"); ("client_id", VStr "cid");
                  ("client_secret", VStr "secret");
                  ("redirect_uri",
                    VStr "http://localhost:8000/api/v1/auth/google/callback");
                  ("grant_type", VStr "authorization_code") ]) ] |}))
    by (vm_compute; reflexivity).
  cbv zeta. rewrite Hrun. cbn [fst snd trace]. split_and!.
  - eexists _, 400, _. split_and!; [by left | reflexivity | lia].
  - reflexivity.
  - intros [detail [H|H]]; discriminate H.
Qed.

Example callback_dead_provider :
  let out :=
    @google_callback sample_runtime (sample_callback dead_provider)
      callback_request (start sample_db) in
  out.1
  = Raise (HTTPException 502
      "HTTP error while contacting Google APIs: connection refused.")
  ∧ db out.2 = sample_db
  ∧ length (trace out.2) = 1%nat.
Proof. vm_compute. done. Qed.

(** ** Logout *)

Lemma holding_delete_one id c :
  holding id (delete_one "_id" id c).2 = Nat.pred (holding id c).
Proof.
  unfold holding. induction c as [|d c IH]; [done|].
  cbn [delete_one List.filter].
  destruct (matches "_id" id d) eqn:Hm; [done|].
  destruct (delete_one "_id" id c) as [n r]. cbn [snd] in *.
  cbn [List.filter]. by rewrite Hm.
Qed.

Lemma send_sessions_shrink sid prov c :
  respects (sessions_shrink sid) (send prov c).
Proof. by intros w. Qed.

Lemma call_db_sessions_shrink {A : Type} sid c (f : store → result A * store) :
  (∀ d, usuarios (f d).2 = usuarios d
        ∧ (holding (VStr sid) (sessions (f d).2)
           ≤ holding (VStr sid) (sessions d))%nat) →
  respects (sessions_shrink sid) (call_db c f).
Proof.
  intros Hf w. unfold call_db, sessions_shrink. specialize (Hf (db w)).
  by destruct (f (db w)) as [r d].
Qed.

Section LogoutProperties.
Context {RT : Runtime}.

Lemma get_session_shrinks now sid d :
  usuarios (get_session now sid d).2 = usuarios d
  ∧ (holding (VStr sid) (sessions (get_session now sid d).2)
     ≤ holding (VStr sid) (sessions d))%nat.
Proof.
  unfold get_session.
  destruct (find_one "_id" (VStr sid) (sessions d)) as [[|kv doc]|];
    [done| |done].
  destruct (truthy _); [|done].
  destruct (dict_get_or_none "expires_at" (kv :: doc)); try done.
  destruct (_ <? _); [|done].
  cbn [snd set_sessions usuarios sessions]. split; [done|].
  rewrite holding_delete_one. lia.
Qed.

Lemma revoke_tokens_shrinks prov now sid :
  respects (sessions_shrink sid) (revoke_tokens prov now sid).
Proof.
  unfold revoke_tokens.
  apply respects_bind; [tc_solve..| |intros sess].
  { apply call_db_sessions_shrink. apply get_session_shrinks. }
  destruct sess as [[|kv s]|]; try (apply respects_ret; tc_solve).
  apply respects_bind; [tc_solve..|apply respects_py_get; tc_solve|].
  intros meta.
  apply respects_bind; [tc_solve..|apply respects_py_get; tc_solve|].
  intros refresh_token.
  apply respects_bind; [tc_solve..|apply respects_py_get; tc_solve|].
  intros access_token.
  destruct (truthy _); [|apply respects_ret; tc_solve].
  apply respects_attempt; [tc_solve..|].
  apply respects_bind; [tc_solve..|apply send_sessions_shrink|].
  intros [status body|msg]; [apply respects_ret | apply respects_raise];
    tc_solve.
Qed.

(** Every logout answers with the redirect to [/login] and the removal
    of the [session_id] cookie, whatever the request, the store and the
    provider. *)
Lemma logout_clears_cookie prov now req w :
  (google_logout prov now req w).1
  = Ok {| location := "/login"; cookie_ops := [DeleteCookie "session_id"] |}.
Proof.
  unfold google_logout. rewrite bind_unfold.
  destruct (cookies req !! "session_id") as [sid|]; [|done].
  destruct (truthy (VStr sid)); [|done].
  rewrite bind_unfold, attempt_ok. cbv beta iota. by rewrite attempt_ok.
Qed.

(** C3, as the code has it.  For a logout request whose [session_id]
    cookie is not empty, and whatever the revocation request does (it may
    fail in transport or be answered with any status), the response
    removes the cookie, [delete_session] is the last call the handler
    makes, and one session document with that id goes: where the store
    held at most one, none is left. *)
Theorem logout_removes_session
    (prov : http_call → http_outcome) (now : Z) (req : request)
    (sid : string) (d : store) :
  cookies req !! "session_id" = Some sid →
  sid ≠ "" →
  let out := google_logout prov now req (start d) in
  out.1
  = Ok {| location := "/login"; cookie_ops := [DeleteCookie "session_id"] |}
  ∧ (∃ t, trace out.2 = (t ++ [Db (DeleteSession sid)])%list)
  ∧ usuarios (db out.2) = usuarios d
  ∧ (holding (VStr sid) (sessions (db out.2))
     ≤ Nat.pred (holding (VStr sid) (sessions d)))%nat.
Proof.
  intros Hcookie Hsid. cbv zeta. split; [apply logout_clears_cookie|].
  unfold google_logout. rewrite bind_unfold, Hcookie.
  assert (truthy (VStr sid) = true) as ->.
  { cbn. by apply String.eqb_neq in Hsid as ->. }
  rewrite bind_unfold, attempt_ok. cbv beta iota. rewrite attempt_ok.
  cbv beta iota. cbn [snd].
  pose proof (revoke_tokens_shrinks prov now sid (start d)) as [Hu Hh].
  set (w1 := (revoke_tokens prov now sid (start d)).2) in *.
  cbn [start db] in Hu, Hh.
  rewrite bind_unfold. unfold call_db, total, delete_session.
  pose proof (holding_delete_one (VStr sid) (sessions (db w1))) as Hdel.
  destruct (delete_one "_id" (VStr sid) (sessions (db w1))) as [n c].
  cbn [snd] in Hdel. unfold mret, M_ret.
  cbn [snd db trace set_sessions usuarios sessions].
  split_and!; [by eexists | done | lia].
Qed.

End LogoutProperties.

(** A logout whose cookie is empty: the cookie is on the request, and
    [delete_session] is not called. *)
Lemma logout_empty_cookie_skips_delete :
  let req := logout_request "" in
  let out :=
    @google_logout sample_runtime dead_provider 3000 req (start sample_db) in
  cookies req !! "session_id" = Some ""
  ∧ (∀ sid, Db (DeleteSession sid) ∉ trace out.2)
  ∧ db_calls (trace out.2) = [].
Proof.
  assert (Hrun :
    @google_logout sample_runtime dead_provider 3000 (logout_request "")
      (start sample_db)
    = (Ok {| location := "/login";
             cookie_ops := [DeleteCookie "session_id"] |},
       start sample_db)) by (vm_compute; reflexivity).
  cbv zeta. rewrite Hrun. split_and!.
  - vm_compute. reflexivity.
  - intros sid. cbn. by intros []%elem_of_nil.
  - reflexivity.
Qed.

(** The provider is down and the session is live: the revocation is
    tried, fails, and the session goes all the same. *)
Example logout_dead_provider :
  @google_logout sample_runtime dead_provider 3000 (logout_request "s-1")
    (start sample_db)
  = (Ok {| location := "/login"; cookie_ops := [DeleteCookie "session_id"] |},
     {| db := {| usuarios := [admin_doc]; sessions := [] |};
        trace := [ Db (GetSession "s-1");
                   Http (PostRevoke (VStr "at-1"));
                   Db (DeleteSession "s-1") ] |}).
Proof. vm_compute. reflexivity. Qed.

Lemma logout_removes_session_witness :
  (holding (VStr "s-1")
     (sessions
        (db (@google_logout sample_runtime dead_provider 3000
               (logout_request "s-1") (start sample_db)).2))
   ≤ Nat.pred (holding (VStr "s-1") (sessions sample_db)))%nat.
Proof.
  assert (H1 : cookies (logout_request "s-1") !! "session_id" = Some "s-1")
    by (vm_compute; reflexivity).
  assert (H2 : "s-1" ≠ "") by discriminate.
  exact (proj2 (proj2 (proj2
           (@logout_removes_session sample_runtime dead_provider 3000
              (logout_request "s-1") "s-1" sample_db H1 H2)))).
Defined.

(** ** Profile updates ([update_me]) *)

Lemma editable_keys payload k :
  k ∈ dict_keys (editable payload) → k ∈ allowed.
Proof.
  unfold editable, dict_keys. induction payload as [|[k' v'] p IH]; cbn.
  - by intros []%elem_of_nil.
  - destruct (bool_decide (k' ∈ allowed)) eqn:Hk; cbn [andb].
    + destruct (negb (is_none v')); cbn; [|done].
      intros [->|Hin]%elem_of_cons; [|by apply IH].
      by apply bool_decide_eq_true in Hk.
    + done.
Qed.

Lemma editable_not_none payload k v : (k, v) ∈ editable payload → v ≠ VNone.
Proof.
  unfold editable. intros Hin%list_elem_of_In%filter_In.
  destruct Hin as [_ Hf]. apply andb_true_iff in Hf as [_ Hv].
  intros ->. done.
Qed.

Lemma editable_drop_none payload : editable (drop_none payload) = editable payload.
Proof.
  unfold editable, drop_none. induction payload as [|[k v] p IH]; [done|].
  cbn [List.filter snd fst].
  destruct (negb (is_none v)) eqn:Hv; cbn [List.filter snd fst].
  - rewrite Hv. by rewrite IH.
  - rewrite andb_false_r. apply IH.
Qed.

Lemma dict_set_elem k v d k' v' :
  (k', v') ∈ dict_set k v d → (k', v') = (k, v) ∨ (k', v') ∈ d.
Proof.
  induction d as [|[k0 v0] d IH]; cbn.
  - intros ->%list_elem_of_singleton. by left.
  - destruct (String.eqb k k0) eqn:E.
    + apply String.eqb_eq in E as <-.
      intros [->|Hin]%elem_of_cons; [by left | right; by right].
    + intros [->|Hin]%elem_of_cons; [right; by left|].
      destruct (IH Hin) as [?|?]; [by left | right; by right].
Qed.

Section UpdateMeProperties.
Context {RT : Runtime}.

(** What a run of [update_me] leaves: the world it found, or one
    [update_user_by_dbid] with the editable part of the payload and
    [updated_at], which is a [$set] on the users, as the store keeps
    it, or nothing at all. *)
Lemma update_me_run now req d :
  let out := update_me now req (start d) in
  out.2 = start d
  ∨ ∃ payload user_id,
      json_body req = Some (VDict payload)
      ∧ let updates := dict_set "updated_at" (VTime now) (editable payload) in
        trace out.2 = [Db (UpdateUser user_id updates)]
        ∧ sessions (db out.2) = sessions d
        ∧ (usuarios (db out.2) = usuarios d
           ∨ ∃ field q,
               usuarios (db out.2)
               = set_first field q (stored_doc updates) (usuarios d)).
Proof.
  cbv zeta. unfold update_me.
  destruct (state_user req) as [[|kv current]|]; [by left| |by left].
  destruct (json_body req) as [[| | | | | | |payload]|]; try (by left).
  destruct (negb (truthy (VDict (editable payload)))); [by left|].
  set (user_id := py_or _ _).
  destruct (negb (truthy user_id)); [by left|].
  right. exists payload, user_id. split; [done|]. rewrite bind_unfold.
  unfold call_db, update_user_by_dbid, update_one.
  destruct (user_filter user_id) as [[field q]|].
  - cbn [start db trace app].
    destruct (update_refusal _);
      [cbn [start db trace app]; split_and!; [done | done | by left]|].
    destruct (_doc_to_dict _) as [[|kv' u]|];
      (split_and!; [done | done | right; by eexists _, _]).
  - cbn [start db trace app].
    destruct (update_refusal _); split_and!; done || by left.
Qed.

(** C9.  A [PATCH /users/me] writes at most [name], [picture] and
    [updated_at]: in every user document every other field, [role],
    [email] and [google_id] among them, is as before, sessions are
    untouched, the one update handed to the store names only those three
    fields and holds no null; and a payload gives the same run as the
    payload without its null entries. *)
Theorem update_me_frame (now : Z) (req : request) (d : store) :
  let out := update_me now req (start d) in
  sessions (db out.2) = sessions d
  ∧ length (usuarios (db out.2)) = length (usuarios d)
  ∧ (∀ i k, k ∉ profile_fields →
       field_at (usuarios (db out.2)) i k = field_at (usuarios d) i k)
  ∧ (∀ i, field_at (usuarios (db out.2)) i "role"
          = field_at (usuarios d) i "role"
          ∧ field_at (usuarios (db out.2)) i "email"
            = field_at (usuarios d) i "email"
          ∧ field_at (usuarios (db out.2)) i "google_id"
            = field_at (usuarios d) i "google_id")
  ∧ (∀ c, Db c ∈ trace out.2 →
       ∃ user_id updates,
         c = UpdateUser user_id updates
         ∧ (∀ k, k ∈ dict_keys updates → k ∈ profile_fields)
         ∧ (∀ k v, (k, v) ∈ updates → v ≠ VNone))
  ∧ (∀ payload,
       update_me now (with_json_body (Some (VDict payload)) req) (start d)
       = update_me now
           (with_json_body (Some (VDict (drop_none payload))) req) (start d)).
Proof.
  cbv zeta.
  assert (Hkeys : ∀ payload k,
    k ∈ dict_keys (dict_set "updated_at" (VTime now) (editable payload)) →
    k ∈ profile_fields).
  { intros payload k [->|Hk]%dict_keys_set%elem_of_cons.
    - unfold profile_fields. set_solver.
    - apply editable_keys in Hk. unfold allowed, profile_fields in *.
      set_solver. }
  assert (Hframe :
    sessions (db (update_me now req (start d)).2) = sessions d
    ∧ length (usuarios (db (update_me now req (start d)).2))
      = length (usuarios d)
    ∧ (∀ i k, k ∉ profile_fields →
         field_at (usuarios (db (update_me now req (start d)).2)) i k
         = field_at (usuarios d) i k)
    ∧ (∀ c, Db c ∈ trace (update_me now req (start d)).2 →
         ∃ user_id updates,
           c = UpdateUser user_id updates
           ∧ (∀ k, k ∈ dict_keys updates → k ∈ profile_fields)
           ∧ (∀ k v, (k, v) ∈ updates → v ≠ VNone))).
  { destruct (update_me_run now req d)
      as [->|(payload & user_id & _ & Ht & Hs & Hu)].
    - cbn [start db trace]. split_and!; try done.
      by intros c []%elem_of_nil.
    - rewrite Ht, Hs. split_and!.
      + done.
      + destruct Hu as [->|(field & q & ->)]; [done|].
        apply set_first_length.
      + intros i k Hk. destruct Hu as [->|(field & q & ->)]; [done|].
        apply set_first_frame. rewrite dict_keys_stored. intros Hin.
        by apply Hk, (Hkeys payload).
      + intros c [= ->]%list_elem_of_singleton.
        eexists _, _. split_and!; [done | apply Hkeys |].
        intros k v [[= -> ->]|Hin]%dict_set_elem; [done|].
        by apply editable_not_none in Hin. }
  destruct Hframe as (Hs & Hl & Hf & Ht).
  split_and!; try done.
  - intros i. unfold profile_fields in Hf.
    split_and!; apply Hf; set_solver.
  - intros payload. unfold update_me, with_json_body.
    cbn [state_user json_body]. by rewrite editable_drop_none.
Qed.

End UpdateMeProperties.

(** The signed-in administrator sends a new name, a null picture and a
    role of her choosing: only the name and [updated_at] are written. *)
Example update_me_sample :
  let req :=
    {| query_code := None; cookies := ∅; scheme := "https";
       state_user := @_doc_to_dict sample_runtime (Some admin_doc);
       json_body :=
         Some (VDict [ ("name", VStr "Ana C."); ("picture", VNone);
                       ("role", VStr "superadmin") ]) |} in
  let out := @update_me sample_runtime 4000 req (start sample_db) in
  usuarios (db out.2)
  = [ [ ("_id", VOid "65a000000000000000000001");
        ("google_id", VStr "1001");
        ("email", VStr "ana@example.com");
        ("name", VStr "Ana C.");
        ("role", VStr "admin");
        ("updated_at", VTime 4000) ] ]
  ∧ trace out.2
    = [ Db (UpdateUser (VStr "65a000000000000000000001")
              [("name", VStr "Ana C."); ("updated_at", VTime 4000)]) ].
Proof. vm_compute. done. Qed.

(** * Further properties *)

(** ** Collections *)

Lemma holds_id_false id c :
  holds_id id c = false → ∀ d, d ∈ c → matches "_id" id d = false.
Proof.
  unfold holds_id. induction c as [|x c IH]; cbn [existsb].
  - by intros _ d []%elem_of_nil.
  - intros [Hx Hc]%orb_false_iff d [->|Hd]%elem_of_cons; [done | by apply IH].
Qed.

Lemma holds_id_find_one id c :
  holds_id id c = negb (bool_decide (find_one "_id" id c = None)).
Proof.
  unfold holds_id, find_one. induction c as [|x c IH]; [done|].
  cbn [existsb find]. destruct (matches "_id" id x); [done | apply IH].
Qed.

Lemma find_one_snoc f q c doc :
  (∀ d, d ∈ c → matches f q d = false) →
  matches f q doc = true →
  find_one f q (c ++ [doc]) = Some doc.
Proof.
  intros Hc Hdoc. unfold find_one. induction c as [|x c IH]; cbn [app find].
  - by rewrite Hdoc.
  - rewrite Hc by left. apply IH. intros d Hd. apply Hc. by right.
Qed.

Lemma delete_one_snoc f q c doc :
  (∀ d, d ∈ c → matches f q d = false) →
  matches f q doc = true →
  delete_one f q (c ++ [doc]) = (1, c).
Proof.
  intros Hc Hdoc. induction c as [|x c IH]; cbn [app delete_one].
  - by rewrite Hdoc.
  - rewrite Hc by left. rewrite IH; [done|].
    intros d Hd. apply Hc. by right.
Qed.

Lemma delete_one_none f q c :
  (∀ d, d ∈ c → matches f q d = false) → delete_one f q c = (0, c).
Proof.
  intros Hc. induction c as [|x c IH]; [done|]. cbn [delete_one].
  rewrite Hc by left. rewrite IH; [done|]. intros d Hd. apply Hc. by right.
Qed.

Lemma set_first_none f q u c :
  (∀ d, d ∈ c → matches f q d = false) → set_first f q u c = c.
Proof.
  intros Hc. induction c as [|x c IH]; [done|]. cbn [set_first].
  rewrite Hc by left. rewrite IH; [done|]. intros d Hd. apply Hc. by right.
Qed.

Lemma find_one_is_none f q c :
  find_one f q c = None → ∀ d, d ∈ c → matches f q d = false.
Proof.
  unfold find_one. induction c as [|x c IH]; cbn [find].
  - by intros _ d []%elem_of_nil.
  - destruct (matches f q x) eqn:Hx; [done|].
    intros Hc d [->|Hd]%elem_of_cons; [done | by apply IH].
Qed.

Lemma matches_str_id s doc :
  dict_get "_id" doc = Some (VStr s) → matches "_id" (VStr s) doc = true.
Proof.
  intros H. unfold matches, mongo_match. rewrite H. cbn [value_eqb].
  by rewrite String.eqb_refl.
Qed.

Lemma delete_one_count f q c :
  (delete_one f q c).1 = (if existsb (matches f q) c then 1 else 0)
  ∧ List.filter (fun x => negb (matches f q x)) (delete_one f q c).2
    = List.filter (fun x => negb (matches f q x)) c.
Proof.
  induction c as [|x c [IH1 IH2]]; [done|].
  cbn [delete_one existsb List.filter].
  destruct (matches f q x) eqn:Hx; cbn [negb orb]; [done|].
  destruct (delete_one f q c) as [n r]. cbn [fst snd] in *.
  cbn [List.filter]. rewrite Hx. cbn [negb]. by rewrite IH1, IH2.
Qed.

Lemma set_sessions_same d : set_sessions (sessions d) d = d.
Proof. by destruct d. Qed.

Lemma set_usuarios_same d : set_usuarios (usuarios d) d = d.
Proof. by destruct d. Qed.

(** ** Sessions: creation, lookup, deletion *)

Section SessionProperties.
Context {RT : Runtime}.

(** A creation that returned: the id is the one drawn, it was new, the
    expiry is a datetime, the driver took the document, and the store
    holds it, as it keeps it, at the end of its sessions. *)
Lemma create_session_with_meta_ok sid now user_id meta ttl d s :
  (create_session_with_meta sid now user_id meta ttl d).1 = Ok s →
  s = sid
  ∧ holds_id (VStr sid) (sessions d) = false
  ∧ expiry_in_range now ttl = true
  ∧ insert_refusal (session_document sid now user_id meta ttl) = None
  ∧ (create_session_with_meta sid now user_id meta ttl d).2
    = set_sessions
        (sessions d
         ++ [stored_doc (session_document sid now user_id meta ttl)])%list d.
Proof.
  rewrite create_session_with_meta_run.
  destruct (expiry_in_range now ttl); [|done].
  destruct (insert_refusal _); [done|].
  destruct (holds_id (VStr sid) (sessions d)); [done|].
  cbn [fst snd]. intros H. split_and!; try done. congruence.
Qed.

(** A session id that no document has is not found, at any time. *)
Lemma get_session_unknown now sid d :
  holds_id (VStr sid) (sessions d) = false →
  get_session now sid d = (Ok None, d).
Proof.
  intros Hfresh. unfold get_session.
  by rewrite (find_one_none _ _ _ (holds_id_false _ _ Hfresh)).
Qed.

(** Looking up a session that was just appended under a fresh id. *)
Lemma get_session_appended sid now user_id meta ttl d now' :
  holds_id (VStr sid) (sessions d) = false →
  let doc := stored_doc (session_document sid now user_id meta ttl) in
  let d1 := set_sessions (sessions d ++ [doc])%list d in
  get_session now' sid d1
  = if bson_time (now + ttl * 1000000) <? now' then (Ok None, d)
    else (Ok (_doc_to_dict (Some doc)), d1).
Proof.
  intros Hfresh. cbv zeta. rewrite stored_session_document.
  set (doc := [("_id", VStr sid); _; _; _; _]).
  set (d1 := set_sessions _ d). unfold get_session.
  pose proof (holds_id_false _ _ Hfresh) as Hc.
  assert (Hdoc : matches "_id" (VStr sid) doc = true)
    by by apply matches_str_id.
  change (sessions d1) with (sessions d ++ [doc])%list.
  rewrite (find_one_snoc _ _ _ _ Hc Hdoc).
  change (dict_get_or_none "expires_at" doc)
    with (VTime (bson_time (now + ttl * 1000000))).
  cbn [truthy doc].
  destruct (_ <? _); [|done].
  rewrite (delete_one_snoc _ _ _ _ Hc Hdoc). cbn [snd].
  unfold d1. destruct d. reflexivity.
Qed.

(** The first lookup after a creation under a fresh id, whether or not
    the creation returned. *)
Lemma get_session_created sid now user_id meta ttl d now' :
  holds_id (VStr sid) (sessions d) = false →
  get_session now' sid (create_session_with_meta sid now user_id meta ttl d).2
  = match (create_session_with_meta sid now user_id meta ttl d).1 with
    | Ok _ =>
        if bson_time (now + ttl * 1000000) <? now' then (Ok None, d)
        else
          (Ok (_doc_to_dict
                 (Some (stored_doc
                          (session_document sid now user_id meta ttl)))),
           (create_session_with_meta sid now user_id meta ttl d).2)
    | Raise _ => (Ok None, d)
    end.
Proof.
  intros Hfresh. rewrite create_session_with_meta_run, Hfresh.
  destruct (expiry_in_range now ttl);
    [|by apply get_session_unknown].
  destruct (insert_refusal _); [by apply get_session_unknown|].
  cbn [fst snd]. by apply get_session_appended.
Qed.

(** X1.  A session that [create_session_with_meta] created is found under
    its id until the expiry the store holds, which is the creation time
    plus the time to live, rounded down to the millisecond: the lookup
    returns the text of the user id, and the metadata and the two times
    as the store keeps them, and leaves the store as it is.  Past that
    expiry the first lookup returns [None] and leaves the store as it was
    before the creation. *)
Theorem session_round_trip
    (sid : string) (now : Z) (user_id meta : value) (ttl : Z) (d : store)
    (now' : Z) :
  (create_session_with_meta sid now user_id meta ttl d).1 = Ok sid →
  let d1 := (create_session_with_meta sid now user_id meta ttl d).2 in
  (now' ≤ bson_time (now + ttl * 1000000) →
   ∃ s, get_session now' sid d1 = (Ok (Some s), d1)
        ∧ dict_get "user_id" s = Some (VStr (py_str user_id))
        ∧ dict_get "meta" s = Some (stored (py_or meta (VDict [])))
        ∧ dict_get "created_at" s = Some (VTime (bson_time now))
        ∧ dict_get "expires_at" s
          = Some (VTime (bson_time (now + ttl * 1000000)))
        ∧ dict_get "id" s = Some (VStr (py_str (VStr sid)))
        ∧ dict_get "_id" s = None)
  ∧ (bson_time (now + ttl * 1000000) < now' →
     get_session now' sid d1 = (Ok None, d))
  ∧ bson_time (now + ttl * 1000000) = bson_time now + ttl * 1000000
  ∧ now + ttl * 1000000 - 1000 < bson_time (now + ttl * 1000000)
  ∧ bson_time (now + ttl * 1000000) ≤ now + ttl * 1000000.
Proof.
  intros Hok. cbv zeta.
  destruct (create_session_with_meta_ok _ _ _ _ _ _ _ Hok)
    as (_ & Hfresh & _ & _ & _).
  rewrite (get_session_created _ _ _ _ _ _ now' Hfresh), Hok.
  rewrite stored_session_document. split_and!.
  - intros Hlive. apply Z.ltb_ge in Hlive as ->.
    eexists. split; [reflexivity|]. by split_and!.
  - intros Hdead. by apply Z.ltb_lt in Hdead as ->.
  - apply bson_time_plus_seconds.
  - pose proof (bson_time_above (now + ttl * 1000000)). lia.
  - apply bson_time_le.
Qed.

(** X2.  Past its expiry the first lookup of a new session returns [None] and
    leaves the store as it was before the session was created. *)
Theorem session_expires
    (sid : string) (now : Z) (user_id meta : value) (ttl : Z) (d : store)
    (now' : Z) :
  holds_id (VStr sid) (sessions d) = false →
  now + ttl * 1000000 < now' →
  get_session now' sid (create_session_with_meta sid now user_id meta ttl d).2
  = (Ok None, d).
Proof.
  intros Hfresh Hdead. rewrite (get_session_created _ _ _ _ _ _ _ Hfresh).
  destruct (create_session_with_meta _ _ _ _ _ _).1; [|done].
  pose proof (bson_time_le (now + ttl * 1000000)).
  assert ((bson_time (now + ttl * 1000000) <? now') = true) as ->
    by (apply Z.ltb_lt; lia).
  done.
Qed.


Lemma get_session_some now sid d d' s :
  get_session now sid d = (Ok (Some s), d') →
  d' = d
  ∧ (∀ t, dict_get "expires_at" s = Some (VTime t) → now ≤ t)
  ∧ ∃ doc, find_one "_id" (VStr sid) (sessions d) = Some doc
           ∧ _doc_to_dict (Some doc) = Some s.
Proof.
  unfold get_session.
  destruct (find_one "_id" (VStr sid) (sessions d)) as [[|kv doc]|] eqn:Hfind;
    [done| |done].
  assert (Hret :
    (Ok (_doc_to_dict (Some (kv :: doc))), d) = (Ok (Some s), d') →
    d' = d
    ∧ _doc_to_dict (Some (kv :: doc)) = Some s).
  { intros H. split; congruence. }
  destruct (dict_get "expires_at" (kv :: doc)) as [v|] eqn:Hexp;
    unfold dict_get_or_none; rewrite Hexp.
  - destruct (truthy v) eqn:Hv.
    + destruct v; try done.
      destruct (t <? now) eqn:Hlt; [done|].
      intros [-> Hs]%Hret. split_and!; [done| |by eexists].
      intros t'. rewrite (doc_to_dict_field _ _ _ Hs) by done.
      rewrite Hexp. intros [= <-]. by apply Z.ltb_ge.
    + intros [-> Hs]%Hret. split_and!; [done| |by eexists].
      intros t'. rewrite (doc_to_dict_field _ _ _ Hs) by done.
      rewrite Hexp. intros [= ->]. done.
  - cbn [truthy]. intros [-> Hs]%Hret. split_and!; [done| |by eexists].
    intros t'. rewrite (doc_to_dict_field _ _ _ Hs) by done.
    by rewrite Hexp.
Qed.

Lemma get_session_expired_run now sid d doc t :
  find_one "_id" (VStr sid) (sessions d) = Some doc →
  dict_get "expires_at" doc = Some (VTime t) →
  t < now →
  get_session now sid d
  = (Ok None, set_sessions (delete_one "_id" (VStr sid) (sessions d)).2 d).
Proof.
  intros Hfind Hexp Hlt. unfold get_session. rewrite Hfind.
  pose proof (find_one_str_nonempty _ _ _ _ Hfind).
  destruct doc as [|kv doc]; [done|].
  unfold dict_get_or_none. rewrite Hexp. cbn [truthy].
  by apply Z.ltb_lt in Hlt as ->.
Qed.

(** X4.  What [get_session] returns is a stored session that has not expired,
    and returning it leaves the store as it is. *)
Theorem get_session_returns_live
    (now : Z) (sid : string) (d d' : store) (s : dict) :
  get_session now sid d = (Ok (Some s), d') →
  d' = d
  ∧ (∀ t, dict_get "expires_at" s = Some (VTime t) → now ≤ t)
  ∧ ∃ doc, find_one "_id" (VStr sid) (sessions d) = Some doc
           ∧ _doc_to_dict (Some doc) = Some s.
Proof. apply get_session_some. Qed.

(** X5.  A session stored without [expires_at], or with one that counts as
    false, never expires: it is returned at any time and stays. *)
Theorem session_without_expiry_stays
    (now : Z) (sid : string) (d : store) (doc : dict) :
  find_one "_id" (VStr sid) (sessions d) = Some doc →
  truthy (dict_get_or_none "expires_at" doc) = false →
  get_session now sid d = (Ok (_doc_to_dict (Some doc)), d).
Proof.
  intros Hfind Hexp. unfold get_session. rewrite Hfind.
  pose proof (find_one_str_nonempty _ _ _ _ Hfind).
  destruct doc as [|kv doc]; [done|]. by rewrite Hexp.
Qed.

(** X7.  [delete_session] reports 1 exactly when a session had the id; it
    removes one such session, keeps every session with another id, and
    leaves a store without such a session as it is. *)
Theorem delete_session_effect (sid : string) (d : store) :
  let out := delete_session sid d in
  out.1 = (if holds_id (VStr sid) (sessions d) then 1 else 0)
  ∧ usuarios out.2 = usuarios d
  ∧ holding (VStr sid) (sessions out.2)
    = Nat.pred (holding (VStr sid) (sessions d))
  ∧ List.filter (fun x => negb (matches "_id" (VStr sid) x)) (sessions out.2)
    = List.filter (fun x => negb (matches "_id" (VStr sid) x)) (sessions d)
  ∧ (holds_id (VStr sid) (sessions d) = false → out.2 = d).
Proof.
  cbv zeta. unfold delete_session.
  pose proof (holding_delete_one (VStr sid) (sessions d)) as Hh.
  pose proof (delete_one_count "_id" (VStr sid) (sessions d)) as [Hc1 Hc2].
  assert (Hn : holds_id (VStr sid) (sessions d) = false →
               (delete_one "_id" (VStr sid) (sessions d)).2 = sessions d).
  { intros Hf. by rewrite (delete_one_none _ _ _ (holds_id_false _ _ Hf)). }
  destruct (delete_one "_id" (VStr sid) (sessions d)) as [n c].
  cbn [fst snd set_sessions usuarios sessions] in *.
  split_and!; try done.
  intros Hf. rewrite (Hn Hf). apply set_sessions_same.
Qed.

(** X8.  Deleting a session right after creating it gives back the store as
    it was, and reports one deletion; after a creation that raised, under
    an id that was new, there is nothing to delete and the store is as
    it was all the same. *)
Theorem create_then_delete_session
    (sid : string) (now : Z) (user_id meta : value) (ttl : Z) (d : store) :
  holds_id (VStr sid) (sessions d) = false →
  let out := create_session_with_meta sid now user_id meta ttl d in
  (out.1 = Ok sid → delete_session sid out.2 = (1, d))
  ∧ (∀ e, out.1 = Raise e → delete_session sid out.2 = (0, d)).
Proof.
  intros Hfresh. cbv zeta. split.
  - intros Hok.
    destruct (create_session_with_meta_ok _ _ _ _ _ _ _ Hok)
      as (_ & _ & _ & _ & ->).
    unfold delete_session. cbn [sessions set_sessions].
    rewrite (delete_one_snoc "_id" (VStr sid) (sessions d)
               (stored_doc (session_document sid now user_id meta ttl)));
      [by destruct d | by apply holds_id_false |].
    apply matches_str_id. by rewrite stored_session_document.
  - intros e He. rewrite (create_session_with_meta_raises _ _ _ _ _ _ _ He).
    unfold delete_session.
    rewrite (delete_one_none _ _ _ (holds_id_false _ _ Hfresh)).
    by rewrite set_sessions_same.
Qed.

End SessionProperties.

(** ** Users: first login, failures, lookups *)

Lemma dict_get_not_key k d : k ∉ dict_keys d → dict_get k d = None.
Proof.
  induction d as [|[k' v] d IH]; [done|]. cbn [dict_keys List.map fst].
  intros Hk. cbn [dict_get].
  destruct (String.eqb k k') eqn:E.
  - apply String.eqb_eq in E as ->. exfalso. apply Hk. by left.
  - apply IH. intros Hin. apply Hk. by right.
Qed.

Lemma dict_set_nonempty k v d : dict_set k v d ≠ [].
Proof. destruct d as [|[k' v'] d]; cbn; [done|]. by destruct (String.eqb k k'). Qed.

Section UserProperties.
Context {RT : Runtime}.

Lemma doc_to_dict_some d : d ≠ [] → ∃ u, _doc_to_dict (Some d) = Some u.
Proof. destruct d; [done|]. intros _. by eexists. Qed.

Lemma doc_to_dict_unfold d :
  d ≠ [] →
  _doc_to_dict (Some d)
  = Some (dict_set "id"
            (if is_none (dict_get_or_none "_id" d) then VNone
             else VStr (py_str (dict_get_or_none "_id" d)))
            (dict_del "_id" d)).
Proof. by destruct d. Qed.

(** A document whose [_id] the store keeps as it is (a string, an
    ObjectId) is normalised to the same dict before and after storage,
    up to what storage does to the values. *)
Lemma doc_to_dict_stored d :
  stored (dict_get_or_none "_id" d) = dict_get_or_none "_id" d →
  _doc_to_dict (Some (stored_doc d)) = stored_doc <$> _doc_to_dict (Some d).
Proof.
  intros Hid. destruct (decide (d = [])) as [->|Hne]; [done|].
  rewrite (doc_to_dict_unfold _ Hne).
  rewrite (doc_to_dict_unfold _ (stored_doc_nonempty _ Hne)).
  cbn [fmap option_fmap option_map]. f_equal.
  rewrite dict_get_or_none_stored, Hid, stored_doc_set, stored_doc_del.
  by destruct (dict_get_or_none "_id" d).
Qed.

(** X9.  A first login (no user has the google id, the generated ObjectId is
    new, the store and the driver accept the write) appends one user
    document and touches nothing else.  The document has the generated
    [_id], the google id as text, the times of the login, and as [role]
    the provider's [role] when it has a true one, [user] otherwise.  The
    login returns it as it built it; a lookup by google id then finds it
    as the store keeps it, its times rounded down to the millisecond. *)
Theorem first_login_creates_user (e : login_env) (ui : dict) (d : store) :
  truthy (google_id_of ui) = true →
  find_one "google_id" (VStr (py_str (google_id_of ui))) (usuarios d) = None →
  holds_id (VOid (login_oid e)) (usuarios d) = false →
  login_accepted e = true →
  insert_refusal (new_user_document e ui) = None →
  let out := get_or_create_user_from_info e (VDict ui) d in
  let doc := new_user_document e ui in
  ∃ u,
    usuarios out.2 = (usuarios d ++ [stored_doc doc])%list
    ∧ sessions out.2 = sessions d
    ∧ out.1 = Ok (Some u)
    ∧ _doc_to_dict (Some doc) = Some u
    ∧ get_user_by_googleid (google_id_of ui) out.2 = Some (stored_doc u)
    ∧ (∀ k, dict_get k (stored_doc doc) = stored <$> dict_get k doc)
    ∧ dict_get "_id" doc = Some (VOid (login_oid e))
    ∧ dict_get "google_id" doc = Some (VStr (py_str (google_id_of ui)))
    ∧ dict_get "role" doc
      = Some (py_or (dict_get_or_none "role" ui) (VStr "user"))
    ∧ dict_get "created_at" doc = Some (VTime (login_now e))
    ∧ dict_get "last_login_at" doc = Some (VTime (login_now e))
    ∧ dict_get "created_at" (stored_doc doc)
      = Some (VTime (bson_time (login_now e)))
    ∧ dict_get "last_login_at" (stored_doc doc)
      = Some (VTime (bson_time (login_now e))).
Proof.
  intros Hgid Hfind Hfresh Hacc Href. cbv zeta.
  unfold get_or_create_user_from_info. cbv zeta.
  rewrite Hgid, Hfind. cbn [negb].
  set (new_user_doc := dict_set "last_login_at" _ _).
  assert (Hnoid : dict_get "_id" new_user_doc = None).
  { unfold new_user_doc. rewrite !dict_get_set_ne by done.
    apply dict_get_not_key. intros Hin%identity_data_keys.
    unfold login_fields in Hin. set_solver. }
  unfold with_object_id. rewrite Hnoid.
  change (dict_set "_id" (VOid (login_oid e)) new_user_doc)
    with (new_user_document e ui).
  set (doc := new_user_document e ui) in *.
  assert (Hid : dict_get "_id" doc = Some (VOid (login_oid e)))
    by apply dict_get_set_eq.
  unfold insert_one, dict_get_or_none. rewrite Href, Hid, Hfresh, Hacc.
  cbn [fst snd set_usuarios usuarios sessions].
  change (dict_set "_id" (VOid (login_oid e)) new_user_doc) with doc.
  destruct (doc_to_dict_some doc (dict_set_nonempty _ _ _)) as [u Hu].
  assert (Hg : dict_get "google_id" doc
               = Some (VStr (py_str (google_id_of ui)))).
  { unfold doc, new_user_document. cbv zeta.
    by rewrite !dict_get_set_ne by done. }
  assert (Hc : dict_get "created_at" doc = Some (VTime (login_now e))).
  { unfold doc, new_user_document. cbv zeta.
    rewrite !dict_get_set_ne by done. apply dict_get_set_eq. }
  assert (Hl : dict_get "last_login_at" doc = Some (VTime (login_now e))).
  { unfold doc, new_user_document. cbv zeta.
    rewrite dict_get_set_ne by done. apply dict_get_set_eq. }
  exists u. split_and!; try done.
  - by rewrite <- Hu.
  - unfold get_user_by_googleid. cbn [usuarios set_usuarios].
    rewrite find_one_snoc.
    + rewrite doc_to_dict_stored, Hu; [done|].
      by rewrite (dict_get_or_none_some _ _ _ Hid).
    + by apply find_one_is_none.
    + unfold matches, mongo_match. rewrite dict_get_stored, Hg.
      cbn [fmap option_fmap option_map stored value_eqb].
      by rewrite String.eqb_refl.
  - intros k. apply dict_get_stored.
  - unfold doc, new_user_document. cbv zeta.
    rewrite !dict_get_set_ne by done. apply dict_get_set_eq.
  - by rewrite dict_get_stored, Hc.
  - by rewrite dict_get_stored, Hl.
Qed.

(** X10.  A login that raises leaves the store as it was, whatever it was
    given: no google id, a user_info that is not a dict, a user document
    without [_id], or a write the store refuses. *)
Theorem login_failure_leaves_store
    (e : login_env) (user_info : value) (d : store) (x : exn) :
  (get_or_create_user_from_info e user_info d).1 = Raise x →
  (get_or_create_user_from_info e user_info d).2 = d.
Proof.
  unfold get_or_create_user_from_info. cbv zeta.
  destruct user_info as [| | | | | | |ui]; try done.
  destruct (truthy (google_id_of ui)); cbn [negb]; [|done].
  destruct (find_one _ _ _) as [[|kv u]|].
  - destruct (insert_one _ _) as [[id c]|x']; [|done].
    by destruct (login_accepted e).
  - destruct (dict_get "_id" (kv :: u)); [|done].
    destruct (update_one _ _ _ _); [|done].
    by destruct (login_accepted e).
  - destruct (insert_one _ _) as [[id c]|x']; [|done].
    by destruct (login_accepted e).
Qed.

Lemma ensure_admin_ok (req : request) (u : dict) :
  _ensure_admin req = Ok u →
  state_user req = Some u ∧ dict_get "role" u = Some (VStr "admin").
Proof.
  unfold _ensure_admin.
  destruct (state_user req) as [[|kv user]|]; [done| |done].
  unfold dict_get_or_none.
  destruct (dict_get "role" (kv :: user)) as [[]|] eqn:Hr; try done.
  cbn [is_string]. destruct (String.eqb s "admin") eqn:Hs; [|done].
  apply String.eqb_eq in Hs as ->. cbn [negb]. intros H.
  assert (kv :: user = u) as <- by congruence. done.
Qed.

Lemma ensure_admin_admin (req : request) (u : dict) :
  state_user req = Some u → dict_get "role" u = Some (VStr "admin") →
  _ensure_admin req = Ok u.
Proof.
  unfold _ensure_admin. intros -> Hr. destruct u as [|kv user]; [done|].
  unfold dict_get_or_none. by rewrite Hr.
Qed.

Lemma ensure_admin_denied (req : request) (e : exn) :
  _ensure_admin req = Raise e →
  e = HTTPException 403 "Access denied: Admins only".
Proof.
  unfold _ensure_admin.
  destruct (state_user req) as [[|kv user]|]; try congruence.
  destruct (negb _); congruence.
Qed.

(** X11.  [_ensure_admin] lets through exactly the requests whose user has the
    string [admin] as [role], and hands that user back; every other
    request gets 403, and nothing else is ever raised. *)
Theorem ensure_admin_iff (req : request) :
  (∀ u, _ensure_admin req = Ok u
        ↔ state_user req = Some u
          ∧ dict_get "role" u = Some (VStr "admin"))
  ∧ ((∀ u, state_user req = Some u →
           dict_get "role" u ≠ Some (VStr "admin")) →
     _ensure_admin req
     = Raise (HTTPException 403 "Access denied: Admins only"))
  ∧ (∀ e, _ensure_admin req = Raise e →
          e = HTTPException 403 "Access denied: Admins only").
Proof.
  split_and!.
  - intros u. split; [apply ensure_admin_ok|].
    intros [Hu Hr]. by apply ensure_admin_admin.
  - intros Hno. destruct (_ensure_admin req) as [u|e] eqn:Hadm.
    + apply ensure_admin_ok in Hadm as [Hu Hr]. by destruct (Hno u Hu).
    + by rewrite (ensure_admin_denied _ _ Hadm).
  - apply ensure_admin_denied.
Qed.

End UserProperties.

(** ** The session middleware, [auth_me] and the two logouts *)

Section AccessProperties.
Context {RT : Runtime}.

(** X12.  Whatever user the middleware puts on a request is backed by a live
    session: the request carries a non-empty [session_id] cookie, the
    lookup of that id returns a session that has not expired, and the
    user is the one that session's [user_id] resolves to.  A user the
    request claimed for itself does not survive, and resolving a user
    leaves the store as it is. *)
Theorem middleware_user_has_live_session
    (now : Z) (req : request) (d : store) (u : dict) :
  state_user (session_middleware now req d).1 = Some u →
  (session_middleware now req d).2 = d
  ∧ ∃ sid s,
      cookies req !! "session_id" = Some sid
      ∧ sid ≠ ""
      ∧ get_session now sid d = (Ok (Some s), d)
      ∧ (∀ t, dict_get "expires_at" s = Some (VTime t) → now ≤ t)
      ∧ get_user_by_dbid (dict_get_or_none "user_id" s) d = Some u.
Proof.
  unfold session_middleware. cbn [cookies with_state_user].
  destruct (cookies req !! "session_id") as [sid|]; [|done].
  destruct (truthy (VStr sid)) eqn:Hsid; [|done].
  unfold _resolve_user.
  destruct (get_session now sid d) as [[[[|kv s]|]|e] d'] eqn:Hget;
    try done.
  cbn [fst snd state_user with_state_user]. intros Hu.
  destruct (get_session_some _ _ _ _ _ Hget) as (-> & Hlive & _).
  split; [done|]. exists sid, (kv :: s). split_and!; try done.
  intros ->. done.
Qed.

(** X13.  The middleware resolves the cookie of a session that was just
    created, and has not reached the expiry the store holds for it, to
    the user whose id the session was created for, and leaves the store
    as it is; past that expiry the request is anonymous and the session
    is gone. *)
Theorem new_session_resolves_user
    (sid : string) (now : Z) (user_id meta : value) (ttl : Z) (d : store)
    (now' : Z) (req : request) :
  (create_session_with_meta sid now user_id meta ttl d).1 = Ok sid →
  cookies req !! "session_id" = Some sid →
  sid ≠ "" →
  let d1 := (create_session_with_meta sid now user_id meta ttl d).2 in
  (now' ≤ bson_time (now + ttl * 1000000) →
   session_middleware now' req d1
   = (with_state_user (get_user_by_dbid (VStr (py_str user_id)) d)
        (with_state_user None req), d1))
  ∧ (bson_time (now + ttl * 1000000) < now' →
     session_middleware now' req d1 = (with_state_user None req, d)).
Proof.
  intros Hok Hcookie Hsid. cbv zeta.
  destruct (create_session_with_meta_ok _ _ _ _ _ _ _ Hok)
    as (_ & Hfresh & _ & _ & Hd1).
  unfold session_middleware. cbn [cookies with_state_user].
  rewrite Hcookie.
  assert (truthy (VStr sid) = true) as ->.
  { cbn. by apply String.eqb_neq in Hsid as ->. }
  unfold _resolve_user.
  rewrite (get_session_created _ _ _ _ _ _ now' Hfresh), Hok, Hd1.
  split.
  - intros Hlive. apply Z.ltb_ge in Hlive as ->. reflexivity.
  - intros Hdead. by apply Z.ltb_lt in Hdead as ->.
Qed.

(** X14.  With no user from the middleware and an expired session, [auth_me]
    answers 401 and the expired session document is deleted. *)
Theorem auth_me_expired_session
    (now : Z) (req : request) (d : store) (sid : string) (doc : dict) (t : Z) :
  state_user req = None →
  cookies req !! "session_id" = Some sid →
  sid ≠ "" →
  find_one "_id" (VStr sid) (sessions d) = Some doc →
  dict_get "expires_at" doc = Some (VTime t) →
  t < now →
  auth_me now req d
  = (Raise (HTTPException 401 "Session invalid or expired"),
     (delete_session sid d).2).
Proof.
  intros Hu Hcookie Hsid Hfind Hexp Hlt. unfold auth_me.
  rewrite Hu, Hcookie.
  assert (truthy (VStr sid) = true) as ->.
  { cbn. by apply String.eqb_neq in Hsid as ->. }
  cbn [negb]. rewrite (get_session_expired_run _ _ _ _ _ Hfind Hexp Hlt).
  unfold delete_session. by destruct (delete_one _ _ _).
Qed.

(** X15.  When [auth_me] answers with a user, the store is as it was, and the
    user is the middleware's or the one a live session resolves to. *)
Theorem auth_me_answer
    (now : Z) (req : request) (d d' : store) (out : dict) :
  auth_me now req d = (Ok out, d') →
  d' = d
  ∧ ∃ user, out = [("user", VDict user)]
      ∧ (state_user req = Some user
         ∨ ∃ sid s,
             cookies req !! "session_id" = Some sid
             ∧ get_session now sid d = (Ok (Some s), d)
             ∧ (∀ t, dict_get "expires_at" s = Some (VTime t) → now ≤ t)
             ∧ get_user_by_dbid (dict_get_or_none "user_id" s) d
               = Some user).
Proof.
  unfold auth_me.
  assert (Hhave : ∀ (user : dict) (d0 : store),
    (Ok [("user", VDict user)], d0) = (Ok out, d') →
    d' = d0 ∧ out = [("user", VDict user)]).
  { intros user d0 H. split; congruence. }
  destruct (state_user req) as [[|kv user]|] eqn:Hu.
  2:{ intros [-> ->]%Hhave. split; [done|]. eexists. split; [done|]. by left. }
  all: destruct (cookies req !! "session_id") as [sid|]; [|done].
  all: destruct (negb (truthy (VStr sid))); [done|].
  all: destruct (get_session now sid d) as [[[[|kv' s]|]|e] d1] eqn:Hget;
    try done.
  all: destruct (get_session_some _ _ _ _ _ Hget) as (-> & Hlive & _).
  all: destruct (get_user_by_dbid _ d) as [[|kv'' user']|] eqn:Hus; try done.
  all: intros [-> ->]%Hhave; split; [done|].
  all: eexists; split; [done|]; right; by exists sid, (kv' :: s).
Qed.

(** X16.  [logout] of app/main.py: with a non-empty [session_id] cookie it
    removes the cookie and one session document with that id; with no
    cookie, or an empty one, it answers with the bare redirect, cookie
    removal included nowhere, and leaves the store as it is.  Users are
    never touched. *)
Theorem main_logout_effect (req : request) (d : store) :
  let out := logout req d in
  location out.1 = "/"
  ∧ usuarios out.2 = usuarios d
  ∧ (∀ sid, cookies req !! "session_id" = Some sid → sid ≠ "" →
       cookie_ops out.1 = [DeleteCookie "session_id"]
       ∧ holding (VStr sid) (sessions out.2)
         = Nat.pred (holding (VStr sid) (sessions d)))
  ∧ (cookies req !! "session_id" = None
     ∨ cookies req !! "session_id" = Some "" →
     out = (RedirectResponse "/", d)).
Proof.
  cbv zeta. unfold logout.
  destruct (cookies req !! "session_id") as [sid|] eqn:Hc.
  - destruct (truthy (VStr sid)) eqn:Hsid.
    + cbn [fst snd location delete_cookie RedirectResponse cookie_ops app].
      unfold delete_session.
      pose proof (holding_delete_one (VStr sid) (sessions d)) as Hh.
      destruct (delete_one "_id" (VStr sid) (sessions d)) as [n c].
      cbn [fst snd set_sessions usuarios sessions] in *.
      split_and!; try done.
      * intros sid' [= <-] _. by split_and!.
      * intros [?|[= ->]]; done.
    + cbn [fst snd location RedirectResponse]. split_and!; try done.
      intros sid' [= <-] Hne. cbn in Hsid.
      apply negb_false_iff, String.eqb_eq in Hsid. done.
  - cbn [fst snd location RedirectResponse]. split_and!; done.
Qed.

End AccessProperties.

(** ** Profile updates: failures and the answer *)

Lemma dict_update_nonempty d u : d ≠ [] → dict_update d u ≠ [].
Proof.
  unfold dict_update. revert d.
  induction u as [|[k v] u IH]; intros d Hd; cbn [fold_left]; [done|].
  apply IH, dict_set_nonempty.
Qed.



Lemma matches_update_other f q d u :
  f ∉ dict_keys u → matches f q (dict_update d u) = matches f q d.
Proof. intros Hf. unfold matches. by rewrite dict_get_update_other. Qed.

Lemma find_one_set_first f q u c :
  f ∉ dict_keys u →
  find_one f q (set_first f q u c)
  = (fun d => dict_update d u) <$> find_one f q c.
Proof.
  intros Hf. unfold find_one. induction c as [|d c IH]; [done|].
  cbn [set_first find]. destruct (matches f q d) eqn:Hm.
  - cbn [find]. by rewrite (matches_update_other _ _ _ _ Hf), Hm.
  - cbn [find]. by rewrite Hm.
Qed.

Lemma matches_nonempty f q d :
  is_none q = false → matches f q d = true → d ≠ [].
Proof. intros Hq Hm ->. cbn in Hm. congruence. Qed.

Lemma user_filter_some x f q :
  truthy x = true → user_filter x = Some (f, q) →
  (f = "_id" ∨ f = "id") ∧ is_none q = false.
Proof.
  unfold user_filter. intros Hx.
  destruct (ObjectId x) as [[h|]|e]; intros [= <- <-]; try (split; [by left|done]).
  split; [by right|]. by destruct x.
Qed.

Lemma editable_updates_keys now payload k :
  k ∈ dict_keys (dict_set "updated_at" (VTime now) (editable payload)) →
  k ∈ profile_fields.
Proof.
  intros [->|Hk]%dict_keys_set%elem_of_cons.
  - unfold profile_fields. set_solver.
  - apply editable_keys in Hk. unfold allowed, profile_fields in *.
    set_solver.
Qed.

Section UpdateMeMore.
Context {RT : Runtime}.

(** The call of [update_user_by_dbid] that [update_me] makes: the driver
    refuses the update and the store stays, or no user matches and the
    store stays, or the first match is updated and handed back as
    stored. *)
Lemma update_user_by_dbid_run user_id updates d :
  truthy user_id = true →
  (∀ k, k ∈ dict_keys updates → k ∈ profile_fields) →
  let out := update_user_by_dbid user_id updates d in
  (∃ e, out = (Raise e, d))
  ∨ out = (Ok None, d)
  ∨ ∃ doc u, doc ∈ usuarios out.2
      ∧ (∃ doc0, doc0 ∈ usuarios d
                 ∧ doc = dict_update doc0 (stored_doc updates))
      ∧ _doc_to_dict (Some doc) = Some u
      ∧ u ≠ []
      ∧ out.1 = Ok (Some u).
Proof.
  intros Hx Hkeys. cbv zeta. unfold update_user_by_dbid, update_one.
  destruct (update_refusal updates) as [e|];
    [left; exists e; by destruct (user_filter user_id) as [[f q]|]|].
  right.
  destruct (user_filter user_id) as [[f q]|] eqn:Hf; [|by left].
  destruct (user_filter_some _ _ _ Hx Hf) as [Hfield Hq].
  assert (Hnk : f ∉ dict_keys (stored_doc updates)).
  { rewrite dict_keys_stored. intros Hin%Hkeys. unfold profile_fields in Hin.
    destruct Hfield as [-> | ->]; set_solver. }
  rewrite (find_one_set_first _ _ _ _ Hnk).
  destruct (find_one f q (usuarios d)) as [doc0|] eqn:Hfind.
  - right. cbn [fmap option_fmap option_map].
    assert (Hne : doc0 ≠ []).
    { apply (matches_nonempty f q); [done|]. by eapply find_one_matches. }
    pose proof (dict_update_nonempty doc0 (stored_doc updates) Hne) as Hne'.
    destruct (dict_update doc0 (stored_doc updates)) as [|kv doc'] eqn:Hd;
      [done|].
    eexists (kv :: doc'), _. cbn [fst snd set_usuarios usuarios].
    split_and!; [| |reflexivity|apply dict_set_nonempty|reflexivity].
    + assert (Hfo : find_one f q
                      (set_first f q (stored_doc updates) (usuarios d))
                    = Some (kv :: doc')).
      { rewrite (find_one_set_first _ _ _ _ Hnk), Hfind.
        cbn [fmap option_fmap option_map]. by rewrite Hd. }
      apply list_elem_of_In. by apply List.find_some in Hfo as [? _].
    + exists doc0. split; [|done].
      apply list_elem_of_In. by apply List.find_some in Hfind as [? _].
  - left. cbn [fmap option_fmap option_map].
    rewrite (set_first_none _ _ _ _ (find_one_is_none _ _ _ Hfind)).
    by rewrite set_usuarios_same.
Qed.

(** X17.  An [update_me] that raises, whatever the reason (no user on the
    request, a body that is not JSON or not an object, nothing editable
    in it, no user id, an update the driver refuses, no such user),
    leaves the store as it was. *)
Theorem update_me_failure_leaves_store
    (now : Z) (req : request) (d : store) (e : exn) :
  (update_me now req (start d)).1 = Raise e →
  db (update_me now req (start d)).2 = d.
Proof.
  unfold update_me.
  destruct (state_user req) as [[|kv current]|]; [done| |done].
  destruct (json_body req) as [[| | | | | | |payload]|]; try done.
  destruct (negb (truthy (VDict (editable payload)))); [done|].
  set (user_id := py_or _ _).
  destruct (truthy user_id) eqn:Hid; cbn [negb]; [|done].
  rewrite bind_unfold. unfold call_db. cbn [start db trace].
  set (updates := dict_set "updated_at" _ _).
  destruct (update_user_by_dbid_run user_id updates d Hid
              (editable_updates_keys now payload))
    as [[e' ->]|[->|(doc & u & _ & _ & _ & Hne & Hu)]].
  - done.
  - done.
  - destruct (update_user_by_dbid user_id updates d) as [o d1].
    cbn [fst snd] in *. subst o. by destruct u.
Qed.


End UpdateMeMore.

(** ** The callback: what it needs, and the session it leaves *)

Lemma truthy_str_nonempty s : truthy (VStr s) = true → s ≠ "".
Proof. cbn. intros H ->. done. Qed.

Lemma nonempty_truthy_str s : s ≠ "" → truthy (VStr s) = true.
Proof. intros H. cbn. by apply String.eqb_neq in H as ->. Qed.

Lemma py_get_dict_run k d w :
  py_get k (VDict d) w = (Ok (dict_get_or_none k d), w).
Proof. reflexivity. Qed.

Section CallbackMore.
Context {RT : Runtime}.

Lemma get_env_ok env name w v w' :
  _get_env env name w = (Ok v, w') → w' = w ∧ env !! name = Some v.
Proof.
  unfold _get_env. destruct (env !! name) as [val|]; [|done].
  destruct (truthy (VStr val)); [|done].
  unfold mret, M_ret. intros H. split; congruence.
Qed.

(** An exchange that returns: the token endpoint answered 200 with the
    tokens, a dict with a true access token, and the userinfo endpoint,
    asked with that token, answered 200 with the profile; these are the
    two requests made, and the store was not touched. *)
Lemma exchange_code_ok prov code client_id client_secret redirect_uri
    w tokens user_info w' :
  exchange_code prov code client_id client_secret redirect_uri w
  = (Ok (tokens, user_info), w') →
  let form :=
    [ ("code", VStr code);
      ("client_id", VStr client_id);
      ("client_secret", VStr client_secret);
      ("redirect_uri", VStr redirect_uri);
      ("grant_type", VStr "authorization_code") ] in
  ∃ t,
    tokens = VDict t
    ∧ prov (PostToken form) = Answer 200 (Some (VDict t))
    ∧ truthy (dict_get_or_none "access_token" t) = true
    ∧ prov (GetUserinfo
              ("Bearer " ++ py_str (dict_get_or_none "access_token" t)))
      = Answer 200 (Some user_info)
    ∧ trace w'
      = (trace w
         ++ [ Http (PostToken form);
              Http (GetUserinfo
                      ("Bearer "
                       ++ py_str (dict_get_or_none "access_token" t))) ])%list
    ∧ db w' = db w.
Proof.
  cbv zeta. unfold exchange_code. set (c1 := PostToken _).
  rewrite bind_unfold. unfold send at 1. cbv beta iota.
  destruct (prov c1) as [status body|msg] eqn:E1; [|done].
  destruct (status =? 200) eqn:Hs; cbn [negb]; [|done].
  apply Z.eqb_eq in Hs as ->.
  rewrite bind_unfold. destruct body as [tk|]; [|done].
  cbn [json_of]. unfold mret at 1, M_ret at 1. cbv beta iota.
  rewrite bind_unfold.
  destruct tk as [| | | | | | |t]; try done.
  rewrite py_get_dict_run. cbv beta iota.
  destruct (truthy (dict_get_or_none "access_token" t)) eqn:Hat;
    cbn [negb]; [|done].
  rewrite bind_unfold. unfold send at 1. cbv beta iota.
  set (c2 := GetUserinfo _). cbn [db trace].
  destruct (prov c2) as [status' body'|msg'] eqn:E2; [|done].
  destruct (status' =? 200) eqn:Hs'; cbn [negb]; [|done].
  apply Z.eqb_eq in Hs' as ->.
  rewrite bind_unfold. destruct body' as [ui|]; [|done].
  cbn [json_of]. unfold mret, M_ret. intros H.
  assert (Ht : tokens = VDict t) by congruence.
  assert (Hu : user_info = ui) by congruence.
  assert (Hw : w' = {| db := db w;
                       trace := ((trace w ++ [Http c1]) ++ [Http c2])%list |})
    by congruence.
  exists t. subst. cbn [db trace]. rewrite <- app_assoc.
  by split_and!.
Qed.

(** X19.  The callback does nothing at all (no request to the provider, no
    call into the store) unless the request carries a non-empty [code]
    and the three settings [GOOGLE_CLIENT_ID], [GOOGLE_CLIENT_SECRET]
    and [GOOGLE_REDIRECT_URI] are present and not empty. *)
Theorem callback_needs_code_and_settings
    (g : callback_env) (req : request) (d : store) :
  trace (google_callback g req (start d)).2 ≠ [] →
  ∃ code,
    query_code req = Some code ∧ code ≠ ""
    ∧ ∀ name,
        name ∈ ["GOOGLE_CLIENT_ID"; "GOOGLE_CLIENT_SECRET";
                "GOOGLE_REDIRECT_URI"] →
        ∃ v, environ g !! name = Some v ∧ v ≠ "".
Proof.
  unfold google_callback.
  destruct (query_code req) as [code|]; [|done].
  destruct (truthy (VStr code)) eqn:Hcode; cbn [negb]; [|done].
  rewrite bind_unfold. unfold _get_env at 1.
  destruct (environ g !! "GOOGLE_CLIENT_ID") as [v1|] eqn:E1; [|done].
  destruct (truthy (VStr v1)) eqn:H1; [|done].
  unfold mret at 1, M_ret at 1. cbv beta iota.
  rewrite bind_unfold. unfold _get_env at 1.
  destruct (environ g !! "GOOGLE_CLIENT_SECRET") as [v2|] eqn:E2; [|done].
  destruct (truthy (VStr v2)) eqn:H2; [|done].
  unfold mret at 1, M_ret at 1. cbv beta iota.
  rewrite bind_unfold. unfold _get_env at 1.
  destruct (environ g !! "GOOGLE_REDIRECT_URI") as [v3|] eqn:E3; [|done].
  destruct (truthy (VStr v3)) eqn:H3; [|done].
  intros _. exists code. split_and!; [done | by apply truthy_str_nonempty |].
  intros name [->|[->|[->|[]%elem_of_nil]%elem_of_cons]%elem_of_cons]%elem_of_cons;
    eexists; (split; [eassumption | by apply truthy_str_nonempty]).
Qed.

(** X20.  After a callback that succeeds, the value of the cookie is the id of
    a stored session.  Its [meta] holds the access and refresh tokens
    that the token endpoint answered to the one token request of the
    callback, the one for the request's code; its expiry is two hours
    after its creation, as the store keeps it; and until then a lookup
    of that id returns it and leaves the store as it is. *)
Theorem callback_session_is_live
    (g : callback_env) (req : request) (d : store) (w' : world)
    (resp : response) (now' : Z) :
  google_callback g req (start d) = (Ok resp, w') →
  now' ≤ bson_time (session_now g + 7200 * 1000000) →
  ∃ c s code form tokens authorization,
    cookie_ops resp = [SetCookie c]
    ∧ cookie_value c = session_uuid g
    ∧ query_code req = Some code
    ∧ dict_get "code" form = Some (VStr code)
    ∧ http_calls (trace w') = [PostToken form; GetUserinfo authorization]
    ∧ provider g (PostToken form) = Answer 200 (Some (VDict tokens))
    ∧ get_session now' (cookie_value c) (db w') = (Ok (Some s), db w')
    ∧ dict_get "meta" s
      = Some (stored
                (VDict [ ("access_token",
                           dict_get_or_none "access_token" tokens);
                         ("refresh_token",
                           dict_get_or_none "refresh_token" tokens) ]))
    ∧ dict_get "expires_at" s
      = Some (VTime (bson_time (session_now g + 7200 * 1000000))).
Proof.
  unfold google_callback. destruct (query_code req) as [code|]; [|done].
  destruct (negb (truthy (VStr code))); [done|].
  intros (client_id & w1 & [-> _]%get_env_ok & H)%bind_ok Hlive.
  apply bind_ok in H as (client_secret & w2 & [-> _]%get_env_ok & H).
  apply bind_ok in H as (redirect_uri & w3 & [-> _]%get_env_ok & H).
  apply bind_ok in H as ([tokens user_info] & w4 & Hx & H).
  apply catch_ok in Hx;
    [|intros e k; destruct e; cbn [bad_gateway]; try done;
      intros [= <-]; by eexists].
  apply exchange_code_ok in Hx as (t & -> & Hprov & _ & _ & Htrace & _).
  cbn [start trace app] in Htrace.
  pose proof (open_session_same_http g req (VDict t) user_info w4) as Hq.
  unfold same_http in Hq. rewrite H in Hq. cbn [snd] in Hq.
  rewrite Htrace in Hq.
  unfold open_session in H.
  apply bind_ok in H as (user & w5 & _ & H).
  apply bind_ok in H as (sid & w6 & Hs & H).
  apply catch_ok in Hs; [|intros e k [= <-]; by eexists].
  apply bind_ok in Hs as (user_id & w7 & _ & Hs).
  apply bind_ok in Hs as (access_token & w8 & Ha & Hs).
  apply bind_ok in Hs as (refresh_token & w9 & Hr & Hs).
  rewrite py_get_dict_run in Ha, Hr.
  assert (access_token = dict_get_or_none "access_token" t) as ->
    by congruence.
  assert (refresh_token = dict_get_or_none "refresh_token" t) as ->
    by congruence.
  cbv zeta in Hs. unfold call_db in Hs.
  set (meta := VDict [ ("access_token", _); ("refresh_token", _) ]) in *.
  destruct (create_session_with_meta (session_uuid g) (session_now g)
              user_id meta DEFAULT_TTL_SECONDS (db w9)) as [r d6] eqn:Hc.
  assert (Hr6 : r = Ok sid
                ∧ w6 = {| db := d6;
                          trace := (trace w9 ++ [Db (CreateSession user_id meta)])%list |})
    by (split; congruence).
  destruct Hr6 as [-> ->].
  assert (Hok : (create_session_with_meta (session_uuid g) (session_now g)
                   user_id meta DEFAULT_TTL_SECONDS (db w9)).1 = Ok sid)
    by by rewrite Hc.
  destruct (create_session_with_meta_ok _ _ _ _ _ _ _ Hok)
    as (-> & Hfresh & _ & _ & Hd6).
  rewrite Hc in Hd6. cbn [snd] in Hd6.
  assert (Hresp : ∀ (r : response) (w0 : world),
            (mret r : M response) w0 = (Ok resp, w') → resp = r ∧ w' = w0)
    by (intros r0 w0 Hr0; unfold mret, M_ret in Hr0; split; congruence).
  destruct (Hresp _ _ H) as [-> ->]. clear Hresp H.
  cbn [db cookie_ops set_cookie RedirectResponse app cookie_value].
  pose proof (get_session_appended (session_uuid g) (session_now g) user_id
                meta DEFAULT_TTL_SECONDS (db w9) now' Hfresh) as Hget.
  cbv zeta in Hget. rewrite <- Hd6 in Hget.
  change DEFAULT_TTL_SECONDS with 7200 in Hget.
  apply Z.ltb_ge in Hlive. rewrite Hlive in Hget.
  rewrite stored_session_document in Hget.
  eexists _, _, code, _, t, _.
  split_and!; [reflexivity | reflexivity | reflexivity | | exact Hq
              | exact Hprov | exact Hget | reflexivity | reflexivity].
  reflexivity.
Qed.

End CallbackMore.

(** ** Logout: what goes to the provider *)

Section LogoutMore.
Context {RT : Runtime}.

(** The revocation attempt sends nothing, or exactly one revocation
    request, for the token of a live session. *)
Lemma revoke_tokens_http prov now sid d :
  let w1 := (revoke_tokens prov now sid (start d)).2 in
  http_calls (trace w1) = []
  ∨ ∃ s meta,
      get_session now sid d = (Ok (Some s), d)
      ∧ dict_get "meta" s = Some (VDict meta)
      ∧ let tok := py_or (dict_get_or_none "refresh_token" meta)
                         (dict_get_or_none "access_token" meta) in
        truthy tok = true
        ∧ http_calls (trace w1) = [PostRevoke tok].
Proof.
  cbv zeta. unfold revoke_tokens. rewrite bind_unfold. unfold call_db.
  cbn [start db trace app].
  destruct (get_session now sid d) as [[[s|]|e] d1] eqn:Hget;
    [|by left..].
  destruct s as [|kv s']; [by left|].
  destruct (get_session_some _ _ _ _ _ Hget) as (-> & _ & _).
  remember (kv :: s') as s eqn:Hs. clear Hs kv s'.
  cbv beta iota. rewrite bind_unfold, py_get_dict_run. cbv beta iota zeta.
  destruct (dict_get "meta" s) as [m|] eqn:Hm.
  2:{ rewrite (dict_get_or_none_none _ _ Hm). left. reflexivity. }
  rewrite (dict_get_or_none_some _ _ _ Hm).
  destruct (truthy m) eqn:Htm.
  2:{ assert (py_or m (VDict []) = VDict []) as ->
        by (unfold py_or; by rewrite Htm).
      left. reflexivity. }
  assert (py_or m (VDict []) = m) as -> by (unfold py_or; by rewrite Htm).
  destruct m as [| | | | | | |meta]; try (left; reflexivity).
  rewrite bind_unfold, py_get_dict_run. cbv beta iota.
  rewrite bind_unfold, py_get_dict_run. cbv beta iota.
  set (tok := py_or _ _).
  destruct (truthy tok) eqn:Htok; [|by left].
  right. exists s, meta. split_and!; try done.
  rewrite attempt_ok, bind_unfold. unfold send. cbv beta iota. cbn [db trace].
  by destruct (prov (PostRevoke tok)).
Qed.

(** X21.  A logout sends at most one request to the provider, and only for a
    cookie that is not empty and names a live session that holds a
    token: the revocation of its refresh token when it has one, of its
    access token otherwise.  With no cookie or an empty one the handler
    sends nothing and calls nothing; with an unknown or expired session,
    or a session without tokens, nothing is sent. *)
Theorem logout_revokes_at_most_once
    (prov : http_call → http_outcome) (now : Z) (req : request) (d : store) :
  let out := google_logout prov now req (start d) in
  (http_calls (trace out.2) = []
   ∨ ∃ sid s meta,
       cookies req !! "session_id" = Some sid
       ∧ sid ≠ ""
       ∧ get_session now sid d = (Ok (Some s), d)
       ∧ dict_get "meta" s = Some (VDict meta)
       ∧ let tok := py_or (dict_get_or_none "refresh_token" meta)
                          (dict_get_or_none "access_token" meta) in
         truthy tok = true
         ∧ http_calls (trace out.2) = [PostRevoke tok])
  ∧ (cookies req !! "session_id" = None
     ∨ cookies req !! "session_id" = Some "" →
     out.2 = start d)
  ∧ (∀ sid, cookies req !! "session_id" = Some sid →
       get_session now sid d = (Ok None, d)
       ∨ (∃ e, (get_session now sid d).1 = Raise e) →
       http_calls (trace out.2) = []).
Proof.
  cbv zeta. unfold google_logout. rewrite bind_unfold.
  destruct (cookies req !! "session_id") as [sid|]; [|by split_and!; [left|..]].
  destruct (truthy (VStr sid)) eqn:Hsid.
  2:{ split_and!; [by left|done|done]. }
  apply truthy_str_nonempty in Hsid.
  rewrite bind_unfold, attempt_ok. cbv beta iota. rewrite attempt_ok.
  cbv beta iota. rewrite bind_unfold. unfold call_db, total.
  destruct (delete_session sid _) as [n d2].
  unfold mret, M_ret. cbn [snd trace].
  rewrite http_calls_snoc_db.
  destruct (revoke_tokens_http prov now sid d) as [H|(s & meta & H)].
  - split_and!; [by left | by intros [?|[= ->]] | done].
  - split_and!.
    + right. by exists sid, s, meta.
    + by intros [?|[= ->]].
    + intros sid' [= <-] Hno. destruct H as (Hget & _).
      rewrite Hget in Hno. by destruct Hno as [?|[e ?]].
Qed.

End LogoutMore.

(** ** Tags and product normalisation *)

Lemma rstrip_cons c s :
  rstrip (String c s)
  = match rstrip s with
    | EmptyString => if py_isspace c then EmptyString else String c EmptyString
    | r => String c r
    end.
Proof. reflexivity. Qed.

Lemma rstrip_idem s : rstrip (rstrip s) = rstrip s.
Proof.
  induction s as [|c s IH]; [done|]. rewrite rstrip_cons.
  destruct (rstrip s) as [|a r] eqn:Hr.
  - destruct (py_isspace c) eqn:Hc; [done|]. rewrite rstrip_cons.
    cbn [rstrip]. by rewrite Hc.
  - rewrite rstrip_cons. by rewrite IH.
Qed.

Lemma lstrip_starts_clean s : starts_clean (lstrip s).
Proof.
  induction s as [|c s IH]; [done|]. cbn [lstrip].
  by destruct (py_isspace c) eqn:Hc.
Qed.

Lemma rstrip_starts_clean s : starts_clean s → starts_clean (rstrip s).
Proof.
  destruct s as [|c s]; [done|]. rewrite rstrip_cons. cbn [starts_clean].
  intros Hc. destruct (rstrip s); [by rewrite Hc | done].
Qed.

Lemma lstrip_clean s : starts_clean s → lstrip s = s.
Proof. destruct s as [|c s]; [done|]. cbn. by intros ->. Qed.

Lemma strip_idem s : strip (strip s) = strip s.
Proof.
  unfold strip.
  rewrite (lstrip_clean (rstrip (lstrip s)))
    by apply rstrip_starts_clean, lstrip_starts_clean.
  apply rstrip_idem.
Qed.

Lemma lstrip_chars s c : c ∈ chars (lstrip s) → c ∈ chars s.
Proof.
  induction s as [|a s IH]; [done|]. cbn [lstrip].
  destruct (py_isspace a); [|done]. intros H%IH. by right.
Qed.

Lemma rstrip_chars s c : c ∈ chars (rstrip s) → c ∈ chars s.
Proof.
  revert c. induction s as [|a s IH]; [done|]. intros c.
  rewrite rstrip_cons. destruct (rstrip s) as [|b r] eqn:Hr.
  - destruct (py_isspace a).
    + by intros []%elem_of_nil.
    + intros ->%list_elem_of_singleton. by left.
  - intros [->|H]%elem_of_cons; [by left|]. right. by apply IH.
Qed.

Lemma strip_chars s c : c ∈ chars (strip s) → c ∈ chars s.
Proof. unfold strip. by intros H%rstrip_chars%lstrip_chars. Qed.

Lemma split_comma_no_comma s piece :
  piece ∈ split_comma s → ","%char ∉ chars piece.
Proof.
  revert piece. induction s as [|c s IH]; intros piece; cbn [split_comma].
  - intros ->%list_elem_of_singleton. by intros []%elem_of_nil.
  - destruct (Ascii.eqb c ",") eqn:Hc.
    + intros [->|H]%elem_of_cons; [by intros []%elem_of_nil | by apply IH].
    + destruct (split_comma s) as [|x r] eqn:Hs.
      * intros ->%list_elem_of_singleton.
        intros [<-|[]%elem_of_nil]%elem_of_cons.
        by rewrite Ascii.eqb_refl in Hc.
      * intros [->|H]%elem_of_cons.
        -- intros [<-|Hx]%elem_of_cons.
           ++ by rewrite Ascii.eqb_refl in Hc.
           ++ by apply (IH x); [left|].
        -- apply IH. by right.
Qed.

(** X22.  [_parse_tags] returns each tag once; a string is among the tags
    exactly when it is not empty and is a piece between commas with the
    white space around it removed; so every tag is without surrounding
    white space and without a comma. *)
Theorem parse_tags_spec (s : string) :
  NoDup (_parse_tags s)
  ∧ (∀ t, t ∈ _parse_tags s
          ↔ t ≠ "" ∧ ∃ piece, piece ∈ split_comma s ∧ t = strip piece)
  ∧ (∀ t, t ∈ _parse_tags s →
          strip t = t ∧ ","%char ∉ chars t).
Proof.
  assert (Hmem : ∀ t, t ∈ _parse_tags s
                 ↔ t ≠ "" ∧ ∃ piece, piece ∈ split_comma s ∧ t = strip piece).
  { intros t. unfold _parse_tags.
    destruct (truthy (VStr s)) eqn:Hs; cbn [negb].
    - rewrite list_of_set_elem, list_elem_of_In, in_map_iff. split.
      + intros (piece & <- & [Hin Hp]%filter_In). split.
        * by apply truthy_str_nonempty.
        * exists piece. by rewrite list_elem_of_In.
      + intros (Hne & piece & Hin%list_elem_of_In & ->).
        exists piece. split; [done|]. apply filter_In. split; [done|].
        by apply nonempty_truthy_str.
    - split; [by intros []%elem_of_nil|].
      intros (Hne & piece & Hin & ->).
      cbn in Hs. apply negb_false_iff, String.eqb_eq in Hs as ->.
      cbn in Hin. by apply list_elem_of_singleton in Hin as ->. }
  split_and!; [apply parse_tags_NoDup | done |].
  intros t (Hne & piece & Hin & ->)%Hmem. split; [apply strip_idem|].
  intros Hc%strip_chars. by apply (split_comma_no_comma s piece).
Qed.

Section ProductMore.
Context {RT : Runtime}.

Lemma normalize_product_fields (doc : dict) :
  doc ≠ [] →
  let get k := dict_get_or_none k doc in
  let out := _normalize_product doc in
  dict_keys out
  = ["id"; "name"; "description"; "price"; "image"; "images"; "tags";
     "category"]
  ∧ dict_get "name" out
    = Some (py_or (get "name")
              (py_or (get "titulo")
                 (py_or (get "nombre") (VStr "Sin Nombre"))))
  ∧ dict_get "description" out
    = Some (py_or (get "description") (py_or (get "descripcion") (VStr "")))
  ∧ dict_get "price" out
    = Some (py_or (get "price") (py_or (get "precio") (VInt 0)))
  ∧ dict_get "category" out = Some (get "category").
Proof. destruct doc as [|kv doc]; [done|]. intros _. by split_and!. Qed.

Lemma py_or_truthy x y : truthy y = true → truthy (py_or x y) = true.
Proof. unfold py_or. by destruct (truthy x) eqn:Hx. Qed.

Lemma py_or_left x y : truthy x = true → py_or x y = x.
Proof. unfold py_or. by intros ->. Qed.

Lemma py_or_right x y : truthy x = false → py_or x y = y.
Proof. unfold py_or. by intros ->. Qed.

(** X23.  A normalised product has exactly the eight fields of the front end.
    Its [name] is never false: it is the document's [name] when that is
    true, else its [titulo], else its [nombre], else [Sin Nombre].  Its
    [description] and [price] follow the same chain over the legacy keys
    and end in the empty string and in 0. *)
Theorem normalize_product_fallbacks (doc : dict) :
  doc ≠ [] →
  let get k := dict_get_or_none k doc in
  let out := _normalize_product doc in
  dict_keys out
  = ["id"; "name"; "description"; "price"; "image"; "images"; "tags";
     "category"]
  ∧ truthy (dict_get_or_none "name" out) = true
  ∧ (truthy (get "name") = true → dict_get "name" out = Some (get "name"))
  ∧ (truthy (get "name") = false → truthy (get "titulo") = true →
     dict_get "name" out = Some (get "titulo"))
  ∧ (truthy (get "name") = false → truthy (get "titulo") = false →
     truthy (get "nombre") = true →
     dict_get "name" out = Some (get "nombre"))
  ∧ (truthy (get "name") = false → truthy (get "titulo") = false →
     truthy (get "nombre") = false →
     dict_get "name" out = Some (VStr "Sin Nombre"))
  ∧ (truthy (get "description") = false →
     truthy (get "descripcion") = false →
     dict_get "description" out = Some (VStr ""))
  ∧ (truthy (get "price") = false → truthy (get "precio") = false →
     dict_get "price" out = Some (VInt 0)).
Proof.
  intros Hne. cbv zeta.
  destruct (normalize_product_fields doc Hne) as (Hk & Hn & Hd & Hp & _).
  cbv zeta in Hn, Hd, Hp. split_and!; [done|..].
  - unfold dict_get_or_none at 1. rewrite Hn.
    by repeat apply py_or_truthy.
  - intros H. by rewrite Hn, py_or_left.
  - intros H1 H2. by rewrite Hn, (py_or_right _ _ H1), py_or_left.
  - intros H1 H2 H3.
    by rewrite Hn, (py_or_right _ _ H1), (py_or_right _ _ H2), py_or_left.
  - intros H1 H2 H3.
    by rewrite Hn, (py_or_right _ _ H1), (py_or_right _ _ H2),
         (py_or_right _ _ H3).
  - intros H1 H2. by rewrite Hd, (py_or_right _ _ H1), (py_or_right _ _ H2).
  - intros H1 H2. by rewrite Hp, (py_or_right _ _ H1), (py_or_right _ _ H2).
Qed.

Lemma matches_oid_id h doc :
  dict_get "_id" doc = Some (VOid h) → matches "_id" (VOid h) doc = true.
Proof.
  intros H. unfold matches, mongo_match. rewrite H. cbn [value_eqb].
  by rewrite String.eqb_refl.
Qed.

(** How the creation of a product goes, for a payload without [_id]. *)
Lemma create_product_run oid payload coll :
  dict_get "_id" payload = None →
  create_product_in_db oid payload coll
  = match insert_refusal (dict_set "_id" (VOid oid) payload) with
    | Some e => (Raise e, coll)
    | None =>
        if holds_id (VOid oid) coll
        then (Raise (DuplicateKeyError "E11000 duplicate key error"), coll)
        else
          (Ok (py_str (VOid oid)),
           (coll ++ [stored_doc (dict_set "_id" (VOid oid) payload)])%list)
    end.
Proof.
  intros Hnoid. unfold create_product_in_db, with_object_id, insert_one.
  rewrite Hnoid. destruct (insert_refusal _); [done|].
  unfold dict_get_or_none. rewrite dict_get_set_eq.
  by destruct (holds_id (VOid oid) coll).
Qed.

Lemma dict_get_del_eq k d : dict_get k (dict_del k d) = None.
Proof.
  induction d as [|[k' v] d IH]; [done|]. cbn [dict_del].
  destruct (String.eqb k k') eqn:E; [done|]. cbn [dict_get]. by rewrite E.
Qed.

(** X24.  A product created from a payload without [_id], under an ObjectId
    new to the collection, is stored at the end of the collection when
    the driver takes it.  The call returns the text of that ObjectId; a
    lookup by the ObjectId, or by a string [ObjectId] reads as it, finds
    the product with every field of the payload as the store keeps it (a
    datetime to the millisecond); and deleting it by that id reports one
    deletion and gives back the collection as it was.  When the driver
    refuses the payload the call raises and the collection stays. *)
Theorem product_round_trip
    (oid : string) (payload : dict) (coll : collection) :
  dict_get "_id" payload = None →
  holds_id (VOid oid) coll = false →
  let out := create_product_in_db oid payload coll in
  let doc := dict_set "_id" (VOid oid) payload in
  (insert_refusal doc = None →
   out = (Ok (py_str (VOid oid)), (coll ++ [stored_doc doc])%list)
   ∧ (∃ p, get_product_from_db (VOid oid) out.2 = Some p
           ∧ dict_get "_id" p = None
           ∧ dict_get "id" p = Some (VStr (py_str (VOid oid)))
           ∧ (∀ k, k ≠ "id" → dict_get k p = stored <$> dict_get k payload)
           ∧ (∀ k t, k ≠ "id" → dict_get k payload = Some (VTime t) →
                dict_get k p = Some (VTime (bson_time t))))
   ∧ (∀ text, ObjectId (VStr text) = Ok (Parsed oid) →
        get_product_from_db (VStr text) out.2
        = get_product_from_db (VOid oid) out.2
        ∧ delete_product_in_db (VStr text) out.2 = (1, coll))
   ∧ delete_product_in_db (VOid oid) out.2 = (1, coll))
  ∧ (∀ e, insert_refusal doc = Some e → out = (Raise e, coll)).
Proof.
  intros Hnoid Hfresh. cbv zeta.
  rewrite (create_product_run _ _ _ Hnoid), Hfresh.
  set (doc := dict_set "_id" (VOid oid) payload).
  split; [|by intros e ->].
  intros ->. cbn [snd].
  assert (Hid : dict_get "_id" (stored_doc doc) = Some (VOid oid)).
  { rewrite dict_get_stored. unfold doc. by rewrite dict_get_set_eq. }
  pose proof (holds_id_false _ _ Hfresh) as Hc.
  pose proof (matches_oid_id _ _ Hid) as Hm.
  assert (Hne : stored_doc doc ≠ [])
    by apply stored_doc_nonempty, dict_set_nonempty.
  assert (Hget : get_product_from_db (VOid oid) (coll ++ [stored_doc doc])
                 = _doc_to_dict (Some (stored_doc doc))).
  { unfold get_product_from_db. cbn [user_filter ObjectId].
    by rewrite (find_one_snoc _ _ _ _ Hc Hm). }
  assert (Hdel : delete_product_in_db (VOid oid) (coll ++ [stored_doc doc])
                 = (1, coll)).
  { unfold delete_product_in_db. cbn [user_filter ObjectId].
    by rewrite (delete_one_snoc _ _ _ _ Hc Hm). }
  assert (Hfield : ∀ k, k ≠ "id" →
            dict_get k (dict_set "id" (VStr (py_str (VOid oid)))
                          (dict_del "_id" (stored_doc doc)))
            = stored <$> dict_get k payload).
  { intros k Hk. rewrite dict_get_set_ne by done.
    destruct (decide (k = "_id")) as [->|Hk'].
    - by rewrite dict_get_del_eq, Hnoid.
    - rewrite dict_get_del_ne, dict_get_stored by done.
      unfold doc. by rewrite dict_get_set_ne. }
  split_and!; [done| | |done].
  - rewrite Hget, (doc_to_dict_unfold _ Hne).
    rewrite (dict_get_or_none_some _ _ _ Hid). cbn [is_none].
    eexists. split; [reflexivity|]. split_and!.
    + rewrite dict_get_set_ne by done. apply dict_get_del_eq.
    + apply dict_get_set_eq.
    + exact Hfield.
    + intros k t Hk Ht. by rewrite (Hfield k Hk), Ht.
  - intros text Htext. split.
    + unfold get_product_from_db, user_filter. by rewrite Htext.
    + rewrite <- Hdel. unfold delete_product_in_db, user_filter.
      by rewrite Htext.
Qed.

End ProductMore.

(** ** Serialisation for the templates *)

Section SerializeProperties.
Context {RT : Runtime} {ISO : IsoFormat}.

Lemma serialize_json_safe (v : value) :
  json_safe (_serialize_mongo_doc v) = true.
Proof.
  revert v. fix IH 1. intros [| | | | | |l|d]; try reflexivity.
  - cbn [_serialize_mongo_doc json_safe].
    induction l as [|x l IHl]; [done|]. by rewrite IH, IHl.
  - cbn [_serialize_mongo_doc json_safe].
    induction d as [|[k x] d IHd]; [done|]. by rewrite IH, IHd.
Qed.

Lemma serialize_fixes_safe (v : value) :
  json_safe v = true → _serialize_mongo_doc v = v.
Proof.
  revert v. fix IH 1. intros [| | | | | |l|d]; try done.
  - cbn [_serialize_mongo_doc json_safe]. intros Hl. f_equal.
    induction l as [|x l IHl]; [done|].
    apply andb_true_iff in Hl as [Hx Hl]. by rewrite (IH x Hx), (IHl Hl).
  - cbn [_serialize_mongo_doc json_safe]. intros Hd. f_equal.
    induction d as [|[k x] d IHd]; [done|].
    apply andb_true_iff in Hd as [Hx Hd]. by rewrite (IH x Hx), (IHd Hd).
Qed.

(** X27.  What [_serialize_mongo_doc] returns holds no ObjectId and no
    datetime at any depth of its lists and dicts; a value that holds
    none already is returned as it is, so serialising twice is
    serialising once; and the keys of a dict stay, in their order. *)
Theorem serialize_mongo_doc_safe (v : value) :
  json_safe (_serialize_mongo_doc v) = true
  ∧ (json_safe v = true → _serialize_mongo_doc v = v)
  ∧ _serialize_mongo_doc (_serialize_mongo_doc v) = _serialize_mongo_doc v
  ∧ (∀ d, v = VDict d →
       ∃ d', _serialize_mongo_doc v = VDict d'
             ∧ dict_keys d' = dict_keys d).
Proof.
  split_and!.
  - apply serialize_json_safe.
  - apply serialize_fixes_safe.
  - apply serialize_fixes_safe, serialize_json_safe.
  - intros d ->. cbn [_serialize_mongo_doc]. eexists. split; [done|].
    unfold dict_keys. induction d as [|[k x] d IHd]; [done|].
    cbn [List.map fst]. f_equal. exact IHd.
Qed.

End SerializeProperties.

(** ** Sessions: the plain creator, and a malformed expiry *)

Section SessionMore.
Context {RT : Runtime}.


(** X6.  A stored session whose [expires_at] counts as true but is not a
    datetime cannot be compared with the clock: [get_session] raises the
    [TypeError] of the comparison, whose message names the type of the
    stored value and [datetime.datetime], and leaves the store as it is.
    The middleware then treats the request as anonymous, while [auth_me]
    lets the error through. *)
Theorem malformed_expiry_raises
    (now : Z) (req : request) (sid : string) (d : store) (doc : dict)
    (v : value) :
  find_one "_id" (VStr sid) (sessions d) = Some doc →
  dict_get "expires_at" doc = Some v →
  truthy v = true →
  (∀ t, v ≠ VTime t) →
  cookies req !! "session_id" = Some sid →
  sid ≠ "" →
  let error :=
    TypeError ("'<' not supported between instances of '" ++ type_name v
               ++ "' and 'datetime.datetime'") in
  get_session now sid d = (Raise error, d)
  ∧ session_middleware now req d = (with_state_user None req, d)
  ∧ (state_user req = None → auth_me now req d = (Raise error, d)).
Proof.
  intros Hfind Hexp Hv Hnt Hcookie Hsid. cbv zeta.
  assert (Hget : get_session now sid d
    = (Raise (TypeError
                ("'<' not supported between instances of '" ++ type_name v
                 ++ "' and 'datetime.datetime'")), d)).
  { unfold get_session. rewrite Hfind.
    pose proof (find_one_str_nonempty _ _ _ _ Hfind).
    destruct doc as [|kv doc]; [done|].
    rewrite (dict_get_or_none_some _ _ _ Hexp), Hv.
    destruct v; try done. by destruct (Hnt t). }
  split_and!; [done| |].
  - unfold session_middleware. cbn [cookies with_state_user].
    rewrite Hcookie, (nonempty_truthy_str _ Hsid).
    unfold _resolve_user. by rewrite Hget.
  - intros Hu. unfold auth_me.
    rewrite Hu, Hcookie, (nonempty_truthy_str _ Hsid). cbn [negb].
    by rewrite Hget.
Qed.

End SessionMore.

(** ** The further properties on the sample store *)

Lemma session_round_trip_witness :
  ∃ s, @get_session sample_runtime 7200002000 "s-2"
         (@create_session_with_meta sample_runtime "s-2" 2500 (VStr "u-1")
            VNone 7200 sample_db).2
       = (Ok (Some s),
          (@create_session_with_meta sample_runtime "s-2" 2500 (VStr "u-1")
             VNone 7200 sample_db).2)
       ∧ dict_get "created_at" s = Some (VTime 2000)
       ∧ dict_get "expires_at" s = Some (VTime 7200002000).
Proof.
  assert (H1 : (@create_session_with_meta sample_runtime "s-2" 2500
                  (VStr "u-1") VNone 7200 sample_db).1 = Ok "s-2")
    by reflexivity.
  assert (H2 : 7200002000 ≤ bson_time (2500 + 7200 * 1000000))
    by (vm_compute; discriminate).
  destruct (proj1 (@session_round_trip sample_runtime "s-2" 2500
                     (VStr "u-1") VNone 7200 sample_db 7200002000 H1) H2)
    as (s & Hs & _ & _ & Hc & He & _).
  exists s. split; [exact Hs|]. split; [exact Hc | exact He].
Defined.

Lemma session_expires_witness :
  @get_session sample_runtime 7200002001 "s-2"
    (@create_session_with_meta sample_runtime "s-2" 2000 (VStr "u-1") VNone
       7200 sample_db).2
  = (Ok None, sample_db).
Proof.
  assert (H1 : holds_id (VStr "s-2") (sessions sample_db) = false)
    by reflexivity.
  assert (H2 : 2000 + 7200 * 1000000 < 7200002001) by lia.
  exact (@session_expires sample_runtime "s-2" 2000 (VStr "u-1") VNone 7200
           sample_db 7200002001 H1 H2).
Defined.


Lemma get_session_returns_live_witness :
  ∃ doc, find_one "_id" (VStr "s-1") (sessions sample_db) = Some doc
         ∧ @_doc_to_dict sample_runtime (Some doc)
           = Some [ ("user_id", VStr "65a000000000000000000001");
                    ("created_at", VTime 1000);
                    ("expires_at", VTime 5000);
                    ("meta", VDict [ ("access_token", VStr "at-1");
                                     ("refresh_token", VNone) ]);
                    ("id", VStr "s-1") ].
Proof.
  assert (H : @get_session sample_runtime 3000 "s-1" sample_db
              = (Ok (Some [ ("user_id", VStr "65a000000000000000000001");
                            ("created_at", VTime 1000);
                            ("expires_at", VTime 5000);
                            ("meta", VDict [ ("access_token", VStr "at-1");
                                             ("refresh_token", VNone) ]);
                            ("id", VStr "s-1") ]), sample_db))
    by reflexivity.
  exact (proj2 (proj2 (@get_session_returns_live sample_runtime 3000 "s-1"
                         sample_db sample_db _ H))).
Defined.

Lemma session_without_expiry_stays_witness :
  @get_session sample_runtime 999999999 "s-9" eternal_db
  = (Ok (@_doc_to_dict sample_runtime
           (Some [("_id", VStr "s-9"); ("user_id", VStr "u-9")])),
     eternal_db).
Proof.
  assert (H1 : find_one "_id" (VStr "s-9") (sessions eternal_db)
               = Some [("_id", VStr "s-9"); ("user_id", VStr "u-9")])
    by reflexivity.
  assert (H2 : truthy (dict_get_or_none "expires_at"
                         [("_id", VStr "s-9"); ("user_id", VStr "u-9")])
               = false) by reflexivity.
  exact (@session_without_expiry_stays sample_runtime 999999999 "s-9"
           eternal_db _ H1 H2).
Defined.

Lemma malformed_expiry_raises_witness :
  @get_session sample_runtime 3000 "s-8" odd_db
  = (Raise (TypeError
       "'<' not supported between instances of 'str' and 'datetime.datetime'"),
     odd_db).
Proof.
  assert (H1 : find_one "_id" (VStr "s-8") (sessions odd_db)
               = Some [("_id", VStr "s-8"); ("expires_at", VStr "tomorrow")])
    by reflexivity.
  assert (H2 : dict_get "expires_at"
                 [("_id", VStr "s-8"); ("expires_at", VStr "tomorrow")]
               = Some (VStr "tomorrow")) by reflexivity.
  assert (H3 : truthy (VStr "tomorrow") = true) by reflexivity.
  assert (H4 : ∀ t, VStr "tomorrow" ≠ VTime t) by (intros t; discriminate).
  assert (H5 : cookies (logout_request "s-8") !! "session_id" = Some "s-8")
    by (vm_compute; reflexivity).
  assert (H6 : "s-8" ≠ "") by discriminate.
  exact (proj1 (@malformed_expiry_raises sample_runtime 3000
                  (logout_request "s-8") "s-8" odd_db _ _ H1 H2 H3 H4 H5 H6)).
Defined.

Lemma create_then_delete_session_witness :
  @delete_session "s-2"
    (@create_session_with_meta sample_runtime "s-2" 2000 (VStr "u-1") VNone
       7200 sample_db).2
  = (1, sample_db).
Proof.
  assert (H1 : holds_id (VStr "s-2") (sessions sample_db) = false)
    by reflexivity.
  assert (H2 : (@create_session_with_meta sample_runtime "s-2" 2000
                  (VStr "u-1") VNone 7200 sample_db).1 = Ok "s-2")
    by reflexivity.
  exact (proj1 (@create_then_delete_session sample_runtime "s-2" 2000
                  (VStr "u-1") VNone 7200 sample_db H1) H2).
Defined.

Lemma first_login_creates_user_witness :
  usuarios
    (@get_or_create_user_from_info sample_runtime sample_login
       (VDict [("sub", VStr "2002")]) sample_db).2
  = (usuarios sample_db
     ++ [stored_doc (@new_user_document sample_runtime sample_login
                       [("sub", VStr "2002")])])%list
  ∧ dict_get "role"
      (@new_user_document sample_runtime sample_login [("sub", VStr "2002")])
    = Some (VStr "user").
Proof.
  assert (H1 : truthy (google_id_of [("sub", VStr "2002")]) = true)
    by reflexivity.
  assert (H2 : find_one "google_id"
                 (VStr (@py_str sample_runtime
                          (google_id_of [("sub", VStr "2002")])))
                 (usuarios sample_db) = None) by reflexivity.
  assert (H3 : holds_id (VOid (login_oid sample_login)) (usuarios sample_db)
               = false) by reflexivity.
  assert (H4 : login_accepted sample_login = true) by reflexivity.
  assert (H5 : @insert_refusal sample_runtime
                 (@new_user_document sample_runtime sample_login
                    [("sub", VStr "2002")]) = None) by reflexivity.
  destruct (@first_login_creates_user sample_runtime sample_login
              [("sub", VStr "2002")] sample_db H1 H2 H3 H4 H5)
    as (u & Hd & _ & _ & _ & _ & _ & _ & _ & Hr & _).
  split; [exact Hd | exact Hr].
Defined.

Lemma login_failure_leaves_store_witness :
  (@get_or_create_user_from_info sample_runtime sample_login
     (VDict [("email", VStr "x@example.com")]) sample_db).2
  = sample_db.
Proof.
  assert (H : (@get_or_create_user_from_info sample_runtime sample_login
                 (VDict [("email", VStr "x@example.com")]) sample_db).1
              = Raise (ValueError
                  "google_id (sub) is required from Identity Provider"))
    by reflexivity.
  exact (@login_failure_leaves_store sample_runtime sample_login _ sample_db _ H).
Defined.

Lemma middleware_user_has_live_session_witness :
  (@session_middleware sample_runtime 3000 (logout_request "s-1") sample_db).2
  = sample_db.
Proof.
  assert (H : state_user
                (@session_middleware sample_runtime 3000 (logout_request "s-1")
                   sample_db).1
              = Some admin_user) by (vm_compute; reflexivity).
  exact (proj1 (@middleware_user_has_live_session sample_runtime 3000
                  (logout_request "s-1") sample_db admin_user H)).
Defined.

Lemma new_session_resolves_user_witness :
  @session_middleware sample_runtime 3000 (logout_request "s-2")
    (@create_session_with_meta sample_runtime "s-2" 2000
       (VStr "65a000000000000000000001") VNone 7200 sample_db).2
  = (with_state_user
       (@get_user_by_dbid sample_runtime
          (VStr (@py_str sample_runtime (VStr "65a000000000000000000001")))
          sample_db)
       (with_state_user None (logout_request "s-2")),
     (@create_session_with_meta sample_runtime "s-2" 2000
        (VStr "65a000000000000000000001") VNone 7200 sample_db).2).
Proof.
  assert (H1 : (@create_session_with_meta sample_runtime "s-2" 2000
                  (VStr "65a000000000000000000001") VNone 7200
                  sample_db).1 = Ok "s-2") by reflexivity.
  assert (H2 : 3000 ≤ bson_time (2000 + 7200 * 1000000))
    by (vm_compute; discriminate).
  assert (H3 : cookies (logout_request "s-2") !! "session_id" = Some "s-2")
    by (vm_compute; reflexivity).
  assert (H4 : "s-2" ≠ "") by discriminate.
  exact (proj1 (@new_session_resolves_user sample_runtime "s-2" 2000
                  (VStr "65a000000000000000000001") VNone 7200 sample_db 3000
                  (logout_request "s-2") H1 H3 H4) H2).
Defined.

Lemma auth_me_expired_session_witness :
  @auth_me sample_runtime 6000 (logout_request "s-1") sample_db
  = (Raise (HTTPException 401 "Session invalid or expired"),
     (delete_session "s-1" sample_db).2).
Proof.
  assert (H1 : state_user (logout_request "s-1") = None) by reflexivity.
  assert (H2 : cookies (logout_request "s-1") !! "session_id" = Some "s-1")
    by (vm_compute; reflexivity).
  assert (H3 : "s-1" ≠ "") by discriminate.
  assert (H4 : find_one "_id" (VStr "s-1") (sessions sample_db)
               = Some session_doc) by reflexivity.
  assert (H5 : dict_get "expires_at" session_doc = Some (VTime 5000))
    by reflexivity.
  assert (H6 : 5000 < 6000) by lia.
  exact (@auth_me_expired_session sample_runtime 6000 (logout_request "s-1")
           sample_db "s-1" session_doc 5000 H1 H2 H3 H4 H5 H6).
Defined.

Lemma auth_me_answer_witness :
  sample_db = sample_db
  ∧ ∃ user, [("user", VDict admin_user)] = [("user", VDict user)].
Proof.
  assert (H : @auth_me sample_runtime 3000 (logout_request "s-1") sample_db
              = (Ok [("user", VDict admin_user)], sample_db))
    by (vm_compute; reflexivity).
  destruct (@auth_me_answer sample_runtime 3000 (logout_request "s-1")
              sample_db sample_db _ H) as (Hd & user & Hu & _).
  split; [exact Hd|]. exists user. exact Hu.
Defined.

Lemma update_me_failure_leaves_store_witness :
  db (@update_me sample_runtime 4000 (logout_request "s-1") (start sample_db)).2
  = sample_db.
Proof.
  assert (H : (@update_me sample_runtime 4000 (logout_request "s-1")
                 (start sample_db)).1
              = Raise (HTTPException 401 "Not authenticated"))
    by reflexivity.
  exact (@update_me_failure_leaves_store sample_runtime 4000
           (logout_request "s-1") sample_db _ H).
Defined.


Lemma callback_needs_code_and_settings_witness :
  ∃ code, query_code callback_request = Some code ∧ code ≠ "".
Proof.
  assert (H : trace (@google_callback sample_runtime
                       (sample_callback good_provider) callback_request
                       (start sample_db)).2 ≠ [])
    by (vm_compute; discriminate).
  destruct (@callback_needs_code_and_settings sample_runtime
              (sample_callback good_provider) callback_request sample_db H)
    as (code & Hc & Hne & _).
  exists code. split; [exact Hc | exact Hne].
Defined.

Lemma callback_session_is_live_witness :
  ∃ s, @get_session sample_runtime 3000 "s-2"
         (db (@google_callback sample_runtime (sample_callback good_provider)
                callback_request (start sample_db)).2)
       = (Ok (Some s),
          db (@google_callback sample_runtime (sample_callback good_provider)
                callback_request (start sample_db)).2)
       ∧ dict_get "meta" s
         = Some (VDict [ ("access_token", VStr "at-2");
                         ("refresh_token", VStr "rt-2") ]).
Proof.
  assert (H : @google_callback sample_runtime (sample_callback good_provider)
                callback_request (start sample_db)
              = (Ok {| location := "/login/success";
                       cookie_ops :=
                         [ SetCookie
                             {| key := "session_id"; cookie_value := "s-2";
                                httponly := true; samesite := "lax";
                                secure := true; max_age := 7200 |} ] |},
                 (@google_callback sample_runtime (sample_callback good_provider)
                    callback_request (start sample_db)).2))
    by (vm_compute; reflexivity).
  assert (H2 : 3000 ≤ bson_time
                        (session_now (sample_callback good_provider)
                         + 7200 * 1000000)) by (vm_compute; discriminate).
  destruct (@callback_session_is_live sample_runtime
              (sample_callback good_provider) callback_request
              sample_db _ _ 3000 H H2)
    as (c & s & code & form & tokens & auth & Hc & Hv & _ & _ & _ & Hp
        & Hget & Hm & _).
  exists s. cbn [cookie_ops] in Hc.
  assert (Hval : cookie_value c = "s-2") by exact Hv.
  rewrite Hval in Hget. split; [exact Hget|].
  assert (Ht : tokens = [ ("access_token", VStr "at-2");
                          ("refresh_token", VStr "rt-2") ]).
  { cbn in Hp. congruence. }
  rewrite Hm, Ht. reflexivity.
Defined.

Lemma normalize_product_fallbacks_witness :
  truthy (dict_get_or_none "name"
            (@_normalize_product sample_runtime [("titulo", VStr "Zapato")]))
  = true.
Proof.
  assert (H : [("titulo", VStr "Zapato")] ≠ ([] : dict)) by discriminate.
  exact (proj1 (proj2 (@normalize_product_fallbacks sample_runtime
                         [("titulo", VStr "Zapato")] H))).
Defined.

Lemma product_round_trip_witness :
  @delete_product_in_db (VOid "65b000000000000000000009")
    (@create_product_in_db sample_runtime "65b000000000000000000009"
       [("name", VStr "Zapato")] [admin_doc]).2
  = (1, [admin_doc]).
Proof.
  assert (H1 : dict_get "_id" [("name", VStr "Zapato")] = None)
    by reflexivity.
  assert (H2 : holds_id (VOid "65b000000000000000000009") [admin_doc] = false)
    by reflexivity.
  assert (H3 : @insert_refusal sample_runtime
                 (dict_set "_id" (VOid "65b000000000000000000009")
                    [("name", VStr "Zapato")]) = None) by reflexivity.
  exact (proj2 (proj2 (proj2
           (proj1 (@product_round_trip sample_runtime
                     "65b000000000000000000009"
                     [("name", VStr "Zapato")] [admin_doc] H1 H2) H3)))).
Defined.

(** ** Products: serving and deleting *)

Lemma delete_one_shape f q c :
  (delete_one f q c).2 = c
  ∨ ∃ before doc after,
      c = (before ++ doc :: after)%list
      ∧ matches f q doc = true
      ∧ (delete_one f q c).2 = (before ++ after)%list.
Proof.
  destruct (find_one f q c) as [doc|] eqn:Hfind.
  - right. destruct (find_one_split _ _ _ _ Hfind)
      as (before & after & -> & _ & Hm & Hdel).
    by exists before, doc, after.
  - left. by rewrite (delete_one_none _ _ _ (find_one_is_none _ _ _ Hfind)).
Qed.

Section ProductServing.
Context {RT : Runtime}.

(** X25.  A product created from a payload, one the driver takes, is served
    by [get_product] under the text of its id, normalised: its name,
    description, price and category are read through the fallback chains
    from the payload as the store keeps it.  After a creation the driver
    refused there is no such product. *)
Theorem get_product_serves_created
    (oid text : string) (payload : dict) (coll : collection) :
  dict_get "_id" payload = None →
  holds_id (VOid oid) coll = false →
  ObjectId (VStr text) = Ok (Parsed oid) →
  let get k := stored (dict_get_or_none k payload) in
  let served :=
    get_product (VStr text) (create_product_in_db oid payload coll).2 in
  (insert_refusal (dict_set "_id" (VOid oid) payload) = None →
   ∃ out,
     served = Ok out
     ∧ dict_get "name" out
       = Some (py_or (get "name")
                 (py_or (get "titulo")
                    (py_or (get "nombre") (VStr "Sin Nombre"))))
     ∧ dict_get "description" out
       = Some (py_or (get "description")
                 (py_or (get "descripcion") (VStr "")))
     ∧ dict_get "price" out
       = Some (py_or (get "price") (py_or (get "precio") (VInt 0)))
     ∧ dict_get "category" out = Some (get "category"))
  ∧ (∀ e, insert_refusal (dict_set "_id" (VOid oid) payload) = Some e →
       served = Raise (HTTPException 404 "Product not found"))
  ∧ (∀ k, json_safe (dict_get_or_none k payload) = true →
       get k = dict_get_or_none k payload).
Proof.
  intros Hnoid Hfresh Htext. cbv zeta.
  rewrite (create_product_run _ _ _ Hnoid), Hfresh.
  set (doc := dict_set "_id" (VOid oid) payload).
  split_and!.
  - intros ->. cbn [snd].
    assert (Hid : dict_get "_id" (stored_doc doc) = Some (VOid oid)).
    { rewrite dict_get_stored. unfold doc. by rewrite dict_get_set_eq. }
    assert (Hne : stored_doc doc ≠ [])
      by apply stored_doc_nonempty, dict_set_nonempty.
    destruct (doc_to_dict_some _ Hne) as [p Hp].
    assert (Hget : get_product_from_db (VStr text) (coll ++ [stored_doc doc])
                   = Some p).
    { unfold get_product_from_db, user_filter. rewrite Htext.
      rewrite (find_one_snoc _ _ _ _ (holds_id_false _ _ Hfresh)
                 (matches_oid_id _ _ Hid)). done. }
    assert (Hfield : ∀ k, k ≠ "id" → k ≠ "_id" →
              dict_get_or_none k p = stored (dict_get_or_none k payload)).
    { intros k Hk Hk'. unfold dict_get_or_none at 1.
      rewrite (doc_to_dict_field _ _ _ Hp) by done.
      fold (dict_get_or_none k (stored_doc doc)).
      rewrite dict_get_or_none_stored. unfold dict_get_or_none, doc.
      by rewrite dict_get_set_ne. }
    assert (Hpne : p ≠ []).
    { rewrite (doc_to_dict_unfold _ Hne) in Hp.
      apply (inj Some) in Hp as <-. apply dict_set_nonempty. }
    unfold get_product. rewrite Hget.
    destruct p as [|kv p'] eqn:Hpe; [done|]. rewrite <- Hpe in *.
    eexists. split; [reflexivity|].
    destruct (normalize_product_fields p Hpne) as (_ & Hn & Hd & Hpr & Hc).
    cbv zeta in Hn, Hd, Hpr, Hc.
    rewrite Hn, Hd, Hpr, Hc. rewrite !Hfield by done. done.
  - intros e ->. cbn [snd]. unfold get_product, get_product_from_db, user_filter.
    rewrite Htext.
    by rewrite (find_one_none _ _ _ (holds_id_false _ _ Hfresh)).
  - intros k. apply stored_json_safe.
Qed.

(** X26.  Deleting a product takes an administrator: for any other request
    [delete_product_action] answers 403 and the collection stays; for an
    administrator it redirects to the catalogue and does what
    [delete_product_in_db] does, which removes at most one product, one
    the id matches. *)
Theorem delete_product_needs_admin
    (req : request) (product_id : value) (coll : collection) :
  let out := delete_product_action req product_id coll in
  ((∀ u, state_user req = Some u →
         dict_get "role" u ≠ Some (VStr "admin")) →
   out = (Raise (HTTPException 403 "Access denied: Admins only"), coll))
  ∧ (∀ u, state_user req = Some u →
       dict_get "role" u = Some (VStr "admin") →
       out = (Ok (RedirectResponse "/manage/catalog"),
              (delete_product_in_db product_id coll).2))
  ∧ (∀ resp, out.1 = Ok resp →
       (∃ u, state_user req = Some u
             ∧ dict_get "role" u = Some (VStr "admin"))
       ∧ location resp = "/manage/catalog"
       ∧ (out.2 = coll
          ∨ ∃ before doc after,
              coll = (before ++ doc :: after)%list
              ∧ out.2 = (before ++ after)%list))
  ∧ (∀ e, out.1 = Raise e →
       e = HTTPException 403 "Access denied: Admins only" ∧ out.2 = coll).
Proof.
  cbv zeta. unfold delete_product_action.
  destruct (_ensure_admin req) as [u|e] eqn:Hadm.
  - pose proof Hadm as [Hu Hr]%ensure_admin_ok. split_and!.
    + intros Hno. by destruct (Hno u Hu).
    + intros u' Hu' _. done.
    + intros resp [= <-]. cbn [fst snd location RedirectResponse].
      split_and!; [by exists u | done |].
      unfold delete_product_in_db.
      destruct (user_filter product_id) as [[f q]|]; [|by left].
      destruct (delete_one_shape f q coll)
        as [->|(before & doc & after & -> & _ & ->)]; [by left|].
      right. by exists before, doc, after.
    + done.
  - pose proof (ensure_admin_denied _ _ Hadm) as ->. split_and!.
    + done.
    + intros u Hu Hr. by rewrite (ensure_admin_admin _ _ Hu Hr) in Hadm.
    + done.
    + by intros e [= <-].
Qed.

End ProductServing.

Lemma get_product_serves_created_witness :
  ∃ out, @get_product sample_runtime (VStr "65B000000000000000000009")
           (@create_product_in_db sample_runtime "65b000000000000000000009"
              [("titulo", VStr "Zapato")] [admin_doc]).2
         = Ok out
         ∧ dict_get "name" out = Some (VStr "Zapato").
Proof.
  assert (H1 : dict_get "_id" [("titulo", VStr "Zapato")] = None)
    by reflexivity.
  assert (H2 : holds_id (VOid "65b000000000000000000009") [admin_doc] = false)
    by reflexivity.
  assert (H3 : ObjectId (VStr "65B000000000000000000009")
               = Ok (Parsed "65b000000000000000000009")) by reflexivity.
  assert (H4 : @insert_refusal sample_runtime
                 (dict_set "_id" (VOid "65b000000000000000000009")
                    [("titulo", VStr "Zapato")]) = None) by reflexivity.
  destruct (proj1 (@get_product_serves_created sample_runtime
                     "65b000000000000000000009" "65B000000000000000000009"
                     [("titulo", VStr "Zapato")] [admin_doc] H1 H2 H3) H4)
    as (out & Hout & Hname & _).
  exists out. split; [exact Hout | exact Hname].
Defined.
